(** * Kronos storage core: time, identifiers and the Cassandra client

    A shallow embedding of [kronos/utils/math.py] (the conversions of
    time, the ids, [round_down] and the hex codec) and of the retrieve and
    delete paths of [kronos/storage/cassandra/client.py] (Python 2), with
    the properties the specification states about them and further
    properties read off the code.

    Python integers are unbounded, so they are [Z]; [&], [|], [<<], [>>]
    are [Z.land], [Z.lor], [Z.shiftl], [Z.shiftr]; [%] on integers is the
    floor modulo [Z.modulo].  Python floats are IEEE-754 binary64 numbers,
    here the primitive [float].  A raised exception is a value of
    [exception] carried by the error monad [exc]. *)

From Stdlib Require Import ZArith NArith List Bool String Ascii Lia Sorted.
From Stdlib Require Strings.Byte.
From Stdlib Require Import Floats QArith Qround Qpower Qabs Lqa.
Import ListNotations.

Local Open Scope Z_scope.

(** ** Python exceptions *)

Inductive exception : Type :=
| Exception (msg : string)
| ValueError
| TypeError
| OverflowError
| ZeroDivisionError
| StopIteration.

Inductive exc (A : Type) : Type :=
| Ok (a : A)
| Raise (e : exception).

Arguments Ok {A} a.
Arguments Raise {A} e.

Definition bind {A B : Type} (m : exc A) (k : A -> exc B) : exc B :=
  match m with
  | Ok a => k a
  | Raise e => Raise e
  end.

Notation "x <- m ;; k" := (bind m (fun x => k))
  (at level 61, m at next level, right associativity).

(** ** [uuid.UUID] of the Python standard library *)

(** A UUID object holds one attribute, its 128-bit integer. *)
Record UUID : Type := mkUUID { uuid_int : Z }.

Definition fields : Type := (Z * Z * Z * Z * Z * Z)%type.

Definition in_bits (n x : Z) : bool := (0 <=? x) && (x <? Z.shiftl 1 n).

(** [UUID(fields=(time_low, time_mid, time_hi_version,
    clock_seq_hi_variant, clock_seq_low, node))]: every field is range
    checked, then the six are packed into the integer. *)
Definition UUID_of_fields (f : fields) : exc UUID :=
  let '(time_low, time_mid, time_hi_version,
        clock_seq_hi_variant, clock_seq_low, node) := f in
  if negb (in_bits 32 time_low) then Raise ValueError
  else if negb (in_bits 16 time_mid) then Raise ValueError
  else if negb (in_bits 16 time_hi_version) then Raise ValueError
  else if negb (in_bits 8 clock_seq_hi_variant) then Raise ValueError
  else if negb (in_bits 8 clock_seq_low) then Raise ValueError
  else if negb (in_bits 48 node) then Raise ValueError
  else
    let clock_seq := Z.lor (Z.shiftl clock_seq_hi_variant 8) clock_seq_low in
    Ok (mkUUID
          (Z.lor (Z.lor (Z.lor (Z.lor (Z.shiftl time_low 96)
                                      (Z.shiftl time_mid 80))
                               (Z.shiftl time_hi_version 64))
                        (Z.shiftl clock_seq 48))
                 node)).

Definition time_low (u : UUID) : Z := Z.shiftr (uuid_int u) 96.
Definition time_mid (u : UUID) : Z := Z.land (Z.shiftr (uuid_int u) 80) 0xffff.
Definition time_hi_version (u : UUID) : Z :=
  Z.land (Z.shiftr (uuid_int u) 64) 0xffff.
Definition clock_seq_hi_variant (u : UUID) : Z :=
  Z.land (Z.shiftr (uuid_int u) 56) 0xff.
Definition clock_seq_low (u : UUID) : Z :=
  Z.land (Z.shiftr (uuid_int u) 48) 0xff.
Definition node (u : UUID) : Z := Z.land (uuid_int u) 0xffffffffffff.

(** The [time] property: the 60-bit timestamp of the three time fields. *)
Definition time (u : UUID) : Z :=
  Z.lor (Z.lor (Z.shiftl (Z.land (time_hi_version u) 0x0fff) 48)
               (Z.shiftl (time_mid u) 32))
        (time_low u).

Inductive variant_kind : Type :=
| RESERVED_NCS | RFC_4122 | RESERVED_MICROSOFT | RESERVED_FUTURE.

Definition variant (u : UUID) : variant_kind :=
  if Z.land (uuid_int u) (Z.shiftl 0x8000 48) =? 0 then RESERVED_NCS
  else if Z.land (uuid_int u) (Z.shiftl 0x4000 48) =? 0 then RFC_4122
  else if Z.land (uuid_int u) (Z.shiftl 0x2000 48) =? 0 then RESERVED_MICROSOFT
  else RESERVED_FUTURE.

(** The [version] property is [None] unless the variant is RFC 4122. *)
Definition version (u : UUID) : option Z :=
  match variant u with
  | RFC_4122 => Some (Z.land (Z.shiftr (uuid_int u) 76) 0xf)
  | _ => None
  end.

(** What the constructor does to the integer when [version=] is given:
    the variant bits become [10] and the version nibble is overwritten. *)
Definition set_version (v : Z) (i : Z) : Z :=
  let i := Z.land i (Z.lnot (Z.shiftl 0xc000 48)) in
  let i := Z.lor i (Z.shiftl 0x8000 48) in
  let i := Z.land i (Z.lnot (Z.shiftl 0xf000 64)) in
  Z.lor i (Z.shiftl v 76).

(** [uuid4()] is [UUID(bytes=os.urandom(16), version=4)].  [urandom] is the
    big-endian integer of the sixteen random bytes; reducing it modulo
    [2^128] lets every [Z] stand for sixteen bytes. *)
Definition uuid4 (urandom : Z) : UUID :=
  mkUUID (set_version 4 (urandom mod 2 ^ 128)).

(** Python values that reach [isinstance(uuid, UUID)]. *)
Inductive pyobj : Type :=
| ObjUUID (u : UUID)
| ObjInt (n : Z)
| ObjStr (s : string)
| ObjNone.

(** ** [kronos.utils.uuid] *)

(** Modelled from the spec: [kronos/utils/uuid.py] (the declarations of
    [UUIDType] and [TimeUUID]) is not among the sources.  The spec makes the
    id kind a three-way tag, and an EventId a 128-bit UUID-v1-shaped value
    whose total order is the lexicographic order of its 128-bit big-endian
    encoding, that is the order of the integers. *)
Inductive UUIDType : Type := RANDOM | LOWEST | HIGHEST.

Definition TimeUUID (f : fields) : exc UUID := UUID_of_fields f.

Definition uuid_lt (u v : UUID) : Prop := uuid_int u < uuid_int v.
Definition uuid_le (u v : UUID) : Prop := uuid_int u <= uuid_int v.
Definition uuid_eqb (u v : UUID) : bool := uuid_int u =? uuid_int v.
Definition uuid_leb (u v : UUID) : bool := uuid_int u <=? uuid_int v.

(** ** [kronos/utils/math.py], the integer part *)

Definition uuid_to_kronos_time (uuid : pyobj) : exc Z :=
  match uuid with
  | ObjUUID u => Ok (time u - 0x01b21dd213814000)
  | _ => Raise (Exception "Expected type UUID")
  end.

(** [urandom] is the entropy [uuid4()] draws; only the [else] branch
    reads it. *)
Definition uuid_from_kronos_time (time : Z) (_type : UUIDType) (urandom : Z)
  : exc UUID :=
  let timestamp := time + 0x01b21dd213814000 in
  let time_low := Z.land timestamp 0xffffffff in
  let time_mid := Z.land (Z.shiftr timestamp 32) 0xffff in
  let time_hi_version := Z.land (Z.shiftr timestamp 48) 0x0fff in
  let '(clock_seq_low, clock_seq_hi_variant, node) :=
    match _type with
    | LOWEST => (Z.land 0 0xff, Z.land 0 0x3f, Z.land 0 0xffffffffffff)
    | HIGHEST => (0xff, 0x3f, 0xffffffffffff)
    | RANDOM =>
        let randomuuid := uuid4 urandom in
        (clock_seq_low randomuuid,
         clock_seq_hi_variant randomuuid,
         node randomuuid)
    end in
  TimeUUID (time_low, time_mid, time_hi_version,
            clock_seq_hi_variant, clock_seq_low, node).

(** [value % base] raises [ZeroDivisionError] on a zero divisor; [int] of
    an integer is the identity. *)
Definition round_down (value base : Z) : exc Z :=
  if base =? 0 then Raise ZeroDivisionError
  else Ok (value - value mod base).

(** ** Python numbers and datetimes *)

(** [float(n)] of an integer: the nearest double, ties to even, and
    [OverflowError] when that is beyond the largest double. *)
Definition float_of_int (n : Z) : exc float :=
  match binary_normalize prec emax n 0 false with
  | S754_infinity _ => Raise OverflowError
  | x => Ok (SF2Prim x)
  end.

(** [int(x)] of a float: truncation toward zero; [ValueError] on a NaN,
    [OverflowError] on an infinity.  The result is an unbounded integer. *)
Definition int_of_float (x : float) : exc Z :=
  match Prim2SF x with
  | S754_nan => Raise ValueError
  | S754_infinity _ => Raise OverflowError
  | S754_zero _ => Ok 0
  | S754_finite s m e => Ok (cond_Zopp s (Z.shiftl (Zpos m) e))
  end.

(** A [datetime]: its wall-clock fields as microseconds since
    1970-01-01T00:00:00, and the UTC offset of its [tzinfo] in
    microseconds, [None] for a naive one. *)
Record datetime : Type := mk_datetime { naive_us : Z; tzinfo : option Z }.

Definition tzutc : Z := 0.

Definition replace_tzinfo (d : datetime) (tz : Z) : datetime :=
  mk_datetime (naive_us d) (Some tz).

Definition utcfromtimestamp (t : Z) : datetime :=
  mk_datetime (t * 1000000) None.

(** [a - b]: a timedelta, here its microseconds.  Python refuses to
    subtract a naive datetime from an aware one, and conversely. *)
Definition datetime_sub (a b : datetime) : exc Z :=
  match tzinfo a, tzinfo b with
  | None, None => Ok (naive_us a - naive_us b)
  | Some oa, Some ob => Ok ((naive_us a - oa) - (naive_us b - ob))
  | _, _ => Raise TypeError
  end.

(** [timedelta.total_seconds()]: the microseconds divided by [10**6], the
    quotient of the two integers rounded once to a double. *)
Definition total_seconds (td : Z) : float :=
  match td with
  | Z0 => zero
  | Zpos m =>
      SF2Prim (SFdiv prec emax (S754_finite false m 0)
                     (S754_finite false 1000000 0))
  | Zneg m =>
      SF2Prim (SFdiv prec emax (S754_finite true m 0)
                     (S754_finite false 1000000 0))
  end.

(** What [time_to_kronos_time] is called with. *)
Inductive pytime : Type :=
| TimeInt (n : Z)
| TimeFloat (x : float)
| TimeDatetime (d : datetime).

(** [float(time)]. *)
Definition to_float (time : pytime) : exc float :=
  match time with
  | TimeInt n => float_of_int n
  | TimeFloat x => Ok x
  | TimeDatetime _ => Raise TypeError
  end.

(** ** [kronos/utils/math.py], the conversions of time *)

Definition time_to_kronos_time (time : pytime) : exc Z :=
  time <- match time with
          | TimeDatetime d =>
              td <- datetime_sub (replace_tzinfo d tzutc)
                                 (utcfromtimestamp 0) ;;
              Ok (TimeFloat (total_seconds td))
          | _ => Ok time
          end ;;
  x <- to_float time ;;
  int_of_float (x * 1e7)%float.

Definition kronos_time_to_time (kronos_time : Z) : exc float :=
  x <- float_of_int kronos_time ;;
  Ok (x / 1e7)%float.

(** ** Exact values of doubles *)

(** The rational a finite double stands for; [0] for the others. *)
Definition SF2Q (x : spec_float) : Q :=
  match x with
  | S754_finite s m e =>
      if 0 <=? e then inject_Z (cond_Zopp s (Zpos m) * 2 ^ e)
      else Qmake (cond_Zopp s (Zpos m)) (Z.to_pos (2 ^ (- e)))
  | _ => 0%Q
  end.

Definition F2Q (x : float) : Q := SF2Q (Prim2SF x).

Definition is_finite_float (x : float) : bool :=
  match Prim2SF x with
  | S754_zero _ | S754_finite _ _ _ => true
  | _ => false
  end.

(** The conversion the specification describes: the floor of the seconds
    times [10^7], computed exactly. *)
Definition converts_by_floor (t : pytime) : Prop :=
  forall x, to_float t = Ok x ->
            time_to_kronos_time t
            = Ok (Qfloor (F2Q x * inject_Z 10000000)).

(** No conversion returns an integer outside the signed 64-bit range. *)
Definition never_returns_out_of_range (t : pytime) : Prop :=
  forall k, time_to_kronos_time t = Ok k -> - 2 ^ 63 <= k <= 2 ^ 63 - 1.

(** ** The round trip of a time, as the specification states it *)

(** For a double [s] of the range [0, 2^43), converting to kronos time and
    back gives a double within [1e-7] of [s]. *)
Definition roundtrip_within_1e7 (s : float) : Prop :=
  (0 <= F2Q s)%Q -> (F2Q s < inject_Z (2 ^ 43))%Q ->
  forall k q,
    time_to_kronos_time (TimeFloat s) = Ok k ->
    kronos_time_to_time k = Ok q ->
    (Qabs (F2Q q - F2Q s) <= 1 # 10000000)%Q.

(** ** Rounding of doubles *)

(** [mrs] locates the rational [N / D]: its mantissa is the integer part,
    the round bit tells whether the rest reaches one half, the sticky bit
    whether the rest is neither zero nor one half. *)
Definition located (N D : Z) (mrs : shr_record) : Prop :=
  0 < D /\ 0 <= shr_m mrs /\
  shr_m mrs * D <= N < (shr_m mrs + 1) * D /\
  (shr_r mrs = true <-> D <= 2 * (N - shr_m mrs * D)) /\
  (shr_s mrs = true <->
   N <> shr_m mrs * D /\ 2 * (N - shr_m mrs * D) <> D).

(** Half the spacing of the doubles relative to their magnitude: the
    relative error bound [2^-53] of one rounding to nearest. *)
Definition ulp_half : Q := 1 # 9007199254740992.

(** The double [1e7] is [ten7_mantissa * 2^-29]. *)
Definition ten7_mantissa : positive := 5368709120000000.

(** ** Events, stream handles and the backend *)

Module Event.
(** An event as the storage layer hands it out: its id and its
    serialized form. *)
Record t : Type := mk { id : UUID; json : string }.
End Event.

Inductive ResultOrder : Type := ASCENDING | DESCENDING.

Definition is_descending (order : ResultOrder) : bool :=
  match order with
  | DESCENDING => true
  | ASCENDING => false
  end.

(** The two methods of a stream handle that [client.py] calls, for a
    backend whose calls finish without raising.  [db] is the state of the
    backend: [iterator] reads it and lists the events the iterable will
    produce, in order; [delete] returns its result and the backend after
    the tombstones.  The handle whose calls can raise is [Failing.Stream],
    further down; [never_failing] relates the two. *)
Record Stream (db : Type) : Type := mkStream {
  iterator : db -> UUID -> UUID -> bool -> option Z -> list Event.t;
  delete : db -> UUID -> UUID -> Z * db
}.

Arguments iterator {db} _ _ _ _ _ _.
Arguments delete {db} _ _ _ _.

(** [events.next()] on the underlying iterator. *)
Definition iter_next (events : list Event.t)
  : exc (Event.t * list Event.t) :=
  match events with
  | [] => Raise StopIteration
  | event :: rest => Ok (event, rest)
  end.

(** A generator object of [_retrieve]: not yet started, suspended at a
    [yield] with what the underlying iterator has left, or finished. *)
Inductive generator : Type :=
| Unstarted
| Suspended (events : list Event.t)
| Finished.

Section CassandraStorage.

(** The backend state and what [client.py] does not define itself:
    [self.get_stream] goes through the namespace table,
    [Namespace.get_stream] and [epoch_time_to_kronos_time], none of which
    is among the sources, so the method is a parameter. *)
Variable db : Type.
Variable configuration : Type.
Variable get_stream : string -> string -> configuration -> exc (Stream db).

(** The entropy [uuid4()] would draw; HIGHEST bounds do not read it. *)
Variable urandom : Z.

(** [_delete(self, namespace, stream, start_id, end_time,
    configuration)], run on the backend state [st]. *)
Definition _delete (namespace stream : string) (start_id : UUID)
           (end_time : Z) (config : configuration) (st : db)
  : exc (Z * db) :=
  stream <- get_stream namespace stream config ;;
  end_id <- uuid_from_kronos_time end_time HIGHEST urandom ;;
  Ok (delete stream st start_id end_id).

(** The [while True: yield events.next().json] loop, one resumption. *)
Definition loop_next (events : list Event.t) : exc string * generator :=
  match iter_next events with
  | Raise e => (Raise e, Finished)
  | Ok (event, events) => (Ok (Event.json event), Suspended events)
  end.

(** One [next()] on the generator [_retrieve(self, namespace, stream,
    start_id, end_time, order, limit, configuration)] returns, over the
    backend state [st]: the value yielded or the exception that leaves
    the body, and the generator afterwards.  An exception, the
    [StopIteration] of [events.next()] included, ends the generator. *)
Definition _retrieve_next (namespace stream : string) (start_id : UUID)
           (end_time : Z) (order : ResultOrder) (limit : option Z)
           (config : configuration) (st : db) (g : generator)
  : exc string * generator :=
  match g with
  | Unstarted =>
      match get_stream namespace stream config with
      | Raise e => (Raise e, Finished)
      | Ok stream =>
          match uuid_from_kronos_time end_time HIGHEST urandom with
          | Raise e => (Raise e, Finished)
          | Ok end_id =>
              let events :=
                iterator stream st start_id end_id
                         (is_descending order) limit in
              match iter_next events with
              | Raise e => (Raise e, Finished)
              | Ok (event, events) =>
                  if negb (uuid_eqb (Event.id event) start_id)
                  then (Ok (Event.json event), Suspended events)
                  else loop_next events
              end
          end
      end
  | Suspended events => loop_next events
  | Finished => (Raise StopIteration, Finished)
  end.

End CassandraStorage.

(** A consumer that drains a generator, as [list(...)] or a [for] loop
    does: [StopIteration] ends the sequence, any other exception
    propagates.  [None] when [fuel] resumptions did not reach the end. *)
Fixpoint drain {generator : Type} (fuel : nat)
         (next : generator -> exc string * generator) (g : generator)
  : option (exc (list string)) :=
  match fuel with
  | O => None
  | S fuel =>
      match next g with
      | (Ok v, g') =>
          match drain fuel next g' with
          | Some (Ok vs) => Some (Ok (v :: vs))
          | r => r
          end
      | (Raise StopIteration, _) => Some (Ok [])
      | (Raise e, _) => Some (Raise e)
      end
  end.

(** The events whose [json] a drained [_retrieve] yields, given what the
    underlying iterator produces: the first one is dropped when its id is
    [start_id], every later one is kept. *)
Definition emitted_events (start_id : UUID) (events : list Event.t)
  : list Event.t :=
  match events with
  | [] => []
  | event :: rest =>
      if negb (uuid_eqb (Event.id event) start_id)
      then event :: rest
      else rest
  end.

(** ** The same calls over a stream handle that can fail *)

Module Failing.

(** The two methods of a stream handle when the backend can fail (the
    [StorageError] of section 7 of the specification; the class itself is
    not among the sources).  A call raises, or returns; the iterable that
    [iterator] returns produces its events and then ends with an
    exception, [StopIteration] when it is merely exhausted. *)
Record Stream (db : Type) : Type := mkStream {
  iterator : db -> UUID -> UUID -> bool -> option Z
             -> exc (list Event.t * exception);
  delete : db -> UUID -> UUID -> exc (Z * db)
}.

Arguments iterator {db} _ _ _ _ _ _.
Arguments delete {db} _ _ _ _.

(** [events.next()] on the underlying iterator. *)
Definition iter_next (events : list Event.t * exception)
  : exc (Event.t * (list Event.t * exception)) :=
  match events with
  | ([], last) => Raise last
  | (event :: rest, last) => Ok (event, (rest, last))
  end.

Inductive generator : Type :=
| Unstarted
| Suspended (events : list Event.t * exception)
| Finished.

Section CassandraStorage.

Variable db : Type.
Variable configuration : Type.
Variable get_stream
  : string -> string -> configuration -> exc (Stream db).
Variable urandom : Z.

Definition _delete (namespace stream : string) (start_id : UUID)
           (end_time : Z) (config : configuration) (st : db)
  : exc (Z * db) :=
  stream <- get_stream namespace stream config ;;
  end_id <- uuid_from_kronos_time end_time HIGHEST urandom ;;
  delete stream st start_id end_id.

Definition loop_next (events : list Event.t * exception)
  : exc string * generator :=
  match iter_next events with
  | Raise e => (Raise e, Finished)
  | Ok (event, events) => (Ok (Event.json event), Suspended events)
  end.

Definition _retrieve_next (namespace stream : string) (start_id : UUID)
           (end_time : Z) (order : ResultOrder) (limit : option Z)
           (config : configuration) (st : db) (g : generator)
  : exc string * generator :=
  match g with
  | Unstarted =>
      match get_stream namespace stream config with
      | Raise e => (Raise e, Finished)
      | Ok stream =>
          match uuid_from_kronos_time end_time HIGHEST urandom with
          | Raise e => (Raise e, Finished)
          | Ok end_id =>
              match iterator stream st start_id end_id
                             (is_descending order) limit with
              | Raise e => (Raise e, Finished)
              | Ok events =>
                  match iter_next events with
                  | Raise e => (Raise e, Finished)
                  | Ok (event, events) =>
                      if negb (uuid_eqb (Event.id event) start_id)
                      then (Ok (Event.json event), Suspended events)
                      else loop_next events
                  end
              end
          end
      end
  | Suspended events => loop_next events
  | Finished => (Raise StopIteration, Finished)
  end.

End CassandraStorage.

End Failing.

(** A handle that never fails, seen as one that can. *)
Definition never_failing {db : Type} (s : Stream db) : Failing.Stream db :=
  Failing.mkStream
    db
    (fun st start_id end_id descending limit =>
       Ok (iterator s st start_id end_id descending limit, StopIteration))
    (fun st start_id end_id => Ok (delete s st start_id end_id)).


(** ** The stream of the specification *)

Definition in_range (start_id end_id : UUID) (e : Event.t) : bool :=
  uuid_leb start_id (Event.id e) && uuid_leb (Event.id e) end_id.

Fixpoint insert_by_id (e : Event.t) (l : list Event.t) : list Event.t :=
  match l with
  | [] => [e]
  | x :: l' =>
      if uuid_leb (Event.id e) (Event.id x) then e :: l
      else x :: insert_by_id e l'
  end.

Definition sort_by_id (l : list Event.t) : list Event.t :=
  fold_right insert_by_id [] l.

Definition take_limit {A : Type} (limit : option Z) (l : list A) : list A :=
  match limit with
  | None => l
  | Some n => firstn (Z.to_nat n) l
  end.

(** Modelled from the spec: [kronos/storage/cassandra/internal.py] (the
    [Stream] class, its shard iterators and merger) is not among the
    sources.  The backend state is the list of stored events, one per id.
    Section 3: the event of kronos-time [t] sits in the shard row of
    bucket [round_down(t, width)] and shard [t mod shards]. *)
Definition spec_row_of (width shards : Z) (e : Event.t) : Z * Z :=
  let t := time (Event.id e) - 0x01b21dd213814000 in
  (t - t mod width, t mod shards).

(** Modelled from the spec: section 4.4, the fan-out.  With [t_start] and
    [t_end] the kronos-times of the two bounds, the buckets touched start
    at [round_down(t_start, width)] and advance by [width] while they are
    at most [t_end]; in each of them every shard index below [shards] is
    read. *)
Definition spec_bucket_count (width : Z) (start_id end_id : UUID) : Z :=
  let t_start := time start_id - 0x01b21dd213814000 in
  let t_end := time end_id - 0x01b21dd213814000 in
  let first := t_start - t_start mod width in
  if t_end <? first then 0 else (t_end - first) / width + 1.

Definition spec_buckets (width : Z) (start_id end_id : UUID) : list Z :=
  let t_start := time start_id - 0x01b21dd213814000 in
  let first := t_start - t_start mod width in
  map (fun i => first + Z.of_nat i * width)
      (seq 0 (Z.to_nat (spec_bucket_count width start_id end_id))).

Definition spec_shards (shards : Z) : list Z :=
  map Z.of_nat (seq 0 (Z.to_nat shards)).

(** Whether the fan-out reaches the stored event [e]: its row is among
    the rows touched, and the ranged query on that row, inclusive of both
    bounds, selects it. *)
Definition spec_reads (width shards : Z) (start_id end_id : UUID)
           (e : Event.t) : bool :=
  let '(bucket, shard) := spec_row_of width shards e in
  existsb (Z.eqb bucket) (spec_buckets width start_id end_id)
  && existsb (Z.eqb shard) (spec_shards shards)
  && in_range start_id end_id e.

(** Modelled from the spec: section 4.4.  The merger turns what the shard
    iterators of the touched rows produce into one sequence ordered by id,
    ascending or descending; with a limit [L] it stops after [L]
    events. *)
Definition spec_iterator (width shards : Z) (rows : list Event.t)
           (start_id end_id : UUID) (descending : bool) (limit : option Z)
  : list Event.t :=
  let ascending :=
    sort_by_id (filter (spec_reads width shards start_id end_id) rows) in
  take_limit limit (if descending then rev ascending else ascending).

(** Modelled from the spec: section 4.5, the same fan-out as retrieve, one
    ranged tombstone [id >= start_id AND id <= end_id] per (bucket, shard)
    touched, and the number of tombstone writes as the result. *)
Definition spec_delete (width shards : Z) (rows : list Event.t)
           (start_id end_id : UUID) : Z * list Event.t :=
  (Z.of_nat (List.length (spec_buckets width start_id end_id)
             * List.length (spec_shards shards)),
   filter (fun e => negb (spec_reads width shards start_id end_id e)) rows).

Definition spec_stream (width shards : Z) : Stream (list Event.t) :=
  mkStream (list Event.t) (spec_iterator width shards)
           (spec_delete width shards).

(** ** Sample data *)

(** Ids as [uuid_from_kronos_time] builds them: LOWEST at kronos-time 0,
    RANDOM at 100, 200, 300 and 5000, HIGHEST at 300. *)
Definition id_0_lowest : UUID := mkUUID 0x138140001dd201b20000000000000000.
Definition id_100 : UUID := mkUUID 0x138140641dd201b28000000000001111.
Definition id_200 : UUID := mkUUID 0x138140c81dd201b28000000000002222.
Definition id_300 : UUID := mkUUID 0x1381412c1dd201b28000000000003333.
Definition id_5000 : UUID := mkUUID 0x138153881dd201b28000000000005555.
Definition id_300_highest : UUID :=
  mkUUID 0x1381412c1dd201b23fffffffffffffff.

(** Where the order of the ids and the order of time part: the HIGHEST id
    at kronos-time [0xec7ebfff], whose [time_low] is all ones, and the
    LOWEST id two widths and a tick later, whose [time_low] has wrapped. *)
Definition id_carry_highest : UUID :=
  mkUUID 0xffffffff1dd201b23fffffffffffffff.
Definition id_later_lowest : UUID :=
  mkUUID 0x47868c001dd301b20000000000000000.

Definition sample_rows : list Event.t :=
  [Event.mk id_200 "e200"; Event.mk id_100 "e100"; Event.mk id_300 "e300"].

(** A storage with one stream, of width 60 s and 4 shards. *)
Definition sample_get_stream (_ _ : string) (_ : unit)
  : exc (Stream (list Event.t)) :=
  Ok (spec_stream 600000000 4).



(** ** The end bound, as the specification states it *)

(** Every retrieve includes a stored event whose id is the synthesized
    upper bound: the statement for one call on the sample storage. *)
Definition retrieves_event_at_end_bound (rows : list Event.t)
           (start_id : UUID) (end_time : Z) (order : ResultOrder)
           (limit : option Z) : Prop :=
  forall (end_id : UUID) (e : Event.t),
    uuid_from_kronos_time end_time HIGHEST 0 = Ok end_id ->
    In e rows -> Event.id e = end_id ->
    exists fuel out,
      drain fuel
            (_retrieve_next (list Event.t) unit sample_get_stream 0
                            "ns" "s" start_id end_time order limit tt rows)
            Unstarted
      = Some (Ok out) /\
      In (Event.json e) out.



(** ** Notions used in the statements *)

(** The integer of a UUID built from in-range fields, as a sum. *)
Definition packed (tl tm thv csh csl nd : Z) : Z :=
  tl * 2 ^ 96 + tm * 2 ^ 80 + thv * 2 ^ 64 + csh * 2 ^ 56 + csl * 2 ^ 48 + nd.

(** The three fields a timestamp is cut into, arithmetically. *)
Definition ts_low (ts : Z) : Z := ts mod 2 ^ 32.
Definition ts_mid (ts : Z) : Z := (ts / 2 ^ 32) mod 2 ^ 16.
Definition ts_hi (ts : Z) : Z := (ts / 2 ^ 48) mod 2 ^ 12.

(** The bound ordering the specification states at kronos-time [t], with
    [urandom] the entropy of the RANDOM id. *)
Definition bound_ordering (t urandom : Z) : Prop :=
  exists lo rnd hi lo',
    uuid_from_kronos_time t LOWEST urandom = Ok lo /\
    uuid_from_kronos_time t RANDOM urandom = Ok rnd /\
    uuid_from_kronos_time t HIGHEST urandom = Ok hi /\
    uuid_from_kronos_time (t + 1) LOWEST urandom = Ok lo' /\
    uuid_lt lo rnd /\ uuid_le rnd hi /\ uuid_lt hi lo'.

(** What the specification asks of [uuid_to_kronos_time] on an id [u]:
    failure unless [u] is a version-1 UUID. *)
Definition rejects_non_v1 (u : UUID) : Prop :=
  version u <> Some 1 ->
  exists e, uuid_to_kronos_time (ObjUUID u) = Raise e.

(** The integer of an event's id, and the strict order of events by id. *)
Definition id_int (e : Event.t) : Z := uuid_int (Event.id e).

Definition id_lt (x y : Event.t) : Prop := id_int x < id_int y.

(** ** [kronos/utils/math.py], the remaining conversions *)

(** [datetime.utcfromtimestamp(t)] where its failure matters: the years of
    a [datetime] run from 1 to 9999, and a timestamp outside them raises
    [ValueError]. *)
Definition utcfromtimestamp_checked (t : Z) : exc datetime :=
  if (-62135596800 <=? t) && (t <=? 253402300799)
  then Ok (utcfromtimestamp t)
  else Raise ValueError.

(** [time / 1e7] on an integer [time] converts it with [float] first. *)
Definition kronos_time_to_datetime (time : Z) (round_up : bool)
  : exc datetime :=
  x <- float_of_int time ;;
  time <- int_of_float (x / 1e7)%float ;;
  let time := if round_up then time + 1 else time in
  utcfromtimestamp_checked time.

Definition uuid_to_time (_id : pyobj) : exc float :=
  kronos_time <- uuid_to_kronos_time _id ;;
  kronos_time_to_time kronos_time.

Definition uuid_from_time (time : pytime) (_type : UUIDType) (urandom : Z)
  : exc UUID :=
  kronos_time <- time_to_kronos_time time ;;
  uuid_from_kronos_time kronos_time _type urandom.

(** ** [binascii] and the hex codec of the Python standard library *)

(** A Python 2 [str] is a string of 8-bit characters, here a [string]; a
    [bytearray] is a sequence of bytes, here a [list Byte.byte]. *)

(** The digit of a nibble, as [binascii.hexlify] computes it:
    [(c > 9) ? c + 'a' - 10 : c + '0']. *)
Definition hexdigit (c : N) : ascii :=
  if (9 <? c)%N then ascii_of_N (c + 97 - 10) else ascii_of_N (c + 48).

(** [binascii.hexlify(data)]: two digits per byte, the high nibble
    first. *)
Fixpoint hexlify (data : list Byte.byte) : string :=
  match data with
  | [] => EmptyString
  | x :: rest =>
      String (hexdigit (N.land (N.shiftr (Byte.to_N x) 4) 0xf))
             (String (hexdigit (N.land (Byte.to_N x) 0xf)) (hexlify rest))
  end.

(** The value of a hexadecimal digit of either case; [None] stands for
    the [-1] of the C function. *)
Definition to_int (c : ascii) : option N :=
  let n := N_of_ascii c in
  if ((48 <=? n) && (n <=? 57))%N then Some (n - 48)%N
  else
    let n := if ((65 <=? n) && (n <=? 90))%N then (n + 32)%N else n in
    if ((97 <=? n) && (n <=? 102))%N then Some (n - 97 + 10)%N else None.

(** The loop of [binascii.a2b_hex] over the pairs of digits. *)
Fixpoint a2b_hex_loop (s : string) : exc string :=
  match s with
  | EmptyString => Ok EmptyString
  | String _ EmptyString => Raise TypeError
  | String a (String b rest) =>
      match to_int a, to_int b with
      | Some top, Some bot =>
          out <- a2b_hex_loop rest ;;
          Ok (String (ascii_of_N (N.shiftl top 4 + bot)) out)
      | _, _ => Raise TypeError
      end
  end.

(** [binascii.a2b_hex(s)], which [s.decode('hex')] calls: [TypeError] on
    an odd length, then on the first pair holding a character that is not
    a hexadecimal digit. *)
Definition a2b_hex (s : string) : exc string :=
  if Nat.odd (String.length s) then Raise TypeError else a2b_hex_loop s.

Definition bytearray_to_hex (_bytearray : list Byte.byte) : string :=
  hexlify _bytearray.

Definition hex_to_bytearray (_hex : string) : exc (list Byte.byte) :=
  s <- a2b_hex _hex ;;
  Ok (list_byte_of_string s).

(** [str.lower()] on a byte string: part of the vocabulary of the
    statements about the codec. *)
Definition lower_ascii (c : ascii) : ascii :=
  let n := N_of_ascii c in
  if ((65 <=? n) && (n <=? 90))%N then ascii_of_N (n + 32) else c.

Fixpoint lower (s : string) : string :=
  match s with
  | EmptyString => EmptyString
  | String c rest => String (lower_ascii c) (lower rest)
  end.

(** The hexadecimal digits: the characters [0-9], [a-f] and [A-F]. *)
Definition is_hexdigit (c : ascii) : bool :=
  existsb (Ascii.eqb c) (list_ascii_of_string "0123456789abcdefABCDEF").

Fixpoint all_hexdigits (s : string) : bool :=
  match s with
  | EmptyString => true
  | String c rest => is_hexdigit c && all_hexdigits rest
  end.

(** * Properties *)

(** ** Bit-level facts about packed fields *)

Lemma in_bits_spec (n x : Z) :
  0 <= n -> (in_bits n x = true <-> 0 <= x < 2 ^ n).
Proof.
  intros Hn. unfold in_bits.
  rewrite Z.shiftl_1_l, andb_true_iff, Z.leb_le, Z.ltb_lt. tauto.
Qed.

Lemma land_shiftl_small (hi lo n : Z) :
  0 <= n -> 0 <= lo < 2 ^ n -> Z.land (Z.shiftl hi n) lo = 0.
Proof.
  intros Hn Hlo. apply Z.bits_inj'. intros i Hi.
  rewrite Z.land_spec, Z.bits_0.
  destruct (Z.ltb_spec i n) as [Hlt | Hge].
  - rewrite Z.shiftl_spec_low by assumption. reflexivity.
  - rewrite <- (Z.mod_small lo (2 ^ n)) by assumption.
    rewrite Z.mod_pow2_bits_high by lia. apply andb_false_r.
Qed.

Lemma lor_shiftl_small (hi lo n : Z) :
  0 <= n -> 0 <= lo < 2 ^ n -> Z.lor (Z.shiftl hi n) lo = hi * 2 ^ n + lo.
Proof.
  intros Hn Hlo.
  pose proof (land_shiftl_small hi lo n Hn Hlo) as Hdisj.
  rewrite <- Z.lxor_lor by assumption.
  rewrite <- Z.add_nocarry_lxor by assumption.
  rewrite Z.shiftl_mul_pow2 by assumption. reflexivity.
Qed.

Lemma lor_mul_pow2_small (hi lo n : Z) :
  0 <= n -> 0 <= lo < 2 ^ n -> Z.lor (hi * 2 ^ n) lo = hi * 2 ^ n + lo.
Proof.
  intros Hn Hlo. rewrite <- (lor_shiftl_small hi lo n) by assumption.
  rewrite Z.shiftl_mul_pow2 by assumption. reflexivity.
Qed.

Lemma land_mask (x n : Z) : 0 <= n -> Z.land x (2 ^ n - 1) = x mod 2 ^ n.
Proof.
  intros Hn. rewrite <- Z.land_ones by assumption.
  rewrite Z.ones_equiv, Z.sub_1_r. reflexivity.
Qed.

Lemma UUID_of_fields_packed (tl tm thv csh csl nd : Z) :
  0 <= tl < 2 ^ 32 -> 0 <= tm < 2 ^ 16 -> 0 <= thv < 2 ^ 16 ->
  0 <= csh < 2 ^ 8 -> 0 <= csl < 2 ^ 8 -> 0 <= nd < 2 ^ 48 ->
  UUID_of_fields (tl, tm, thv, csh, csl, nd)
  = Ok (mkUUID (packed tl tm thv csh csl nd)).
Proof.
  intros Htl Htm Hthv Hcsh Hcsl Hnd. unfold UUID_of_fields.
  rewrite (proj2 (in_bits_spec 32 tl ltac:(lia)) Htl).
  rewrite (proj2 (in_bits_spec 16 tm ltac:(lia)) Htm).
  rewrite (proj2 (in_bits_spec 16 thv ltac:(lia)) Hthv).
  rewrite (proj2 (in_bits_spec 8 csh ltac:(lia)) Hcsh).
  rewrite (proj2 (in_bits_spec 8 csl ltac:(lia)) Hcsl).
  rewrite (proj2 (in_bits_spec 48 nd ltac:(lia)) Hnd).
  cbn [negb]. do 2 f_equal. unfold packed.
  rewrite !Z.shiftl_mul_pow2 by lia.
  rewrite (lor_mul_pow2_small csh csl 8) by lia.
  rewrite (lor_mul_pow2_small tl (tm * 2 ^ 80) 96) by lia.
  replace (tl * 2 ^ 96 + tm * 2 ^ 80) with ((tl * 2 ^ 16 + tm) * 2 ^ 80)
    by ring.
  rewrite (lor_mul_pow2_small _ (thv * 2 ^ 64) 80) by lia.
  replace ((tl * 2 ^ 16 + tm) * 2 ^ 80 + thv * 2 ^ 64)
    with (((tl * 2 ^ 16 + tm) * 2 ^ 16 + thv) * 2 ^ 64) by ring.
  rewrite (lor_mul_pow2_small _ ((csh * 2 ^ 8 + csl) * 2 ^ 48) 64) by lia.
  replace (((tl * 2 ^ 16 + tm) * 2 ^ 16 + thv) * 2 ^ 64
           + (csh * 2 ^ 8 + csl) * 2 ^ 48)
    with ((((tl * 2 ^ 16 + tm) * 2 ^ 16 + thv) * 2 ^ 16
           + (csh * 2 ^ 8 + csl)) * 2 ^ 48) by ring.
  rewrite (lor_mul_pow2_small _ nd 48) by lia.
  ring.
Qed.

Lemma packed_fields (tl tm thv csh csl nd : Z) :
  0 <= tl < 2 ^ 32 -> 0 <= tm < 2 ^ 16 -> 0 <= thv < 2 ^ 16 ->
  0 <= csh < 2 ^ 8 -> 0 <= csl < 2 ^ 8 -> 0 <= nd < 2 ^ 48 ->
  let u := mkUUID (packed tl tm thv csh csl nd) in
  time_low u = tl /\ time_mid u = tm /\ time_hi_version u = thv /\
  clock_seq_hi_variant u = csh /\ clock_seq_low u = csl /\ node u = nd.
Proof.
  intros Htl Htm Hthv Hcsh Hcsl Hnd u. subst u.
  unfold time_low, time_mid, time_hi_version, clock_seq_hi_variant,
    clock_seq_low, node, packed. cbn [uuid_int].
  change 0xffff with (2 ^ 16 - 1). change 0xff with (2 ^ 8 - 1).
  change 0xffffffffffff with (2 ^ 48 - 1).
  rewrite !land_mask by lia. rewrite !Z.shiftr_div_pow2 by lia.
  change (2 ^ 96) with 79228162514264337593543950336.
  change (2 ^ 80) with 1208925819614629174706176.
  change (2 ^ 64) with 18446744073709551616.
  change (2 ^ 56) with 72057594037927936.
  change (2 ^ 48) with 281474976710656.
  change (2 ^ 32) with 4294967296 in *.
  change (2 ^ 16) with 65536 in *.
  change (2 ^ 8) with 256 in *.
  repeat split; Z.div_mod_to_equations; lia.
Qed.

Lemma time_of_packed (tl tm thv csh csl nd : Z) :
  0 <= tl < 2 ^ 32 -> 0 <= tm < 2 ^ 16 -> 0 <= thv < 2 ^ 16 ->
  0 <= csh < 2 ^ 8 -> 0 <= csl < 2 ^ 8 -> 0 <= nd < 2 ^ 48 ->
  time (mkUUID (packed tl tm thv csh csl nd))
  = (thv mod 2 ^ 12) * 2 ^ 48 + tm * 2 ^ 32 + tl.
Proof.
  intros Htl Htm Hthv Hcsh Hcsl Hnd.
  destruct (packed_fields tl tm thv csh csl nd Htl Htm Hthv Hcsh Hcsl Hnd)
    as (Etl & Etm & Ethv & _).
  unfold time. rewrite Etl, Etm, Ethv.
  change 0x0fff with (2 ^ 12 - 1). rewrite land_mask by lia.
  rewrite !Z.shiftl_mul_pow2 by lia.
  rewrite (lor_mul_pow2_small _ (tm * 2 ^ 32) 48) by lia.
  replace (thv mod 2 ^ 12 * 2 ^ 48 + tm * 2 ^ 32)
    with ((thv mod 2 ^ 12 * 2 ^ 16 + tm) * 2 ^ 32) by ring.
  rewrite (lor_mul_pow2_small _ tl 32) by lia. ring.
Qed.

(** ** What [uuid4] contributes to a RANDOM id *)

Lemma set_version_bit63 (v x : Z) :
  0 <= v < 16 -> Z.testbit (set_version v x) 63 = true.
Proof.
  intros Hv. unfold set_version.
  rewrite Z.lor_spec, Z.land_spec, Z.lor_spec.
  replace (Z.testbit (Z.shiftl 0x8000 48) 63) with true by reflexivity.
  replace (Z.testbit (Z.lnot (Z.shiftl 0xf000 64)) 63) with true
    by reflexivity.
  rewrite orb_true_r. reflexivity.
Qed.

Lemma set_version_bit62 (v x : Z) :
  0 <= v < 16 -> Z.testbit (set_version v x) 62 = false.
Proof.
  intros Hv. unfold set_version.
  rewrite Z.lor_spec, Z.land_spec, Z.lor_spec, Z.land_spec.
  replace (Z.testbit (Z.lnot (Z.shiftl 0xc000 48)) 62) with false
    by reflexivity.
  replace (Z.testbit (Z.shiftl 0x8000 48) 62) with false by reflexivity.
  rewrite Z.shiftl_spec_low by lia.
  rewrite andb_false_r. reflexivity.
Qed.

Lemma uuid4_fields (urandom : Z) :
  let u := uuid4 urandom in
  0 <= clock_seq_low u < 2 ^ 8 /\
  0x80 <= clock_seq_hi_variant u < 0xc0 /\
  0 <= node u < 2 ^ 48.
Proof.
  cbv zeta. unfold clock_seq_low, clock_seq_hi_variant, node, uuid4.
  cbn [uuid_int]. set (i := set_version 4 (urandom mod 2 ^ 128)).
  assert (H63 : Z.testbit (Z.land (Z.shiftr i 56) 0xff) 7 = true).
  { rewrite Z.land_spec, Z.shiftr_spec by lia.
    change (7 + 56) with 63. unfold i.
    rewrite set_version_bit63 by lia. reflexivity. }
  assert (H62 : Z.testbit (Z.land (Z.shiftr i 56) 0xff) 6 = false).
  { rewrite Z.land_spec, Z.shiftr_spec by lia.
    change (6 + 56) with 62. unfold i.
    rewrite set_version_bit62 by lia. reflexivity. }
  rewrite Z.testbit_true in H63 by lia.
  rewrite Z.testbit_false in H62 by lia.
  revert H63 H62.
  change 0xff with (2 ^ 8 - 1). change 0xffffffffffff with (2 ^ 48 - 1).
  rewrite !land_mask by lia.
  generalize (Z.shiftr i 56) (Z.shiftr i 48). intros a b.
  change (2 ^ 48) with 281474976710656.
  change (2 ^ 8) with 256. change (2 ^ 7) with 128. change (2 ^ 6) with 64.
  intros H63 H62. repeat split; Z.div_mod_to_equations; lia.
Qed.

(** ** The value of [uuid_from_kronos_time], kind by kind *)

Lemma ts_fields_range (ts : Z) :
  0 <= ts_low ts < 2 ^ 32 /\ 0 <= ts_mid ts < 2 ^ 16 /\
  0 <= ts_hi ts < 2 ^ 12.
Proof.
  unfold ts_low, ts_mid, ts_hi.
  repeat split; try (apply Z.mod_pos_bound; lia).
Qed.

Lemma timestamp_masks (ts : Z) :
  Z.land ts 0xffffffff = ts_low ts /\
  Z.land (Z.shiftr ts 32) 0xffff = ts_mid ts /\
  Z.land (Z.shiftr ts 48) 0x0fff = ts_hi ts.
Proof.
  unfold ts_low, ts_mid, ts_hi.
  change 0xffffffff with (2 ^ 32 - 1). change 0xffff with (2 ^ 16 - 1).
  change 0x0fff with (2 ^ 12 - 1).
  rewrite !land_mask by lia. rewrite !Z.shiftr_div_pow2 by lia.
  repeat split.
Qed.

Lemma uuid_from_kronos_time_fields (t : Z) (ty : UUIDType) (r : Z)
      (csh csl nd : Z) :
  0 <= csh < 2 ^ 8 -> 0 <= csl < 2 ^ 8 -> 0 <= nd < 2 ^ 48 ->
  match ty with
  | LOWEST => (Z.land 0 0xff, Z.land 0 0x3f, Z.land 0 0xffffffffffff)
  | HIGHEST => (0xff, 0x3f, 0xffffffffffff)
  | RANDOM => (clock_seq_low (uuid4 r), clock_seq_hi_variant (uuid4 r),
               node (uuid4 r))
  end = (csl, csh, nd) ->
  let ts := t + 0x01b21dd213814000 in
  uuid_from_kronos_time t ty r
  = Ok (mkUUID (packed (ts_low ts) (ts_mid ts) (ts_hi ts) csh csl nd)).
Proof.
  intros Hcsh Hcsl Hnd Hlow ts. unfold uuid_from_kronos_time.
  fold ts. cbv zeta. rewrite Hlow.
  destruct (timestamp_masks ts) as (-> & -> & ->).
  destruct (ts_fields_range ts) as (Hl & Hm & Hh).
  unfold TimeUUID. apply UUID_of_fields_packed; try assumption. lia.
Qed.

Lemma uuid_from_kronos_time_lowest (t r : Z) :
  let ts := t + 0x01b21dd213814000 in
  uuid_from_kronos_time t LOWEST r
  = Ok (mkUUID (packed (ts_low ts) (ts_mid ts) (ts_hi ts) 0 0 0)).
Proof.
  apply uuid_from_kronos_time_fields; try lia. reflexivity.
Qed.

Lemma uuid_from_kronos_time_highest (t r : Z) :
  let ts := t + 0x01b21dd213814000 in
  uuid_from_kronos_time t HIGHEST r
  = Ok (mkUUID (packed (ts_low ts) (ts_mid ts) (ts_hi ts)
                       0x3f 0xff 0xffffffffffff)).
Proof.
  apply uuid_from_kronos_time_fields; try lia. reflexivity.
Qed.

Lemma uuid_from_kronos_time_random (t r : Z) :
  let ts := t + 0x01b21dd213814000 in
  exists csh csl nd,
    0x80 <= csh < 0xc0 /\ 0 <= csl < 2 ^ 8 /\ 0 <= nd < 2 ^ 48 /\
    uuid_from_kronos_time t RANDOM r
    = Ok (mkUUID (packed (ts_low ts) (ts_mid ts) (ts_hi ts) csh csl nd)).
Proof.
  intros ts. destruct (uuid4_fields r) as (Hcsl & Hcsh & Hnd).
  exists (clock_seq_hi_variant (uuid4 r)), (clock_seq_low (uuid4 r)),
    (node (uuid4 r)).
  repeat split; try lia.
  apply uuid_from_kronos_time_fields; try lia. reflexivity.
Qed.

(** The function is total: the masked fields always pass the range checks
    of the constructor. *)
Lemma uuid_from_kronos_time_total (t : Z) (ty : UUIDType) (r : Z) :
  exists u, uuid_from_kronos_time t ty r = Ok u.
Proof.
  destruct ty.
  - destruct (uuid_from_kronos_time_random t r) as (? & ? & ? & _ & _ & _ & E).
    eexists; exact E.
  - eexists; apply uuid_from_kronos_time_lowest.
  - eexists; apply uuid_from_kronos_time_highest.
Qed.

Lemma ts_recompose (ts : Z) :
  ts_hi ts * 2 ^ 48 + ts_mid ts * 2 ^ 32 + ts_low ts = ts mod 2 ^ 60.
Proof.
  unfold ts_low, ts_mid, ts_hi.
  change (2 ^ 60) with 1152921504606846976.
  change (2 ^ 48) with 281474976710656.
  change (2 ^ 32) with 4294967296.
  change (2 ^ 16) with 65536.
  change (2 ^ 12) with 4096.
  Z.div_mod_to_equations; lia.
Qed.

(** Whatever the kind, the [time] property of the constructed id is the
    timestamp reduced to the sixty bits of the field. *)
Lemma time_of_uuid_from_kronos_time (t : Z) (ty : UUIDType) (r : Z) :
  exists u, uuid_from_kronos_time t ty r = Ok u /\
            time u = (t + 0x01b21dd213814000) mod 2 ^ 60.
Proof.
  set (ts := t + 0x01b21dd213814000).
  destruct (ts_fields_range ts) as (Hl & Hm & Hh).
  assert (Hpk : forall csh csl nd,
             0 <= csh < 2 ^ 8 -> 0 <= csl < 2 ^ 8 -> 0 <= nd < 2 ^ 48 ->
             time (mkUUID (packed (ts_low ts) (ts_mid ts) (ts_hi ts)
                                  csh csl nd)) = ts mod 2 ^ 60).
  { intros csh csl nd Hcsh Hcsl Hnd.
    rewrite time_of_packed by lia.
    rewrite (Z.mod_small (ts_hi ts)) by lia. apply ts_recompose. }
  destruct ty.
  - destruct (uuid_from_kronos_time_random t r)
      as (csh & csl & nd & Hcsh & Hcsl & Hnd & E).
    eexists; split; [exact E | apply Hpk; lia].
  - eexists; split; [apply uuid_from_kronos_time_lowest | apply Hpk; lia].
  - eexists; split; [apply uuid_from_kronos_time_highest | apply Hpk; lia].
Qed.

(** ** Round trip through an id *)

(** C4. For every kronos-time [k] whose timestamp [k + 0x01b21dd213814000]
    fits the 60-bit field, and every kind (with every entropy the RANDOM
    kind may draw), [uuid_from_kronos_time] returns an id whose time fields
    hold exactly that timestamp, and [uuid_to_kronos_time] of it is [k]. *)
Theorem uuid_kronos_time_roundtrip (k : Z) (kind : UUIDType) (urandom : Z) :
  0 <= k + 0x01b21dd213814000 < 2 ^ 60 ->
  exists u,
    uuid_from_kronos_time k kind urandom = Ok u /\
    time u = k + 0x01b21dd213814000 /\
    uuid_to_kronos_time (ObjUUID u) = Ok k.
Proof.
  intros Hfit.
  destruct (time_of_uuid_from_kronos_time k kind urandom) as (u & E & Ht).
  rewrite Z.mod_small in Ht by assumption.
  exists u. split; [exact E | split; [exact Ht |]].
  unfold uuid_to_kronos_time. rewrite Ht. f_equal. lia.
Qed.

Lemma uuid_kronos_time_roundtrip_witness :
  exists u,
    uuid_from_kronos_time 14000000000000000 RANDOM 0xdeadbeef = Ok u /\
    time u = 14000000000000000 + 0x01b21dd213814000 /\
    uuid_to_kronos_time (ObjUUID u) = Ok 14000000000000000.
Proof.
  apply (uuid_kronos_time_roundtrip 14000000000000000 RANDOM 0xdeadbeef).
  vm_compute. split; [discriminate | reflexivity].
Defined.

(** ** Ordering of the synthesized bounds *)

(** C2, as stated, fails: at [t = 0xec7ebfff] the low 32 bits of the
    timestamp are all ones, so [t + 1] carries into [time_mid] and clears
    [time_low], the most significant field of the 128-bit integer; the
    HIGHEST id at [t] is then above the LOWEST id at [t + 1]. *)
Lemma bound_ordering_fails_at_time_low_carry :
  ~ bound_ordering 0xec7ebfff 0.
Proof.
  intros (lo & rnd & hi & lo' & _ & _ & Ehi & Elo' & _ & _ & Hlt).
  vm_compute in Ehi. vm_compute in Elo'.
  injection Ehi as <-. injection Elo' as <-.
  vm_compute in Hlt. discriminate Hlt.
Qed.

(** The RANDOM id takes [clock_seq_hi_variant] from [uuid4()] unmasked, so
    it carries the RFC 4122 variant bit [0x80] and lies above the HIGHEST
    id of the same time, whose field is [0x3f]. *)
Lemma random_above_highest (t urandom : Z) :
  exists rnd hi,
    uuid_from_kronos_time t RANDOM urandom = Ok rnd /\
    uuid_from_kronos_time t HIGHEST urandom = Ok hi /\
    uuid_lt hi rnd.
Proof.
  destruct (uuid_from_kronos_time_random t urandom)
    as (csh & csl & nd & Hcsh & Hcsl & Hnd & E).
  eexists; eexists. split; [exact E |].
  split; [apply uuid_from_kronos_time_highest |].
  unfold uuid_lt, packed. cbn [uuid_int].
  change (2 ^ 56) with 72057594037927936.
  change (2 ^ 48) with 281474976710656 in *.
  change (2 ^ 8) with 256 in *. lia.
Qed.

Lemma ts_fields_succ (ts : Z) :
  ts mod 2 ^ 32 <> 2 ^ 32 - 1 ->
  ts_low (ts + 1) = ts_low ts + 1 /\ ts_mid (ts + 1) = ts_mid ts /\
  ts_hi (ts + 1) = ts_hi ts.
Proof.
  unfold ts_low, ts_mid, ts_hi.
  change (2 ^ 48) with 281474976710656.
  change (2 ^ 32) with 4294967296.
  change (2 ^ 16) with 65536.
  change (2 ^ 12) with 4096.
  intros Hc. repeat split; Z.div_mod_to_equations; lia.
Qed.

(** C2, amended. For every kronos-time [t] and every entropy, under the
    order of the 128-bit integers: the LOWEST id at [t] is strictly below
    the RANDOM id and strictly below the HIGHEST id at [t]; and the HIGHEST
    id at [t] is strictly below the LOWEST id at [t + 1] whenever the low
    32 bits of the timestamp [t + 0x01b21dd213814000] are not all ones. *)
Theorem bound_ordering_amended (t urandom : Z) :
  exists lo rnd hi lo',
    uuid_from_kronos_time t LOWEST urandom = Ok lo /\
    uuid_from_kronos_time t RANDOM urandom = Ok rnd /\
    uuid_from_kronos_time t HIGHEST urandom = Ok hi /\
    uuid_from_kronos_time (t + 1) LOWEST urandom = Ok lo' /\
    uuid_lt lo rnd /\ uuid_lt lo hi /\
    ((t + 0x01b21dd213814000) mod 2 ^ 32 <> 2 ^ 32 - 1 -> uuid_lt hi lo').
Proof.
  destruct (uuid_from_kronos_time_random t urandom)
    as (csh & csl & nd & Hcsh & Hcsl & Hnd & E).
  do 4 eexists.
  split; [apply uuid_from_kronos_time_lowest |].
  split; [exact E |].
  split; [apply uuid_from_kronos_time_highest |].
  split; [apply uuid_from_kronos_time_lowest |].
  replace (t + 1 + 0x01b21dd213814000) with (t + 0x01b21dd213814000 + 1)
    by ring.
  set (ts := t + 0x01b21dd213814000).
  unfold uuid_lt, packed. cbn [uuid_int].
  change (2 ^ 96) with 79228162514264337593543950336.
  change (2 ^ 80) with 1208925819614629174706176.
  change (2 ^ 64) with 18446744073709551616.
  change (2 ^ 56) with 72057594037927936.
  change (2 ^ 48) with 281474976710656 in *.
  change (2 ^ 8) with 256 in *.
  split; [lia | split; [lia |]].
  intros Hc. destruct (ts_fields_succ ts Hc) as (-> & -> & ->). lia.
Qed.

Lemma bound_ordering_amended_witness :
  exists lo rnd hi lo',
    uuid_from_kronos_time 14000000000000000 LOWEST 0xdeadbeef = Ok lo /\
    uuid_from_kronos_time 14000000000000000 RANDOM 0xdeadbeef = Ok rnd /\
    uuid_from_kronos_time 14000000000000000 HIGHEST 0xdeadbeef = Ok hi /\
    uuid_from_kronos_time (14000000000000000 + 1) LOWEST 0xdeadbeef
    = Ok lo' /\
    uuid_lt lo rnd /\ uuid_lt lo hi /\ uuid_lt hi lo'.
Proof.
  destruct (bound_ordering_amended 14000000000000000 0xdeadbeef)
    as (lo & rnd & hi & lo' & E1 & E2 & E3 & E4 & H1 & H2 & H3).
  exists lo, rnd, hi, lo'. repeat (split; [assumption |]).
  apply H3. vm_compute. discriminate.
Defined.

(** ** [uuid_to_kronos_time] and the version of its argument *)

(** C7, as stated, fails: a version-4 UUID is converted, not refused. *)
Lemma uuid_to_kronos_time_accepts_version4 :
  ~ rejects_non_v1 (uuid4 0x0123456789abcdef0123456789abcdef).
Proof.
  intros H. destruct H as (e & He).
  - vm_compute. discriminate.
  - vm_compute in He. discriminate He.
Qed.

(** The ids [uuid_from_kronos_time] builds for range bounds are themselves
    not version 1: no [version=] is passed to the constructor. *)
Lemma synthesized_bound_is_not_v1 :
  exists u, uuid_from_kronos_time 14000000000000000 HIGHEST 0 = Ok u /\
            version u <> Some 1.
Proof.
  eexists. split; [vm_compute; reflexivity |]. vm_compute. discriminate.
Qed.

Lemma time_range (u : UUID) :
  0 <= uuid_int u < 2 ^ 128 -> 0 <= time u < 2 ^ 60.
Proof.
  intros Hu. unfold time, time_hi_version, time_mid, time_low.
  change 0x0fff with (2 ^ 12 - 1). change 0xffff with (2 ^ 16 - 1).
  rewrite !land_mask by lia. rewrite !Z.shiftr_div_pow2 by lia.
  rewrite !Z.shiftl_mul_pow2 by lia.
  set (i := uuid_int u) in *.
  assert (Hl : 0 <= i / 2 ^ 96 < 2 ^ 32).
  { change (2 ^ 128) with (2 ^ 96 * 2 ^ 32) in Hu.
    split; [apply Z.div_pos; lia | apply Z.div_lt_upper_bound; lia]. }
  assert (Hm : 0 <= (i / 2 ^ 80) mod 2 ^ 16 < 2 ^ 16)
    by (apply Z.mod_pos_bound; lia).
  assert (Hh : 0 <= ((i / 2 ^ 64) mod 2 ^ 16) mod 2 ^ 12 < 2 ^ 12)
    by (apply Z.mod_pos_bound; lia).
  rewrite (lor_mul_pow2_small _ (_ * 2 ^ 32) 48) by lia.
  match goal with
  | |- context [Z.lor (?h * 2 ^ 48 + ?m * 2 ^ 32) ?l] =>
      replace (h * 2 ^ 48 + m * 2 ^ 32) with ((h * 2 ^ 16 + m) * 2 ^ 32)
        by ring;
      rewrite (lor_mul_pow2_small (h * 2 ^ 16 + m) l 32) by lia
  end.
  lia.
Qed.

(** C7, amended. [uuid_to_kronos_time] checks the type of its argument and
    nothing else: for every well-formed UUID, of any version or variant, it
    returns the 60-bit timestamp minus [0x01b21dd213814000]; for a value
    that is not a UUID it raises the generic [Exception] with the message
    "Expected type UUID". *)
Theorem uuid_to_kronos_time_any_version :
  (forall u : UUID,
      0 <= uuid_int u < 2 ^ 128 ->
      exists k, uuid_to_kronos_time (ObjUUID u) = Ok k /\
                k = time u - 0x01b21dd213814000 /\
                - 0x01b21dd213814000 <= k < 2 ^ 60 - 0x01b21dd213814000) /\
  (forall obj : pyobj,
      (forall u, obj <> ObjUUID u) ->
      uuid_to_kronos_time obj = Raise (Exception "Expected type UUID")).
Proof.
  split.
  - intros u Hu. pose proof (time_range u Hu) as Ht.
    eexists. split; [reflexivity |]. split; [reflexivity | lia].
  - intros obj Hobj. destruct obj as [u | n | s |]; try reflexivity.
    exfalso. apply (Hobj u). reflexivity.
Qed.

Lemma uuid_to_kronos_time_any_version_witness :
  (exists k,
      uuid_to_kronos_time
        (ObjUUID (uuid4 0x0123456789abcdef0123456789abcdef)) = Ok k /\
      k = time (uuid4 0x0123456789abcdef0123456789abcdef)
          - 0x01b21dd213814000 /\
      - 0x01b21dd213814000 <= k < 2 ^ 60 - 0x01b21dd213814000) /\
  uuid_to_kronos_time (ObjInt 5) = Raise (Exception "Expected type UUID").
Proof.
  destruct uuid_to_kronos_time_any_version as [Huuid Hother]. split.
  - apply Huuid. vm_compute. split; [discriminate | reflexivity].
  - apply Hother. intros u. discriminate.
Defined.

(** ** [round_down] *)

(** C10. [round_down(v, 0)] raises [ZeroDivisionError], although [0] is a
    non-negative base; for [base >= 1] and [v >= 0] the function returns
    [v - v mod base], which is the greatest multiple of [base] that is at
    most [v]. *)
Theorem round_down_spec (v base : Z) :
  (base = 0 -> round_down v base = Raise ZeroDivisionError) /\
  (1 <= base -> 0 <= v ->
   exists r, round_down v base = Ok r /\
             r = v - v mod base /\
             (base | r) /\ 0 <= r <= v /\
             (forall m, (base | m) -> m <= v -> m <= r)).
Proof.
  split.
  - intros ->. reflexivity.
  - intros Hbase Hv. unfold round_down.
    destruct (Z.eqb_spec base 0) as [-> | _]; [lia |].
    exists (v - v mod base). split; [reflexivity |].
    split; [reflexivity |].
    pose proof (Z.mod_pos_bound v base ltac:(lia)) as Hmod.
    pose proof (Z.div_mod v base ltac:(lia)) as Hdm.
    pose proof (Z.mod_le v base ltac:(lia) ltac:(lia)) as Hle.
    assert (Hr : v - v mod base = v / base * base) by lia.
    split; [| split; [lia |]].
    + exists (v / base). exact Hr.
    + intros m (q & ->) Hm. rewrite Hr.
      apply Z.mul_le_mono_nonneg_r; [lia |].
      apply Z.div_le_lower_bound; lia.
Qed.

Lemma round_down_spec_witness :
  round_down 17 0 = Raise ZeroDivisionError /\
  exists r, round_down 17 5 = Ok r /\
            r = 17 - 17 mod 5 /\
            (5 | r) /\ 0 <= r <= 17 /\
            (forall m, (5 | m) -> m <= 17 -> m <= r).
Proof.
  split.
  - apply (proj1 (round_down_spec 17 0)). reflexivity.
  - apply (proj2 (round_down_spec 17 5)); lia.
Defined.

(** ** The generator of [_retrieve] *)

Section RetrieveGenerator.

Variable db : Type.
Variable configuration : Type.
Variable get_stream : string -> string -> configuration -> exc (Stream db).
Variable urandom : Z.
Variables (namespace stream : string) (start_id : UUID) (end_time : Z).
Variables (order : ResultOrder) (limit : option Z).
Variables (config : configuration) (st : db).

Let next : generator -> exc string * generator :=
  _retrieve_next db configuration get_stream urandom namespace stream
                 start_id end_time order limit config st.

Lemma drain_suspended (events : list Event.t) (fuel : nat) :
  (List.length events < fuel)%nat ->
  drain fuel next (Suspended events) = Some (Ok (map Event.json events)).
Proof.
  revert fuel. induction events as [| event rest IH]; intros fuel Hfuel.
  - destruct fuel as [| fuel]; [inversion Hfuel | reflexivity].
  - destruct fuel as [| fuel]; [inversion Hfuel |].
    cbn [drain next _retrieve_next loop_next iter_next].
    rewrite IH by (cbn [List.length] in Hfuel; lia). reflexivity.
Qed.

(** Draining the generator gives the [json] of [emitted_events] applied
    to what the stream's iterator produces for the bounds
    [start_id] and [uuid_from_kronos_time(end_time, HIGHEST)]. *)
Lemma drain_retrieve (s : Stream db) (end_id : UUID) (fuel : nat) :
  get_stream namespace stream config = Ok s ->
  uuid_from_kronos_time end_time HIGHEST urandom = Ok end_id ->
  let events :=
    iterator s st start_id end_id (is_descending order) limit in
  (List.length events < fuel)%nat ->
  drain fuel next Unstarted
  = Some (Ok (map Event.json (emitted_events start_id events))).
Proof.
  intros Hs Hend events Hfuel.
  destruct fuel as [| fuel]; [inversion Hfuel |].
  cbn [drain next _retrieve_next]. rewrite Hs, Hend. fold events.
  destruct events as [| event rest] eqn:E; [reflexivity |].
  cbn [iter_next emitted_events].
  destruct (negb (uuid_eqb (Event.id event) start_id)).
  - fold next. rewrite drain_suspended by (cbn [List.length] in Hfuel; lia).
    reflexivity.
  - apply (drain_suspended rest (S fuel)). cbn [List.length] in Hfuel. lia.
Qed.

End RetrieveGenerator.

(** C9. When the iterator of the stream produces nothing for the queried
    range, the first [next()] on the generator of [_retrieve] ends it with
    [StopIteration], the signal of normal exhaustion in Python 2; a
    consumer draining the generator gets the empty sequence and no error. *)
Theorem retrieve_empty_iterator_yields_nothing
        (db configuration : Type)
        (get_stream : string -> string -> configuration -> exc (Stream db))
        (urandom : Z) (namespace stream : string) (start_id : UUID)
        (end_time : Z) (order : ResultOrder) (limit : option Z)
        (config : configuration) (st : db) (s : Stream db) (fuel : nat) :
  get_stream namespace stream config = Ok s ->
  (forall end_id,
      uuid_from_kronos_time end_time HIGHEST urandom = Ok end_id ->
      iterator s st start_id end_id (is_descending order) limit = []) ->
  (0 < fuel)%nat ->
  _retrieve_next db configuration get_stream urandom namespace stream
                 start_id end_time order limit config st Unstarted
  = (Raise StopIteration, Finished) /\
  drain fuel
        (_retrieve_next db configuration get_stream urandom namespace stream
                        start_id end_time order limit config st)
        Unstarted
  = Some (Ok []).
Proof.
  intros Hs Hempty Hfuel.
  destruct (uuid_from_kronos_time_total end_time HIGHEST urandom)
    as (end_id & Hend).
  specialize (Hempty end_id Hend).
  assert (Hnext :
            _retrieve_next db configuration get_stream urandom namespace
                           stream start_id end_time order limit config st
                           Unstarted
            = (Raise StopIteration, Finished)).
  { cbn [_retrieve_next]. rewrite Hs, Hend, Hempty. reflexivity. }
  split; [exact Hnext |].
  destruct fuel as [| fuel]; [inversion Hfuel |].
  cbn [drain]. rewrite Hnext. reflexivity.
Qed.

Lemma retrieve_empty_iterator_yields_nothing_witness :
  let rows := [Event.mk id_5000 "e5000"] in
  _retrieve_next (list Event.t) unit sample_get_stream 0 "ns" "s"
                 id_0_lowest 1000 ASCENDING None tt rows Unstarted
  = (Raise StopIteration, Finished) /\
  drain 1
        (_retrieve_next (list Event.t) unit sample_get_stream 0 "ns" "s"
                        id_0_lowest 1000 ASCENDING None tt rows)
        Unstarted
  = Some (Ok []).
Proof.
  cbv zeta.
  apply (retrieve_empty_iterator_yields_nothing
           (list Event.t) unit sample_get_stream 0 "ns" "s" id_0_lowest
           1000 ASCENDING None tt _ (spec_stream 600000000 4) 1).
  - reflexivity.
  - intros end_id Hend. vm_compute in Hend. injection Hend as <-.
    vm_compute. reflexivity.
  - lia.
Defined.

Lemma sample_ids :
  uuid_from_kronos_time 0 LOWEST 0 = Ok id_0_lowest /\
  uuid_from_kronos_time 100 RANDOM 0x1111 = Ok id_100 /\
  uuid_from_kronos_time 200 RANDOM 0x2222 = Ok id_200 /\
  uuid_from_kronos_time 300 RANDOM 0x3333 = Ok id_300 /\
  uuid_from_kronos_time 5000 RANDOM 0x5555 = Ok id_5000 /\
  uuid_from_kronos_time 300 HIGHEST 0 = Ok id_300_highest.
Proof. repeat split; vm_compute; reflexivity. Qed.

(** ** The start bound of [_retrieve] *)

(** C1 at the failing input. The stream holds events at kronos-times 100,
    200 and 300; the caller resumes after the first, in descending order.
    The iterator produces the events of ids 300, 200, 100; only the first
    is compared with [start_id], so the event whose id equals [start_id]
    is yielded, last. *)
Theorem retrieve_descending_emits_start_id :
  drain 4
        (_retrieve_next (list Event.t) unit sample_get_stream 0 "ns" "s"
                        id_100 1000 DESCENDING None tt sample_rows)
        Unstarted
  = Some (Ok ["e300"; "e200"; "e100"]%string).
Proof.
  rewrite (drain_retrieve (list Event.t) unit sample_get_stream 0 "ns" "s"
             id_100 1000 DESCENDING None tt sample_rows
             (spec_stream 600000000 4)
             (mkUUID 0x138143e81dd201b23fffffffffffffff) 4);
    [| reflexivity | vm_compute; reflexivity | vm_compute; lia].
  vm_compute. reflexivity.
Qed.

(** Whatever the iterator produces, an event behind the first one is
    yielded even when its id is [start_id]. *)
Lemma emitted_events_keeps_later (start_id : UUID) (first x : Event.t)
      (rest : list Event.t) :
  In x rest -> In x (emitted_events start_id (first :: rest)).
Proof.
  intros Hin. cbn [emitted_events].
  destruct (negb (uuid_eqb (Event.id first) start_id));
    [right |]; exact Hin.
Qed.

(** ** The iterator of the specification: membership and order *)

Lemma in_range_spec (start_id end_id : UUID) (e : Event.t) :
  in_range start_id end_id e = true
  <-> uuid_int start_id <= id_int e <= uuid_int end_id.
Proof.
  unfold in_range, uuid_leb, id_int.
  rewrite andb_true_iff, !Z.leb_le. reflexivity.
Qed.

Lemma In_insert_by_id (x e : Event.t) (l : list Event.t) :
  In x (insert_by_id e l) <-> x = e \/ In x l.
Proof.
  induction l as [| y l IH]; cbn [insert_by_id].
  - cbn [In]. intuition congruence.
  - destruct (uuid_leb (Event.id e) (Event.id y)); cbn [In] in *.
    + intuition congruence.
    + rewrite IH. tauto.
Qed.

Lemma In_sort_by_id (x : Event.t) (l : list Event.t) :
  In x (sort_by_id l) <-> In x l.
Proof.
  induction l as [| y l IH]; cbn [sort_by_id fold_right].
  - reflexivity.
  - fold (sort_by_id l). rewrite In_insert_by_id, IH. cbn [In].
    intuition congruence.
Qed.



Lemma insert_by_id_sorted (e : Event.t) (l : list Event.t) :
  StronglySorted id_lt l ->
  ~ In (id_int e) (map id_int l) ->
  StronglySorted id_lt (insert_by_id e l).
Proof.
  induction l as [| y l IH]; intros Hs Hfresh; cbn [insert_by_id].
  - constructor; constructor.
  - apply StronglySorted_inv in Hs. destruct Hs as [Hl Hy].
    cbn [map In] in Hfresh.
    unfold uuid_leb. fold (id_int e). fold (id_int y).
    destruct (Z.leb_spec (id_int e) (id_int y)) as [Hle | Hgt].
    + assert (Hlt : id_lt e y) by (unfold id_lt; lia).
      constructor; [constructor; assumption |].
      constructor; [exact Hlt |].
      rewrite Forall_forall in Hy |- *. intros z Hz.
      specialize (Hy z Hz). unfold id_lt in *. lia.
    + constructor; [apply IH; tauto |].
      rewrite Forall_forall in Hy |- *. intros z Hz.
      rewrite In_insert_by_id in Hz. destruct Hz as [-> | Hz];
        [unfold id_lt; lia | apply Hy; exact Hz].
Qed.

Lemma sort_by_id_sorted (l : list Event.t) :
  NoDup (map id_int l) -> StronglySorted id_lt (sort_by_id l).
Proof.
  induction l as [| y l IH]; intros Hnd.
  - constructor.
  - cbn [map] in Hnd. apply NoDup_cons_iff in Hnd.
    destruct Hnd as [Hfresh Hnd].
    cbn [sort_by_id fold_right]. fold (sort_by_id l).
    apply insert_by_id_sorted; [apply IH; exact Hnd |].
    intros Hin. apply Hfresh.
    apply in_map_iff in Hin. destruct Hin as (z & Hz & Hin).
    rewrite In_sort_by_id in Hin. rewrite <- Hz. apply in_map. exact Hin.
Qed.

(** Selecting rows keeps the ids pairwise distinct. *)
Lemma filter_rows_distinct_ids (keep : Event.t -> bool)
      (rows : list Event.t) :
  NoDup (map id_int rows) -> NoDup (map id_int (filter keep rows)).
Proof.
  induction rows as [| row rows IH]; intros Hdistinct; [constructor |].
  cbn [map] in Hdistinct. inversion Hdistinct as [| i ids Hfresh Hrest].
  subst. cbn [filter]. destruct (keep row); [| exact (IH Hrest)].
  cbn [map]. constructor; [| exact (IH Hrest)].
  intros Habs. apply Hfresh. rewrite in_map_iff in Habs |- *.
  destruct Habs as (other & Hid & Hother).
  exists other. rewrite filter_In in Hother. tauto.
Qed.

Lemma In_firstn {A : Type} (n : nat) (x : A) (l : list A) :
  In x (firstn n l) -> In x l.
Proof.
  revert l. induction n as [| n IH]; intros l Hin; [destruct Hin |].
  destruct l as [| y l]; [destruct Hin |].
  destruct Hin as [-> | Hin]; [left; reflexivity | right; apply IH, Hin].
Qed.

Lemma StronglySorted_firstn {A : Type} (R : A -> A -> Prop) (n : nat)
      (l : list A) :
  StronglySorted R l -> StronglySorted R (firstn n l).
Proof.
  revert l. induction n as [| n IH]; intros l Hs; [constructor |].
  destruct l as [| x l]; [constructor |].
  apply StronglySorted_inv in Hs. destruct Hs as [Hl Hx].
  cbn [firstn]. constructor; [apply IH; exact Hl |].
  rewrite Forall_forall in Hx |- *. intros z Hz.
  apply Hx. apply (In_firstn n _ _ Hz).
Qed.

Lemma In_take_limit {A : Type} (limit : option Z) (x : A) (l : list A) :
  In x (take_limit limit l) -> In x l.
Proof.
  destruct limit as [n |]; cbn [take_limit]; [| tauto].
  apply In_firstn.
Qed.

(** In ascending order the first-event test of [_retrieve] is enough: with
    one stored event per id, every event a drained retrieve yields has an
    id strictly above [start_id] (and at most [end_id]). *)
Lemma spec_reads_in_range (width shards : Z) (start_id end_id : UUID)
      (e : Event.t) :
  spec_reads width shards start_id end_id e = true ->
  in_range start_id end_id e = true.
Proof.
  unfold spec_reads. destruct (spec_row_of width shards e) as [bucket shard].
  rewrite !andb_true_iff. tauto.
Qed.

Lemma retrieve_ascending_excludes_start_id
      (width shards : Z) (rows : list Event.t) (start_id end_id : UUID)
      (limit : option Z) :
  NoDup (map id_int rows) ->
  Forall (fun e => uuid_int start_id < id_int e <= uuid_int end_id)
         (emitted_events start_id
                         (spec_iterator width shards rows start_id end_id
                                        false limit)).
Proof.
  intros Hnd. unfold spec_iterator.
  set (asc := sort_by_id
                (filter (spec_reads width shards start_id end_id) rows)).
  assert (Hsorted : StronglySorted id_lt (take_limit limit asc)).
  { assert (Hs : StronglySorted id_lt asc)
      by (apply sort_by_id_sorted, filter_rows_distinct_ids; exact Hnd).
    destruct limit as [n |]; cbn [take_limit];
      [apply StronglySorted_firstn |]; exact Hs. }
  assert (Hrange : forall e, In e (take_limit limit asc) ->
                             uuid_int start_id <= id_int e
                             <= uuid_int end_id).
  { intros e He. apply In_take_limit in He. unfold asc in He.
    rewrite In_sort_by_id in He.
    rewrite filter_In in He. apply in_range_spec.
    apply (spec_reads_in_range width shards). tauto. }
  destruct (take_limit limit asc) as [| first rest];
    cbn [emitted_events]; [constructor |].
  apply StronglySorted_inv in Hsorted. destruct Hsorted as [_ Hfirst].
  rewrite Forall_forall in Hfirst.
  pose proof (Hrange first (or_introl eq_refl)) as Hf.
  unfold uuid_eqb. fold (id_int first).
  destruct (Z.eqb_spec (id_int first) (uuid_int start_id)) as [Heq | Hne];
    cbn [negb]; rewrite Forall_forall; intros e He.
  - specialize (Hfirst e He). specialize (Hrange e (or_intror He)).
    unfold id_lt in Hfirst. lia.
  - destruct He as [<- | He]; [lia |].
    specialize (Hfirst e He). specialize (Hrange e (or_intror He)).
    unfold id_lt in Hfirst. lia.
Qed.

(** ** The end bound of retrieve and delete *)

Lemma sample_carry_ids :
  uuid_from_kronos_time 0xec7ebfff HIGHEST 0 = Ok id_carry_highest /\
  uuid_from_kronos_time (0xec7ebfff + 1 + 2 * 600000000) LOWEST 0
  = Ok id_later_lowest.
Proof. split; vm_compute; reflexivity. Qed.


(** A limit is a second way to miss the bound: with [limit = 1] in
    ascending order the retrieve stops after the event at kronos-time 100
    and never reaches the stored event whose id is the HIGHEST id at
    [end_time = 300]. *)
Lemma retrieve_limit_cuts_end_bound :
  ~ retrieves_event_at_end_bound
      (Event.mk id_300_highest "bound" :: sample_rows)
      id_0_lowest 300 ASCENDING (Some 1).
Proof.
  intros H.
  destruct (H id_300_highest (Event.mk id_300_highest "bound"))
    as (fuel & out & Hdrain & Hin).
  - vm_compute. reflexivity.
  - left. reflexivity.
  - reflexivity.
  - destruct fuel as [| [| fuel]];
      [discriminate Hdrain | discriminate Hdrain |].
    rewrite (drain_retrieve (list Event.t) unit sample_get_stream 0
               "ns" "s" id_0_lowest 300 ASCENDING (Some 1) tt _
               (spec_stream 600000000 4) id_300_highest (S (S fuel)))
      in Hdrain;
      [| reflexivity | vm_compute; reflexivity
       | vm_compute; apply le_n_S, le_n_S, Nat.le_0_l ].
    injection Hdrain as <-. vm_compute in Hin.
    destruct Hin as [Hin | []]. discriminate Hin.
Qed.




(** *** The fan-out at the upper bound *)









(** ** Doubles: mantissas, exponents and exact values *)

Lemma digits2_pos_bounds (p : positive) :
  2 ^ (Zpos (digits2_pos p) - 1) <= Zpos p < 2 ^ Zpos (digits2_pos p).
Proof.
  induction p as [p IH | p IH |]; cbn [digits2_pos].
  - rewrite Pos2Z.inj_succ.
    replace (Z.succ (Zpos (digits2_pos p)) - 1)
      with (Z.succ (Zpos (digits2_pos p) - 1)) by lia.
    rewrite !Z.pow_succ_r by lia. lia.
  - rewrite Pos2Z.inj_succ.
    replace (Z.succ (Zpos (digits2_pos p)) - 1)
      with (Z.succ (Zpos (digits2_pos p) - 1)) by lia.
    rewrite !Z.pow_succ_r by lia. lia.
  - cbn. lia.
Qed.

Lemma fexp_unfold (e : Z) : fexp prec emax e = Z.max (e - 53) (- 1074).
Proof. reflexivity. Qed.

(** What validity says of a finite double [m * 2^e]. *)
Lemma bounded_inv (m : positive) (e : Z) :
  bounded prec emax m e = true ->
  e = Z.max (Zpos (digits2_pos m) + e - 53) (- 1074) /\ e <= 971.
Proof.
  unfold bounded, canonical_mantissa.
  rewrite andb_true_iff, Z.eqb_eq, Z.leb_le, fexp_unfold.
  change (emax - prec) with 971. lia.
Qed.

Lemma Prim2SF_finite_inv (x : float) (s : bool) (m : positive) (e : Z) :
  Prim2SF x = S754_finite s m e ->
  Zpos m < 2 ^ 53 /\ - 1074 <= e <= 971.
Proof.
  intros Hx. pose proof (Prim2SF_valid x) as Hv. rewrite Hx in Hv.
  cbn [valid_binary] in Hv. apply bounded_inv in Hv.
  destruct Hv as [Hcanon He].
  pose proof (digits2_pos_bounds m) as [_ Hm].
  assert (Hd : Zpos (digits2_pos m) <= 53) by lia.
  split; [| lia].
  apply Z.lt_le_trans with (1 := Hm).
  apply Z.pow_le_mono_r; lia.
Qed.

Lemma Zpos_to_pos_pow2 (n : Z) : 0 <= n -> Zpos (Z.to_pos (2 ^ n)) = 2 ^ n.
Proof.
  intros Hn. apply Z2Pos.id. apply Z.pow_pos_nonneg; lia.
Qed.

(** ** [int] of a float truncates toward zero *)

Lemma int_of_float_truncates (p : float) :
  is_finite_float p = true ->
  exists k,
    int_of_float p = Ok k /\
    ((0 <= F2Q p)%Q -> k = Qfloor (F2Q p)) /\
    ((F2Q p <= 0)%Q -> k = Qceiling (F2Q p)).
Proof.
  unfold is_finite_float, int_of_float, F2Q.
  destruct (Prim2SF p) as [s | s | | s m e]; try discriminate; intros _.
  - exists 0. repeat split.
  - exists (cond_Zopp s (Z.shiftl (Zpos m) e)). split; [reflexivity |].
    cbn [SF2Q]. destruct (Z.leb_spec 0 e) as [He | He].
    + rewrite Z.shiftl_mul_pow2 by assumption.
      assert (Hk : cond_Zopp s (Zpos m * 2 ^ e)
                   = cond_Zopp s (Zpos m) * 2 ^ e)
        by (destruct s; cbn [cond_Zopp]; lia).
      rewrite Hk. split; intros _.
      * symmetry. apply Qfloor_Z.
      * symmetry. apply Qceiling_Z.
    + rewrite <- Z.shiftr_opp_r, Z.shiftr_div_pow2 by lia.
      assert (Hden : Zpos (Z.to_pos (2 ^ (- e))) = 2 ^ (- e))
        by (apply Zpos_to_pos_pow2; lia).
      assert (Hpos : 0 < 2 ^ (- e)) by (apply Z.pow_pos_nonneg; lia).
      destruct s; cbn [cond_Zopp]; split; intros Hsign.
      * exfalso. unfold Qle in Hsign. cbn in Hsign. lia.
      * unfold Qceiling, Qfloor, Qopp. cbn [Qnum Qden].
        rewrite Hden. reflexivity.
      * unfold Qfloor. rewrite Hden. reflexivity.
      * exfalso. unfold Qle in Hsign. cbn in Hsign. lia.
Qed.

(** ** [time_to_kronos_time]: value and failures *)

Lemma time_to_kronos_time_numeric (t : pytime) (x : float) :
  to_float t = Ok x ->
  time_to_kronos_time t = int_of_float (x * 1e7)%float.
Proof.
  intros Hx. destruct t as [n | y | d]; cbn [to_float] in Hx.
  - unfold time_to_kronos_time. cbn [bind to_float]. rewrite Hx.
    reflexivity.
  - injection Hx as ->. reflexivity.
  - discriminate Hx.
Qed.

(** A datetime argument never gets through: [replace(tzinfo=tzutc())]
    makes it aware, [utcfromtimestamp(0)] is naive, and the subtraction of
    the two raises [TypeError]. *)
Lemma time_to_kronos_time_datetime (d : datetime) :
  time_to_kronos_time (TimeDatetime d) = Raise TypeError.
Proof. reflexivity. Qed.

(** C5, as stated, fails: one second and [2^-30] before the epoch the
    product is [-10000000.0093...]; the code returns [-10000000], the
    floor is [-10000001]. *)
Lemma time_to_kronos_time_is_not_floor :
  ~ converts_by_floor (TimeFloat (-0x1.00000004p+0)).
Proof.
  intros H. specialize (H _ eq_refl). vm_compute in H. discriminate H.
Qed.

(** C5, amended. For every integer or float argument whose double-precision
    product [float(t) * 1e7] is finite, [time_to_kronos_time] returns that
    product truncated toward zero, as an unbounded integer: its floor when
    the product is non-negative, its ceiling when it is non-positive. *)
Theorem time_to_kronos_time_truncates (t : pytime) (x : float) :
  to_float t = Ok x ->
  is_finite_float (x * 1e7)%float = true ->
  exists k,
    time_to_kronos_time t = Ok k /\
    ((0 <= F2Q (x * 1e7)%float)%Q -> k = Qfloor (F2Q (x * 1e7)%float)) /\
    ((F2Q (x * 1e7)%float <= 0)%Q -> k = Qceiling (F2Q (x * 1e7)%float)).
Proof.
  intros Hx Hfin. rewrite (time_to_kronos_time_numeric t x Hx).
  apply int_of_float_truncates. exact Hfin.
Qed.

Lemma time_to_kronos_time_truncates_witness :
  exists k,
    time_to_kronos_time (TimeFloat (-0x1.00000004p+0)) = Ok k /\
    ((0 <= F2Q (-0x1.00000004p+0 * 1e7)%float)%Q ->
     k = Qfloor (F2Q (-0x1.00000004p+0 * 1e7)%float)) /\
    ((F2Q (-0x1.00000004p+0 * 1e7)%float <= 0)%Q ->
     k = Qceiling (F2Q (-0x1.00000004p+0 * 1e7)%float)).
Proof.
  apply (time_to_kronos_time_truncates (TimeFloat (-0x1.00000004p+0))
                                       (-0x1.00000004p+0)%float).
  - reflexivity.
  - vm_compute. reflexivity.
Defined.

(** C8, as stated, fails: [10^12] seconds convert to [10^19], above
    [2^63 - 1], and the value is returned. *)
Lemma time_to_kronos_time_returns_out_of_range :
  ~ never_returns_out_of_range (TimeInt 1000000000000).
Proof.
  intros H. specialize (H 10000000000000000000).
  assert (Hk : time_to_kronos_time (TimeInt 1000000000000)
               = Ok 10000000000000000000) by (vm_compute; reflexivity).
  specialize (H Hk). vm_compute in H. destruct H as [_ H]. apply H.
  reflexivity.
Qed.

Lemma int_of_float_magnitude (p : float) (k : Z) :
  int_of_float p = Ok k -> - 2 ^ 1024 < k < 2 ^ 1024.
Proof.
  unfold int_of_float.
  destruct (Prim2SF p) as [s | s | | s m e] eqn:Hp; try discriminate.
  - intros [= <-]. split; [| apply Z.pow_pos_nonneg]; lia.
  - intros [= <-].
    destruct (Prim2SF_finite_inv p s m e Hp) as [Hm He].
    assert (Hmag : 0 <= Z.shiftl (Zpos m) e < 2 ^ 1024).
    { destruct (Z.leb_spec 0 e) as [Hpos | Hneg].
      - rewrite Z.shiftl_mul_pow2 by assumption.
        assert (H971 : 2 ^ e <= 2 ^ 971) by (apply Z.pow_le_mono_r; lia).
        assert (Hp2 : 0 < 2 ^ e) by (apply Z.pow_pos_nonneg; lia).
        change (2 ^ 1024) with (2 ^ 53 * 2 ^ 971). nia.
      - rewrite <- Z.shiftr_opp_r, Z.shiftr_div_pow2 by lia.
        assert (Hp2 : 0 < 2 ^ (- e)) by (apply Z.pow_pos_nonneg; lia).
        split; [apply Z.div_pos; lia |].
        apply Z.le_lt_trans with (Zpos m);
          [apply Z.div_le_upper_bound; nia |].
        apply Z.lt_trans with (1 := Hm). reflexivity. }
    destruct s; cbn [cond_Zopp]; lia.
Qed.

(** C8, amended. [time_to_kronos_time] checks no 64-bit range. For an
    integer or float argument, a failure of [float(t)] propagates; else
    the conversion raises [OverflowError] exactly when the double product
    [float(t) * 1e7] is an infinity, [ValueError] when it is a NaN, and
    otherwise returns the truncated product, an integer anywhere strictly
    between [-2^1024] and [2^1024]. *)
Theorem time_to_kronos_time_failures (t : pytime) :
  (forall e, to_float t = Raise e -> time_to_kronos_time t = Raise e) /\
  (forall x, to_float t = Ok x ->
     match Prim2SF (x * 1e7)%float with
     | S754_nan => time_to_kronos_time t = Raise ValueError
     | S754_infinity _ => time_to_kronos_time t = Raise OverflowError
     | _ => exists k, time_to_kronos_time t = Ok k /\
                      - 2 ^ 1024 < k < 2 ^ 1024
     end).
Proof.
  split.
  - intros e He. destruct t as [n | y | d]; cbn [to_float] in He.
    + unfold time_to_kronos_time. cbn [bind to_float]. rewrite He.
      reflexivity.
    + discriminate He.
    + injection He as <-. reflexivity.
  - intros x Hx. rewrite (time_to_kronos_time_numeric t x Hx).
    pose proof (int_of_float_magnitude (x * 1e7)%float) as Hmag.
    unfold int_of_float in *.
    destruct (Prim2SF (x * 1e7)%float) as [s | s | | s m e];
      try reflexivity; eexists; (split; [reflexivity |]);
      apply Hmag; reflexivity.
Qed.

Lemma time_to_kronos_time_failures_witness :
  time_to_kronos_time (TimeInt (10 ^ 400)) = Raise OverflowError /\
  time_to_kronos_time (TimeFloat 0x1p+1010) = Raise OverflowError /\
  exists k, time_to_kronos_time (TimeFloat 0x1p+1000) = Ok k /\
            - 2 ^ 1024 < k < 2 ^ 1024.
Proof.
  split; [| split].
  - apply (proj1 (time_to_kronos_time_failures (TimeInt (10 ^ 400)))).
    vm_compute. reflexivity.
  - apply (proj2 (time_to_kronos_time_failures (TimeFloat 0x1p+1010))
                 0x1p+1010%float eq_refl).
  - apply (proj2 (time_to_kronos_time_failures (TimeFloat 0x1p+1000))
                 0x1p+1000%float eq_refl).
Defined.

(** ** Rounding to nearest, from the specification of the doubles *)

Lemma shr_1_located (N D : Z) (mrs : shr_record) :
  located N D mrs -> located N (2 * D) (shr_1 mrs).
Proof.
  destruct mrs as [m r s]. unfold located. cbn [shr_m shr_r shr_s].
  intros (HD & Hm & Hbound & Hr & Hs).
  destruct m as [| p | p]; [| | lia].
  - cbn [shr_1 shr_m shr_r shr_s].
    destruct r, s; cbn [orb]; intuition (try lia; try discriminate).
  - destruct p as [p | p |]; cbn [shr_1 shr_m shr_r shr_s].
    + rewrite Pos2Z.inj_xI in *.
      destruct r, s; cbn [orb]; intuition (try lia; try discriminate).
    + rewrite Pos2Z.inj_xO in *.
      destruct r, s; cbn [orb]; intuition (try lia; try discriminate).
    + destruct r, s; cbn [orb]; intuition (try lia; try discriminate).
Qed.

Lemma pow2_double (n : positive) : 2 ^ Zpos n~0 = 2 ^ Zpos n * 2 ^ Zpos n.
Proof. rewrite <- Z.pow_add_r by lia. f_equal. lia. Qed.

Lemma pow2_double_succ (n : positive) :
  2 ^ Zpos n~1 = 2 * (2 ^ Zpos n * 2 ^ Zpos n).
Proof.
  rewrite Pos2Z.inj_xI.
  replace (2 * Zpos n + 1) with (1 + Zpos n + Zpos n) by lia.
  rewrite !Z.pow_add_r by lia. change (2 ^ 1) with 2. ring.
Qed.

Lemma iter_shr_1_located (n : positive) :
  forall (N D : Z) (mrs : shr_record),
    located N D mrs ->
    located N (D * 2 ^ Zpos n) (SpecFloat.iter_pos shr_1 n mrs).
Proof.
  induction n as [n IH | n IH |]; intros N D mrs Hloc; cbn [SpecFloat.iter_pos].
  - apply shr_1_located in Hloc. apply IH in Hloc. apply IH in Hloc.
    rewrite pow2_double_succ.
    replace (D * (2 * (2 ^ Zpos n * 2 ^ Zpos n)))
      with (2 * D * 2 ^ Zpos n * 2 ^ Zpos n) by ring.
    exact Hloc.
  - apply IH in Hloc. apply IH in Hloc.
    rewrite pow2_double.
    replace (D * (2 ^ Zpos n * 2 ^ Zpos n))
      with (D * 2 ^ Zpos n * 2 ^ Zpos n) by ring.
    exact Hloc.
  - apply shr_1_located in Hloc.
    replace (D * 2 ^ 1) with (2 * D) by ring. exact Hloc.
Qed.

Lemma located_mantissa_nonneg (N D : Z) (mrs : shr_record) :
  located N D mrs -> 0 <= shr_m mrs.
Proof. intros (_ & H & _). exact H. Qed.

Lemma round_nearest_even_located (N D : Z) (mrs : shr_record) :
  located N D mrs ->
  let m1 := round_nearest_even (shr_m mrs) (loc_of_shr_record mrs) in
  shr_m mrs <= m1 <= shr_m mrs + 1 /\
  - D <= 2 * (m1 * D - N) <= D.
Proof.
  destruct mrs as [m r s]. unfold located. cbn [shr_m shr_r shr_s].
  intros (HD & Hm & Hbound & Hr & Hs). cbv zeta.
  destruct r, s; cbn [loc_of_shr_record round_nearest_even];
    try destruct (Z.even m); intuition (try lia; try discriminate).
Qed.

Lemma shr_located (N D : Z) (mrs : shr_record) (e n : Z) :
  located N D mrs -> 0 <= n ->
  located N (D * 2 ^ n) (fst (shr mrs e n)) /\ snd (shr mrs e n) = e + n.
Proof.
  intros Hloc Hn. destruct n as [| p | p]; cbn [shr fst snd]; [| | lia].
  - rewrite Z.mul_1_r. split; [exact Hloc | lia].
  - split; [apply iter_shr_1_located; exact Hloc | reflexivity].
Qed.

Lemma digits2_pos_le (p : positive) (k : Z) :
  Zpos p < 2 ^ k -> Zpos (digits2_pos p) <= k.
Proof.
  intros Hp. destruct (digits2_pos_bounds p) as [Hlo _].
  destruct (Z.le_gt_cases (Zpos (digits2_pos p)) k) as [H | H];
    [exact H |].
  exfalso.
  assert (0 <= k \/ k < 0) as [Hk | Hk] by lia.
  - assert (2 ^ k <= 2 ^ (Zpos (digits2_pos p) - 1))
      by (apply Z.pow_le_mono_r; lia).
    lia.
  - rewrite Z.pow_neg_r in Hp by assumption. lia.
Qed.

Lemma digits2_pos_ge (p : positive) (k : Z) :
  2 ^ k <= Zpos p -> k + 1 <= Zpos (digits2_pos p).
Proof.
  intros Hp. destruct (digits2_pos_bounds p) as [_ Hhi].
  destruct (Z.le_gt_cases (k + 1) (Zpos (digits2_pos p))) as [H | H];
    [exact H |].
  exfalso.
  assert (2 ^ Zpos (digits2_pos p) <= 2 ^ k)
    by (apply Z.pow_le_mono_r; lia).
  lia.
Qed.

Lemma shr_m_of_loc (m : Z) (l : location) :
  shr_m (shr_record_of_loc m l) = m.
Proof. destruct l as [| []]; reflexivity. Qed.

Lemma shr_nonpos (mrs : shr_record) (e n : Z) :
  n <= 0 -> shr mrs e n = (mrs, e).
Proof. intros Hn. destruct n as [| p | p]; try reflexivity. lia. Qed.

Lemma binary_round_aux_located (sx : bool) (m : positive) (e : Z)
      (l : location) (N D : Z) :
  located N D (shr_record_of_loc (Zpos m) l) ->
  let ef := fexp prec emax (Zpos (digits2_pos m) + e) in
  e <= ef -> ef + 1 <= 971 ->
  exists m1 : Z,
    0 <= m1 <= 2 ^ 53 /\
    - (D * 2 ^ (ef - e)) <= 2 * (m1 * (D * 2 ^ (ef - e)) - N)
    <= D * 2 ^ (ef - e) /\
    (- 1074 < ef -> 2 ^ 52 <= m1 /\ 2 ^ 52 * (D * 2 ^ (ef - e)) <= N) /\
    ((m1 = 0 /\
      binary_round_aux prec emax sx (Zpos m) e l = S754_zero sx) \/
     (exists m'' e'',
         binary_round_aux prec emax sx (Zpos m) e l
         = S754_finite sx m'' e'' /\
         bounded prec emax m'' e'' = true /\
         ((e'' = ef /\ Zpos m'' = m1) \/
          (e'' = ef + 1 /\ Zpos m'' = 2 ^ 52 /\ m1 = 2 ^ 53)))).
Proof.
  intros Hloc ef He Hmax.
  set (d := Zpos (digits2_pos m)) in *.
  assert (Hef : ef = Z.max (d + e - 53) (- 1074)) by apply fexp_unfold.
  set (n := ef - e). assert (Hn : 0 <= n) by (unfold n; lia).
  destruct (shr_located N D _ e n Hloc Hn) as [Hloc1 He1].
  unfold binary_round_aux, shr_fexp. cbn [Zdigits2]. fold d. fold ef.
  fold n.
  destruct (shr (shr_record_of_loc (Zpos m) l) e n) as [mrs' e'].
  cbn [fst snd] in Hloc1, He1.
  assert (He' : e' = ef) by (unfold n in He1; lia). clear He1. subst e'.
  destruct (round_nearest_even_located _ _ _ Hloc1) as [Hm1 Hnear].
  set (m1 := round_nearest_even (shr_m mrs') (loc_of_shr_record mrs'))
    in *.
  exists m1.
  (* bounds on the shifted mantissa *)
  destruct (digits2_pos_bounds m) as [Hmlo Hmhi]. fold d in Hmlo, Hmhi.
  assert (HP : 0 < 2 ^ n) by (apply Z.pow_pos_nonneg; lia).
  destruct Hloc as (HD & _ & Horig & _).
  rewrite shr_m_of_loc in Horig.
  destruct Hloc1 as (_ & Hsh0 & Hsh & _).
  set (msh := shr_m mrs') in *. set (P := 2 ^ n) in *.
  assert (Hle : msh * P <= Zpos m) by nia.
  assert (Hgt : Zpos m < (msh + 1) * P) by nia.
  assert (Hd53 : 2 ^ d <= 2 ^ 53 * P).
  { unfold P. rewrite <- Z.pow_add_r by lia.
    apply Z.pow_le_mono_r; lia. }
  assert (Hmsh : msh < 2 ^ 53) by nia.
  assert (Hnormal : - 1074 < ef -> 2 ^ 52 <= msh /\ 2 ^ 52 * (D * P) <= N).
  { intros Hnm. assert (Hnd : n = d - 53) by lia.
    assert (Hd1 : 2 ^ (d - 1) = 2 ^ 52 * P).
    { unfold P. rewrite <- Z.pow_add_r by lia. f_equal. lia. }
    split; nia. }
  split; [lia |]. split; [exact Hnear |].
  split; [intros Hnm; destruct (Hnormal Hnm); split; [lia | assumption] |].
  destruct m1 as [| p1 | p1] eqn:Em1; [| | lia].
  - left. split; [reflexivity |].
    cbn [Zdigits2]. rewrite shr_nonpos by (rewrite fexp_unfold; lia).
    reflexivity.
  - right. cbn [Zdigits2].
    assert (Hp1 : Zpos p1 < 2 ^ 53 \/ Zpos p1 = 2 ^ 53) by lia.
    destruct Hp1 as [Hp1 | Hp1].
    + pose proof (digits2_pos_le p1 53 Hp1) as Hd1.
      rewrite shr_nonpos by (rewrite fexp_unfold; lia).
      cbn [shr_record_of_loc shr_m].
      change (emax - prec) with 971.
      destruct (Z.leb_spec ef 971) as [_ | Hbad]; [| lia].
      exists p1, ef. split; [reflexivity |].
      split; [| left; split; reflexivity].
      unfold bounded, canonical_mantissa.
      rewrite andb_true_iff, Z.eqb_eq, Z.leb_le, fexp_unfold.
      change (emax - prec) with 971. split; [| lia].
      destruct (Z.eq_dec ef (- 1074)) as [Hsub | Hnsub]; [lia |].
      assert (Hlo52 : 2 ^ 52 <= Zpos p1) by (destruct Hnormal; lia).
      pose proof (digits2_pos_ge p1 52 Hlo52). lia.
    + assert (Ep1 : p1 = 9007199254740992%positive)
        by (apply Pos2Z.inj; rewrite Hp1; reflexivity).
      subst p1. cbn [digits2_pos Pos.succ].
      assert (Hn2 : fexp prec emax (54 + ef) - ef = 1)
        by (rewrite fexp_unfold; lia).
      change (Zpos 54) with 54. rewrite Hn2.
      cbn [shr shr_record_of_loc SpecFloat.iter_pos shr_1 shr_m].
      change (emax - prec) with 971.
      destruct (Z.leb_spec (ef + 1) 971) as [_ | Hbad]; [| lia].
      exists 4503599627370496%positive, (ef + 1).
      split; [reflexivity |].
      split; [| right; split; [reflexivity | split; [reflexivity | lia]]].
      unfold bounded, canonical_mantissa.
      rewrite andb_true_iff, Z.eqb_eq, Z.leb_le, fexp_unfold.
      change (emax - prec) with 971. cbn [digits2_pos Pos.succ]. lia.
Qed.

Lemma q2_pos (e : Z) : (0 < 2 ^ e)%Q.
Proof. apply Qpower_0_lt. reflexivity. Qed.

Lemma q2_add (a b : Z) : (2 ^ (a + b) == 2 ^ a * 2 ^ b)%Q.
Proof. apply Qpower_plus. discriminate. Qed.

Lemma q2_inject (n : Z) : 0 <= n -> (inject_Z (2 ^ n) == 2 ^ n)%Q.
Proof. intros Hn. apply (Zpower_Qpower 2 n Hn). Qed.

Lemma SF2Q_finite (s : bool) (m : positive) (e : Z) :
  (SF2Q (S754_finite s m e) == inject_Z (cond_Zopp s (Zpos m)) * 2 ^ e)%Q.
Proof.
  cbn [SF2Q]. destruct (Z.leb_spec 0 e) as [He | He].
  - rewrite inject_Z_mult, q2_inject by assumption. reflexivity.
  - rewrite Qmake_Qdiv.
    rewrite Z2Pos.id by (apply Z.pow_pos_nonneg; lia).
    rewrite q2_inject by lia. rewrite Qpower_opp.
    unfold Qdiv. rewrite Qinv_involutive. reflexivity.
Qed.

Lemma inject_Z_pos (z : Z) : 0 < z -> (0 < inject_Z z)%Q.
Proof. intros Hz. unfold Qlt. cbn. lia. Qed.

Lemma binary_round_aux_relative (sx : bool) (m : positive) (e : Z)
      (l : location) (N D : Z) :
  located N D (shr_record_of_loc (Zpos m) l) ->
  let ef := fexp prec emax (Zpos (digits2_pos m) + e) in
  e <= ef -> ef + 1 <= 971 -> - 1074 < ef ->
  exists m'' e'',
    binary_round_aux prec emax sx (Zpos m) e l = S754_finite sx m'' e'' /\
    bounded prec emax m'' e'' = true /\
    2 ^ 52 <= Zpos m'' /\ ef <= e'' <= ef + 1 /\
    let T := (inject_Z N / inject_Z D * 2 ^ e)%Q in
    let R := (inject_Z (Zpos m'') * 2 ^ e'')%Q in
    (T * (1 - ulp_half) <= R /\ R <= T * (1 + ulp_half))%Q.
Proof.
  intros Hloc ef He Hmax Hnormal.
  destruct (binary_round_aux_located sx m e l N D Hloc He Hmax)
    as (m1 & Hm1 & Hnear & Hnorm & Hres).
  fold ef in Hnear, Hnorm, Hres.
  destruct (Hnorm Hnormal) as [Hm1lo HN].
  destruct Hres as [[Hz _] | (m'' & e'' & Hbra & Hbounded & Hshape)];
    [lia |].
  exists m'', e''. split; [exact Hbra |]. split; [exact Hbounded |].
  split; [destruct Hshape as [[_ H] | (_ & H & _)]; lia |].
  split; [destruct Hshape as [[H _] | (H & _)]; lia |].
  cbv zeta.
  destruct Hloc as (HD & _).
  set (P := 2 ^ (ef - e)) in *.
  assert (HP : 0 < P) by (apply Z.pow_pos_nonneg; lia).
  set (w := (2 ^ e / inject_Z D)%Q).
  assert (HDq : ~ (inject_Z D == 0)%Q).
  { intros H. apply (Qlt_not_eq 0 (inject_Z D)).
    - apply inject_Z_pos. exact HD.
    - symmetry. exact H. }
  assert (Hw : (0 < w)%Q).
  { unfold w. apply Qlt_shift_div_l.
    - apply inject_Z_pos. exact HD.
    - rewrite Qmult_0_l. apply q2_pos. }
  assert (HR : (inject_Z (Zpos m'') * 2 ^ e''
                == inject_Z (m1 * (D * P)) * w)%Q).
  { assert (Hm1ef : (inject_Z (Zpos m'') * 2 ^ e''
                     == inject_Z m1 * 2 ^ ef)%Q).
    { destruct Hshape as [[-> ->] | (-> & -> & ->)]; [reflexivity |].
      rewrite q2_add. change (2 ^ 1)%Q with 2%Q.
      change (inject_Z (2 ^ 52)) with (4503599627370496 # 1)%Q.
      change (inject_Z (2 ^ 53)) with (9007199254740992 # 1)%Q.
      ring. }
    rewrite Hm1ef.
    replace ef with ((ef - e) + e) at 1 by lia.
    rewrite q2_add, <- q2_inject by lia. fold P.
    unfold w. rewrite !inject_Z_mult. field. exact HDq. }
  assert (HT : (inject_Z N / inject_Z D * 2 ^ e == inject_Z N * w)%Q).
  { unfold w. field. exact HDq. }
  rewrite HR, HT.
  set (X := m1 * (D * P)) in *.
  assert (Hlo : (9007199254740992 - 1) * N <= 9007199254740992 * X)
    by (change (2 ^ 52) with 4503599627370496 in HN; lia).
  assert (Hhi : 9007199254740992 * X <= (9007199254740992 + 1) * N)
    by (change (2 ^ 52) with 4503599627370496 in HN; lia).
  rewrite Zle_Qle, !inject_Z_mult in Hlo, Hhi.
  change (inject_Z (9007199254740992 - 1)) with (9007199254740991 # 1)%Q
    in Hlo.
  change (inject_Z (9007199254740992 + 1)) with (9007199254740993 # 1)%Q
    in Hhi.
  change (inject_Z 9007199254740992) with (9007199254740992 # 1)%Q
    in Hlo, Hhi.
  unfold ulp_half.
  assert (H1 : (inject_Z N * (1 - (1 # 9007199254740992)) * w
                <= inject_Z X * w)%Q).
  { apply Qmult_le_compat_r; [lra | apply Qlt_le_weak, Hw]. }
  assert (H2 : (inject_Z X * w
                <= inject_Z N * (1 + (1 # 9007199254740992)) * w)%Q).
  { apply Qmult_le_compat_r; [lra | apply Qlt_le_weak, Hw]. }
  split; lra.
Qed.

Lemma new_location_located (D q r : Z) :
  0 < D -> 0 <= q -> 0 <= r < D ->
  located (q * D + r) D (shr_record_of_loc q (new_location D r)).
Proof.
  intros HD Hq Hr. unfold located. rewrite shr_m_of_loc.
  split; [exact HD |]. split; [exact Hq |]. split; [lia |].
  replace (q * D + r - q * D) with r by ring.
  unfold new_location, new_location_even, new_location_odd.
  destruct (Z.even D) eqn:Heven; destruct (Z.eqb_spec r 0) as [-> | Hr0].
  - cbn [shr_record_of_loc shr_r shr_s]. split; split; intros H; try discriminate; try lia; exfalso; lia.
  - destruct (Z.compare_spec (2 * r) D) as [Hc | Hc | Hc];
      cbn [shr_record_of_loc shr_r shr_s];
      split; split; intros H; try discriminate; try reflexivity; try lia; exfalso; lia.
  - cbn [shr_record_of_loc shr_r shr_s]. split; split; intros H; try discriminate; try lia; exfalso; lia.
  - assert (Hodd : Z.odd D = true)
      by (rewrite <- Z.negb_even, Heven; reflexivity).
    apply Z.odd_spec in Hodd. destruct Hodd as (c & Hc).
    destruct (Z.compare_spec (2 * r + 1) D) as [Hcmp | Hcmp | Hcmp];
      cbn [shr_record_of_loc shr_r shr_s];
      split; split; intros H; try discriminate; try reflexivity; try lia; exfalso; lia.
Qed.

Lemma SFdiv_1e7 (mF : positive) (eF : Z) :
  2 ^ 52 <= Zpos mF < 2 ^ 53 -> - 1000 <= eF <= 900 ->
  exists mq eq,
    SFdiv prec emax (S754_finite false mF eF)
          (S754_finite false ten7_mantissa (-29))
    = S754_finite false mq eq /\
    bounded prec emax mq eq = true /\
    let G := (inject_Z (Zpos mF) * 2 ^ eF / inject_Z 10000000)%Q in
    let R := (inject_Z (Zpos mq) * 2 ^ eq)%Q in
    (G * (1 - ulp_half) <= R /\ R <= G * (1 + ulp_half))%Q.
Proof.
  intros HmF HeF. unfold ten7_mantissa.
  assert (Hd : Zpos (digits2_pos mF) = 53).
  { pose proof (digits2_pos_le mF 53 (proj2 HmF)).
    pose proof (digits2_pos_ge mF 52 (proj1 HmF)). lia. }
  cbn [SFdiv xorb]. unfold SFdiv_core_binary. cbn [Zdigits2].
  rewrite Hd.
  assert (He' : Z.min (fexp prec emax
                         (53 + eF
                          - (Zpos (digits2_pos 5368709120000000) + -29)))
                      (eF - -29) = eF - 24).
  { change (Zpos (digits2_pos 5368709120000000)) with 53.
    rewrite fexp_unfold. lia. }
  rewrite He'. replace (eF - -29 - (eF - 24)) with 53 by lia.
  cbv iota beta.
  rewrite Z.shiftl_mul_pow2 by lia.
  pose proof (Z_div_mod (Zpos mF * 2 ^ 53) 5368709120000000
                        ltac:(reflexivity)) as Hdm.
  destruct (Z.div_eucl (Zpos mF * 2 ^ 53) 5368709120000000) as [q r].
  destruct Hdm as [Hdm Hr].
  assert (Hq : 2 ^ 52 <= q < 2 ^ 54).
  { change (2 ^ 53) with 9007199254740992 in *.
    change (2 ^ 52) with 4503599627370496 in *.
    change (2 ^ 54) with 18014398509481984. nia. }
  destruct q as [| qp | qp]; [cbn in Hq; lia | | cbn in Hq; lia].
  assert (Hloc : located (Zpos mF * 2 ^ 53) 5368709120000000
                         (shr_record_of_loc
                            (Zpos qp)
                            (new_location 5368709120000000 r))).
  { rewrite Hdm.
    replace (5368709120000000 * Zpos qp + r)
      with (Zpos qp * 5368709120000000 + r) by ring.
    apply new_location_located; lia. }
  assert (Hdq : 53 <= Zpos (digits2_pos qp) <= 54).
  { pose proof (digits2_pos_le qp 54 (proj2 Hq)).
    pose proof (digits2_pos_ge qp 52 (proj1 Hq)). lia. }
  destruct (binary_round_aux_relative
              false qp (eF - 24) (new_location 5368709120000000 r)
              (Zpos mF * 2 ^ 53) 5368709120000000 Hloc)
    as (mq & eq & Hbra & Hbounded & _ & _ & Hrel);
    try (rewrite fexp_unfold; lia).
  exists mq, eq. split; [exact Hbra |]. split; [exact Hbounded |].
  cbv zeta in Hrel |- *.
  assert (HG : (inject_Z (Zpos mF * 2 ^ 53) / inject_Z 5368709120000000
                * 2 ^ (eF - 24)
                == inject_Z (Zpos mF) * 2 ^ eF / inject_Z 10000000)%Q).
  { replace (eF - 24) with (eF + - 24) by lia. rewrite q2_add.
    rewrite inject_Z_mult.
    change (inject_Z (2 ^ 53)) with (9007199254740992 # 1)%Q.
    change (2 ^ (- 24))%Q with (1 # 16777216)%Q.
    change (inject_Z 5368709120000000) with (5368709120000000 # 1)%Q.
    change (inject_Z 10000000) with (10000000 # 1)%Q.
    field. }
  rewrite HG in Hrel. exact Hrel.
Qed.

Lemma iter_xO_value (p n : positive) :
  Zpos (Pos.iter xO p n) = Zpos p * 2 ^ Zpos n.
Proof.
  apply (Pos.iter_ind _ xO p (fun n r => Zpos r = Zpos p * 2 ^ Zpos n)).
  - rewrite Pos2Z.inj_xO. change (2 ^ 1) with 2. ring.
  - intros q a IH. rewrite Pos2Z.inj_xO, IH, Pos2Z.inj_succ.
    rewrite Z.pow_succ_r by lia. ring.
Qed.

Lemma digits2_pos_unique (p : positive) (k : Z) :
  2 ^ (k - 1) <= Zpos p < 2 ^ k -> Zpos (digits2_pos p) = k.
Proof.
  intros [Hlo Hhi].
  pose proof (digits2_pos_le p k Hhi).
  pose proof (digits2_pos_ge p (k - 1) Hlo). lia.
Qed.

Lemma bounded_mantissa (m : positive) (e : Z) :
  bounded prec emax m e = true -> Zpos m < 2 ^ 53 /\ - 1074 <= e <= 971.
Proof.
  unfold bounded, canonical_mantissa.
  rewrite andb_true_iff, Z.eqb_eq, Z.leb_le, fexp_unfold.
  change (emax - prec) with 971. intros [Hc He].
  destruct (digits2_pos_bounds m) as [_ Hm].
  split; [| lia].
  apply Z.lt_le_trans with (1 := Hm). apply Z.pow_le_mono_r; lia.
Qed.

Lemma binary_round_int (Kp : positive) :
  Zpos Kp < 2 ^ 900 ->
  exists m e,
    binary_round prec emax false Kp 0 = S754_finite false m e /\
    bounded prec emax m e = true /\
    2 ^ 52 <= Zpos m < 2 ^ 53 /\ - 52 <= e <= 900 /\
    let K := inject_Z (Zpos Kp) in
    let R := (inject_Z (Zpos m) * 2 ^ e)%Q in
    (K * (1 - ulp_half) <= R /\ R <= K * (1 + ulp_half))%Q.
Proof.
  intros HK.
  set (dK := Zpos (digits2_pos Kp)).
  destruct (digits2_pos_bounds Kp) as [Hlo Hhi]. fold dK in Hlo, Hhi.
  assert (HdK : 1 <= dK <= 900).
  { split; [unfold dK; lia |]. apply digits2_pos_le. exact HK. }
  unfold binary_round. fold dK. rewrite fexp_unfold.
  replace (Z.max (dK + 0 - 53) (- 1074)) with (dK - 53) by lia.
  assert (Hgoal :
            forall (mz : positive) (ez : Z),
              ez <= 0 ->
              Zpos (digits2_pos mz) + ez = dK ->
              ez <= dK - 53 ->
              (inject_Z (Zpos mz) * 2 ^ ez == inject_Z (Zpos Kp))%Q ->
              exists m e,
                binary_round_aux prec emax false (Zpos mz) ez loc_Exact
                = S754_finite false m e /\
                bounded prec emax m e = true /\
                2 ^ 52 <= Zpos m < 2 ^ 53 /\ - 52 <= e <= 900 /\
                (inject_Z (Zpos Kp) * (1 - ulp_half)
                 <= inject_Z (Zpos m) * 2 ^ e /\
                 inject_Z (Zpos m) * 2 ^ e
                 <= inject_Z (Zpos Kp) * (1 + ulp_half))%Q).
  { intros mz ez Hez Hdz Hle Hval.
    assert (Hloc : located (Zpos mz) 1
                           (shr_record_of_loc (Zpos mz) loc_Exact)).
    { unfold located. cbn [shr_record_of_loc shr_m shr_r shr_s].
      repeat split; intros; try discriminate; try lia. }
    destruct (binary_round_aux_relative false mz ez loc_Exact
                                        (Zpos mz) 1 Hloc)
      as (m & e & Hbra & Hbounded & Hm & He & Hrel);
      try (rewrite fexp_unfold; lia).
    rewrite fexp_unfold in He.
    exists m, e. split; [exact Hbra |]. split; [exact Hbounded |].
    pose proof (bounded_mantissa m e Hbounded) as Hbm.
    split; [lia |]. split; [lia |].
    cbv zeta in Hrel.
    assert (HT : (inject_Z (Zpos mz) / inject_Z 1 * 2 ^ ez
                  == inject_Z (Zpos Kp))%Q).
    { rewrite <- Hval. change (inject_Z 1) with 1%Q. field. }
    rewrite HT in Hrel. exact Hrel. }
  unfold shl_align.
  destruct (dK - 53 - 0) as [| dd | dd] eqn:Hdd.
  - apply Hgoal; try lia. rewrite Qmult_1_r. reflexivity.
  - apply Hgoal; try lia. rewrite Qmult_1_r. reflexivity.
  - assert (Hdd' : Zpos dd = 53 - dK) by lia.
    assert (Hmz : Zpos (Pos.iter xO Kp dd) = Zpos Kp * 2 ^ (53 - dK))
      by (rewrite iter_xO_value, Hdd'; reflexivity).
    assert (Hsplit : 2 ^ 52 = 2 ^ (dK - 1) * 2 ^ (53 - dK))
      by (rewrite <- Z.pow_add_r by lia; f_equal; lia).
    assert (Hsplit' : 2 ^ 53 = 2 ^ dK * 2 ^ (53 - dK))
      by (rewrite <- Z.pow_add_r by lia; f_equal; lia).
    assert (HP : 0 < 2 ^ (53 - dK)) by (apply Z.pow_pos_nonneg; lia).
    assert (Hdz : Zpos (digits2_pos (Pos.iter xO Kp dd)) = 53).
    { apply digits2_pos_unique. rewrite Hmz.
      change (53 - 1) with 52. rewrite Hsplit, Hsplit'. nia. }
    apply Hgoal; try lia.
    rewrite Hmz, inject_Z_mult, q2_inject by lia.
    rewrite <- Qmult_assoc, <- q2_add.
    replace (53 - dK + (dK - 53)) with 0 by lia.
    change (2 ^ 0)%Q with 1%Q. apply Qmult_1_r.
Qed.

Lemma q2_le (a b : Z) : a <= b -> (2 ^ a <= 2 ^ b)%Q.
Proof. intros H. apply Qpower_le_compat_l; [exact H | discriminate]. Qed.

Lemma q2_small (a : Z) : a <= - 1 -> (2 ^ a <= 1 # 2)%Q.
Proof. intros H. apply (q2_le a (- 1) H). Qed.

Lemma scaled_lt_pow2 (m d e : Z) :
  0 <= d -> m < 2 ^ d -> (inject_Z m * 2 ^ e <= 2 ^ (d + e))%Q.
Proof.
  intros Hd Hm. rewrite q2_add, <- (q2_inject d) by assumption.
  apply Qmult_le_compat_r; [| apply Qlt_le_weak, q2_pos].
  rewrite <- Zle_Qle. lia.
Qed.

Lemma SFmul_1e7 (mx : positive) (ex : Z) :
  bounded prec emax mx ex = true ->
  Zpos (digits2_pos mx) + ex <= 44 ->
  let V := (inject_Z (Zpos mx) * 2 ^ ex * inject_Z 10000000)%Q in
  (SFmul prec emax (S754_finite false mx ex)
         (S754_finite false ten7_mantissa (-29)) = S754_zero false /\
   (V <= 1 # 2)%Q) \/
  (exists m e,
      SFmul prec emax (S754_finite false mx ex)
            (S754_finite false ten7_mantissa (-29))
      = S754_finite false m e /\
      bounded prec emax m e = true /\
      let R := (inject_Z (Zpos m) * 2 ^ e)%Q in
      ((V * (1 - ulp_half) <= R /\ R <= V * (1 + ulp_half)) \/
       (V <= 1 # 2 /\ R <= 1 # 2))%Q).
Proof.
  intros Hb Hsize V. unfold ten7_mantissa. cbn [SFmul xorb].
  set (M := (mx * 5368709120000000)%positive).
  set (e := ex + -29).
  set (dx := Zpos (digits2_pos mx)) in *.
  destruct (digits2_pos_bounds mx) as [Hxlo Hxhi]. fold dx in Hxlo, Hxhi.
  assert (Hdx : 1 <= dx) by (unfold dx; lia).
  assert (HM : Zpos M = Zpos mx * 5368709120000000) by reflexivity.
  assert (Hd : dx + 52 <= Zpos (digits2_pos M) <= dx + 53).
  { assert (H1 : 2 ^ (dx + 52 - 1) <= Zpos M).
    { replace (dx + 52 - 1) with (dx - 1 + 52) by lia.
      rewrite Z.pow_add_r by lia.
      change (2 ^ 52) with 4503599627370496. nia. }
    assert (H2 : Zpos M < 2 ^ (dx + 53)).
    { rewrite Z.pow_add_r by lia.
      change (2 ^ 53) with 9007199254740992. nia. }
    pose proof (digits2_pos_ge M _ H1).
    pose proof (digits2_pos_le M _ H2). lia. }
  set (d := Zpos (digits2_pos M)) in *.
  pose proof (bounded_mantissa mx ex Hb) as [_ Hex].
  assert (Hloc : located (Zpos M) 1
                         (shr_record_of_loc (Zpos M) loc_Exact)).
  { unfold located. cbn [shr_record_of_loc shr_m shr_r shr_s].
    repeat split; intros; try discriminate; try lia. }
  assert (HV : (inject_Z (Zpos M) / inject_Z 1 * 2 ^ e == V)%Q).
  { unfold V, e. rewrite HM, inject_Z_mult, q2_add.
    change (2 ^ (-29))%Q with (1 # 536870912)%Q.
    change (inject_Z 5368709120000000) with (5368709120000000 # 1)%Q.
    change (inject_Z 10000000) with (10000000 # 1)%Q.
    change (inject_Z 1) with 1%Q. field. }
  destruct (Z.lt_ge_cases (- 1074) (d + e - 53)) as [Hnormal | Hsub].
  - right.
    destruct (binary_round_aux_relative false M e loc_Exact (Zpos M) 1
                                        Hloc)
      as (m & e'' & Hbra & Hbounded & _ & _ & Hrel);
      try (fold d; rewrite fexp_unfold; unfold e; lia).
    exists m, e''. split; [exact Hbra |]. split; [exact Hbounded |].
    left. cbv zeta in Hrel. rewrite HV in Hrel. exact Hrel.
  - assert (Hef : fexp prec emax (d + e) = - 1074)
      by (rewrite fexp_unfold; lia).
    assert (HVsmall : (V <= 1 # 2)%Q).
    { rewrite <- HV. change (inject_Z 1) with 1%Q.
      assert (Hdiv1 : (inject_Z (Zpos M) / 1 * 2 ^ e
                       == inject_Z (Zpos M) * 2 ^ e)%Q) by field.
      rewrite Hdiv1.
      destruct (digits2_pos_bounds M) as [_ HMhi]. fold d in HMhi.
      apply Qle_trans with (2 ^ (d + e))%Q.
      - apply scaled_lt_pow2; [lia | exact HMhi].
      - apply q2_small. lia. }
    destruct (binary_round_aux_located false M e loc_Exact (Zpos M) 1
                                       Hloc)
      as (m1 & Hm1 & _ & _ & Hres);
      try (fold d; rewrite fexp_unfold; unfold e; lia).
    fold d in Hres. rewrite Hef in Hres.
    destruct Hres as [[_ Hz] | (m & e'' & Hbra & Hbounded & Hshape)].
    + left. split; [exact Hz | exact HVsmall].
    + right. exists m, e''. split; [exact Hbra |].
      split; [exact Hbounded |]. right. split; [exact HVsmall |].
      assert (Hm53 : Zpos m < 2 ^ 54)
        by (destruct Hshape as [[_ H] | (_ & H & _)];
            change (2 ^ 54) with 18014398509481984;
            change (2 ^ 53) with 9007199254740992 in *;
            change (2 ^ 52) with 4503599627370496 in *; lia).
      apply Qle_trans with (2 ^ (54 + e''))%Q.
      * apply scaled_lt_pow2; [lia | exact Hm53].
      * apply q2_small. destruct Hshape as [[H _] | (H & _)]; lia.
Qed.

(** ** The round trip of a time *)

Lemma Prim2SF_1e7 : Prim2SF 1e7 = S754_finite false ten7_mantissa (-29).
Proof. reflexivity. Qed.

Lemma F2Q_finite (x : float) (s : bool) (m : positive) (e : Z) :
  Prim2SF x = S754_finite s m e ->
  (F2Q x == inject_Z (cond_Zopp s (Zpos m)) * 2 ^ e)%Q.
Proof. intros Hx. unfold F2Q. rewrite Hx. apply SF2Q_finite. Qed.

(** The arithmetic of the round trip, once every rounding is bounded. *)
Lemma roundtrip_arith (S V R K F G Qv : Q) :
  (0 <= S)%Q ->
  (V == S * (10000000 # 1))%Q ->
  (V * (1 - ulp_half) <= R /\ R <= V * (1 + ulp_half))%Q ->
  (K <= R /\ R < K + 1)%Q ->
  (K * (1 - ulp_half) <= F /\ F <= K * (1 + ulp_half))%Q ->
  (G == F / (10000000 # 1))%Q ->
  (G * (1 - ulp_half) <= Qv /\ Qv <= G * (1 + ulp_half))%Q ->
  (Qabs (Qv - S) <= (1 # 10000000) + S * (1 # 2251799813685248))%Q.
Proof.
  unfold ulp_half. intros HS HV HR HK HF HG HQ.
  assert (HG' : (G * (10000000 # 1) == F)%Q) by (rewrite HG; field).
  apply Qabs_Qle_condition. split; lra.
Qed.

Lemma size_from_bound (mx : positive) (ex : Z) :
  (inject_Z (Zpos mx) * 2 ^ ex < inject_Z (2 ^ 43))%Q ->
  Zpos (digits2_pos mx) + ex <= 44.
Proof.
  intros Hlt. destruct (digits2_pos_bounds mx) as [Hlo _].
  set (dx := Zpos (digits2_pos mx)) in *.
  assert (Hdx : 1 <= dx) by (unfold dx; lia).
  assert (Hpow : (2 ^ (dx - 1 + ex) < 2 ^ 43)%Q).
  { apply Qle_lt_trans with (inject_Z (Zpos mx) * 2 ^ ex)%Q.
    - rewrite q2_add, <- (q2_inject (dx - 1)) by lia.
      apply Qmult_le_compat_r; [| apply Qlt_le_weak, q2_pos].
      rewrite <- Zle_Qle. exact Hlo.
    - rewrite <- (q2_inject 43) by lia. exact Hlt. }
  apply Qpower_lt_compat_l_inv in Hpow; [lia | reflexivity].
Qed.

Lemma kronos_time_to_time_zero :
  kronos_time_to_time 0 = Ok 0%float.
Proof. reflexivity. Qed.

Lemma F2Q_zero : (F2Q 0%float == 0)%Q.
Proof. reflexivity. Qed.

(** [float(k) / 1e7] for a positive integer below [2^1000]. *)
Lemma kronos_time_to_time_positive (Kp : positive) :
  Zpos Kp < 2 ^ 900 ->
  exists q F G,
    kronos_time_to_time (Zpos Kp) = Ok q /\
    is_finite_float q = true /\
    (inject_Z (Zpos Kp) * (1 - ulp_half) <= F /\
     F <= inject_Z (Zpos Kp) * (1 + ulp_half))%Q /\
    (G == F / (10000000 # 1))%Q /\
    (G * (1 - ulp_half) <= F2Q q /\ F2Q q <= G * (1 + ulp_half))%Q.
Proof.
  intros HK.
  destruct (binary_round_int Kp HK)
    as (mF & eF & Hround & Hbounded & HmF & HeF & Hrel).
  unfold kronos_time_to_time, float_of_int.
  cbn [binary_normalize]. rewrite Hround. cbn [bind].
  set (x := SF2Prim (S754_finite false mF eF)).
  assert (Hx : Prim2SF x = S754_finite false mF eF).
  { unfold x. apply Prim2SF_SF2Prim. exact Hbounded. }
  destruct (SFdiv_1e7 mF eF HmF ltac:(lia))
    as (mq & eq & Hdiv & Hbq & Hq).
  assert (Hquot : Prim2SF (x / 1e7)%float = S754_finite false mq eq).
  { rewrite div_spec, Hx, Prim2SF_1e7. exact Hdiv. }
  exists (x / 1e7)%float, (inject_Z (Zpos mF) * 2 ^ eF)%Q,
    (inject_Z (Zpos mF) * 2 ^ eF / (10000000 # 1))%Q.
  split; [reflexivity |].
  split; [unfold is_finite_float; rewrite Hquot; reflexivity |].
  split; [exact Hrel |]. split; [reflexivity |].
  rewrite (F2Q_finite _ _ _ _ Hquot). cbn [cond_Zopp].
  exact Hq.
Qed.

(** C3, as stated, fails: [s = 0x1.c000000000001p+30], about
    1879048192.0000002 seconds, converts to 18790481920000004 ticks and
    back to the next double above [s]; the two are [2^-22], about 2.4e-7,
    apart. *)
Lemma roundtrip_misses_1e7 :
  ~ roundtrip_within_1e7 0x1.c000000000001p+30.
Proof.
  intros H.
  specialize (H ltac:(vm_compute; discriminate) ltac:(vm_compute; reflexivity)
                18790481920000004 0x1.c000000000002p+30%float
                ltac:(vm_compute; reflexivity)
                ltac:(vm_compute; reflexivity)).
  vm_compute in H. apply H. reflexivity.
Qed.

(** C3, amended. For every double [s] with [0 <= s < 2^43],
    [time_to_kronos_time(s)] returns an integer [k],
    [kronos_time_to_time(k)] returns a finite double, and that double
    differs from [s] by at most [1e-7 + s * 2^-51]: the tick lost by the
    truncation, and the rounding of the multiplication, of [float(k)]
    and of the division. *)
Theorem time_roundtrip_error (s : float) :
  is_finite_float s = true ->
  (0 <= F2Q s)%Q -> (F2Q s < inject_Z (2 ^ 43))%Q ->
  exists k q,
    time_to_kronos_time (TimeFloat s) = Ok k /\
    kronos_time_to_time k = Ok q /\
    is_finite_float q = true /\
    (Qabs (F2Q q - F2Q s)
     <= (1 # 10000000) + F2Q s * (1 # 2251799813685248))%Q.
Proof.
  intros Hfin H0 H43.
  change (inject_Z (2 ^ 43)) with (8796093022208 # 1)%Q in H43.
  assert (Httk : time_to_kronos_time (TimeFloat s)
                 = int_of_float (s * 1e7)%float) by reflexivity.
  unfold is_finite_float in Hfin.
  destruct (Prim2SF s) as [sx | sx | | sx mx ex] eqn:Hs; try discriminate.
  - (* s is a zero *)
    assert (Hp : Prim2SF (s * 1e7)%float = S754_zero (xorb sx false))
      by (rewrite mul_spec, Hs, Prim2SF_1e7; reflexivity).
    exists 0, 0%float. split.
    { rewrite Httk. unfold int_of_float. rewrite Hp. reflexivity. }
    split; [reflexivity |]. split; [reflexivity |].
    pose proof F2Q_zero as HQ0.
    assert (HS0 : (F2Q s == 0)%Q) by (unfold F2Q; rewrite Hs; reflexivity).
    apply Qabs_Qle_condition. split; lra.
  - (* s is m * 2^e *)
    pose proof (F2Q_finite s sx mx ex Hs) as HS.
    assert (Hpow : (0 < 2 ^ ex)%Q) by apply q2_pos.
    destruct sx.
    { exfalso. cbn [cond_Zopp] in HS.
      assert (Hneg : (inject_Z (- Zpos mx) * 2 ^ ex < 0 * 2 ^ ex)%Q).
      { apply Qmult_lt_compat_r; [exact Hpow |].
        unfold Qlt. cbn. lia. }
      lra. }
    cbn [cond_Zopp] in HS.
    assert (Hb : bounded prec emax mx ex = true).
    { pose proof (Prim2SF_valid s) as Hv. rewrite Hs in Hv. exact Hv. }
    assert (Hsize : Zpos (digits2_pos mx) + ex <= 44).
    { apply size_from_bound. rewrite <- HS.
      change (inject_Z (2 ^ 43)) with (8796093022208 # 1)%Q. exact H43. }
    assert (Hmul : Prim2SF (s * 1e7)%float
                   = SFmul prec emax (S754_finite false mx ex)
                           (S754_finite false ten7_mantissa (-29)))
      by (rewrite mul_spec, Hs, Prim2SF_1e7; reflexivity).
    set (V := (inject_Z (Zpos mx) * 2 ^ ex * inject_Z 10000000)%Q).
    assert (HV : (V == F2Q s * (10000000 # 1))%Q)
      by (unfold V; rewrite HS; reflexivity).
    pose proof (SFmul_1e7 mx ex Hb Hsize) as Hprod.
    cbv zeta in Hprod. fold V in Hprod.
    destruct Hprod as [[Hz HVs] | (m & e & Hr & Hbm & Hcases)].
    + (* the product rounds to zero *)
      rewrite Hz in Hmul.
      exists 0, 0%float. split.
      { rewrite Httk. unfold int_of_float. rewrite Hmul. reflexivity. }
      split; [reflexivity |]. split; [reflexivity |].
      pose proof F2Q_zero as HQ0.
      apply Qabs_Qle_condition. split; lra.
    + rewrite Hr in Hmul. cbv zeta in Hcases.
      set (R := (inject_Z (Zpos m) * 2 ^ e)%Q) in *.
      pose proof (F2Q_finite _ _ _ _ Hmul) as HR.
      cbn [cond_Zopp] in HR. fold R in HR.
      assert (HR0 : (0 <= R)%Q).
      { unfold R. apply Qmult_le_0_compat;
          [unfold Qle; cbn; lia | apply Qlt_le_weak, q2_pos]. }
      destruct (int_of_float_truncates (s * 1e7)%float)
        as (k & Hk & Hfloor & _).
      { unfold is_finite_float. rewrite Hmul. reflexivity. }
      assert (Hkfloor : k = Qfloor (F2Q (s * 1e7)%float))
        by (apply Hfloor; rewrite HR; exact HR0).
      assert (HK : (inject_Z k <= R /\ R < inject_Z k + 1)%Q).
      { rewrite Hkfloor, <- HR. split; [apply Qfloor_le |].
        pose proof (Qlt_floor (F2Q (s * 1e7)%float)) as Hlt.
        rewrite inject_Z_plus in Hlt. exact Hlt. }
      assert (Hk0 : 0 <= k).
      { rewrite Hkfloor. change 0 with (Qfloor 0).
        apply Qfloor_resp_le. rewrite HR. exact HR0. }
      destruct k as [| Kp | Kn]; [| | lia].
      * exists 0, 0%float. split; [rewrite Httk; exact Hk |].
        split; [reflexivity |]. split; [reflexivity |].
        pose proof F2Q_zero as HQ0.
        change (inject_Z 0) with 0%Q in HK. unfold ulp_half in Hcases.
        apply Qabs_Qle_condition.
        destruct Hcases as [Hc | Hc]; split; lra.
      * assert (HK1 : (1 <= inject_Z (Zpos Kp))%Q)
          by (unfold Qle; cbn; lia).
        destruct Hcases as [Hrel | [_ Hsmall]]; [| lra].
        assert (HKlt : Zpos Kp < 2 ^ 900).
        { apply Z.lt_trans with (2 ^ 70);
            [| apply Z.pow_lt_mono_r; lia].
          rewrite Zlt_Qlt.
          change (inject_Z (2 ^ 70)) with (1180591620717411303424 # 1)%Q.
          unfold ulp_half in Hrel. lra. }
        destruct (kronos_time_to_time_positive Kp HKlt)
          as (q & F & G & Hq & Hqfin & HF & HG & HQ).
        exists (Zpos Kp), q. split; [rewrite Httk; exact Hk |].
        split; [exact Hq |]. split; [exact Hqfin |].
        apply (roundtrip_arith (F2Q s) V R (inject_Z (Zpos Kp)) F G
                               (F2Q q)); assumption.
Qed.

Lemma time_roundtrip_error_witness :
  exists k q,
    time_to_kronos_time (TimeFloat 0x1.c000000000001p+30) = Ok k /\
    kronos_time_to_time k = Ok q /\
    is_finite_float q = true /\
    (Qabs (F2Q q - F2Q 0x1.c000000000001p+30)
     <= (1 # 10000000)
        + F2Q 0x1.c000000000001p+30 * (1 # 2251799813685248))%Q.
Proof.
  apply (time_roundtrip_error 0x1.c000000000001p+30).
  - vm_compute. reflexivity.
  - vm_compute. discriminate.
  - vm_compute. reflexivity.
Defined.

(** ** [round_down] outside its documented domain, and as a bucketing *)

(** X1. [round_down] is documented for non-negative arguments only, but
    it is defined for every sign.  For [base >= 1] and any [v], negative
    ones included, the result is the multiple [r] of [base] with
    [r <= v < r + base]: the modulo is the floor modulo, so negative values
    round toward minus infinity, not toward zero.  For [base <= -1] the
    modulo takes the sign of the base and the result is the multiple with
    [v <= r < v - base]: the function rounds up. *)
Theorem round_down_any_sign (v base : Z) :
  (1 <= base ->
   exists r, round_down v base = Ok r /\ (base | r) /\ r <= v < r + base) /\
  (base <= - 1 ->
   exists r, round_down v base = Ok r /\ (base | r) /\ v <= r < v - base).
Proof.
  unfold round_down.
  split; intros Hbase;
    (destruct (Z.eqb_spec base 0) as [-> | _]; [lia |]);
    exists (v - v mod base); (split; [reflexivity |]);
    (split; [exists (v / base); Z.div_mod_to_equations; nia |]).
  - pose proof (Z.mod_pos_bound v base ltac:(lia)). lia.
  - pose proof (Z.mod_neg_bound v base ltac:(lia)). lia.
Qed.

Lemma round_down_any_sign_witness :
  (exists r, round_down (- 7) 5 = Ok r /\ (5 | r) /\ r <= - 7 < r + 5) /\
  (exists r, round_down 7 (- 5) = Ok r /\ (- 5 | r) /\ 7 <= r < 7 - - 5).
Proof.
  split.
  - apply (proj1 (round_down_any_sign (- 7) 5)). lia.
  - apply (proj2 (round_down_any_sign 7 (- 5))). lia.
Defined.

(** X2. For [base >= 1], [round_down(., base)] cuts the integers into
    buckets of width [base]: the result [r] for [v] is a fixed point, the
    values sent to [r] are exactly those of [r <= w < r + base], and moving
    [v] by one width moves the result by one width. *)
Theorem round_down_bucket (v base : Z) :
  1 <= base ->
  exists r,
    round_down v base = Ok r /\
    round_down r base = Ok r /\
    (forall w, round_down w base = Ok r <-> r <= w < r + base) /\
    round_down (v + base) base = Ok (r + base).
Proof.
  intros Hbase. unfold round_down.
  destruct (Z.eqb_spec base 0) as [-> | _]; [lia |].
  exists (v - v mod base). split; [reflexivity |].
  pose proof (Z.mod_pos_bound v base ltac:(lia)) as Hv.
  pose proof (Z.div_mod v base ltac:(lia)) as Hdm.
  assert (Hr : v - v mod base = base * (v / base)) by lia.
  split; [| split].
  - f_equal. rewrite Hr at 2. rewrite Z.mul_comm, Z.mod_mul by lia. lia.
  - intros w. pose proof (Z.mod_pos_bound w base ltac:(lia)) as Hw.
    pose proof (Z.div_mod w base ltac:(lia)) as Hdw.
    split.
    + intros [= E]. lia.
    + intros Hin. f_equal.
      assert (Hq : w / base = v / base).
      { symmetry. apply (Z.div_unique w base (v / base) (w - base * (v / base))); lia. }
      rewrite <- Hq in Hr. lia.
  - f_equal.
    replace (v + base) with (v + 1 * base) by ring.
    rewrite Z.mod_add by lia. ring.
Qed.

Lemma round_down_bucket_witness :
  exists r,
    round_down 17 5 = Ok r /\
    round_down r 5 = Ok r /\
    (forall w, round_down w 5 = Ok r <-> r <= w < r + 5) /\
    round_down (17 + 5) 5 = Ok (r + 5).
Proof.
  apply (round_down_bucket 17 5). lia.
Defined.

(** ** Ids built by [uuid_from_kronos_time]: aliasing, variant, bounds *)

Lemma ts_fields_congr (ts ts' : Z) :
  ts mod 2 ^ 60 = ts' mod 2 ^ 60 ->
  ts_low ts = ts_low ts' /\ ts_mid ts = ts_mid ts' /\ ts_hi ts = ts_hi ts'.
Proof.
  unfold ts_low, ts_mid, ts_hi.
  change (2 ^ 60) with 1152921504606846976.
  change (2 ^ 48) with 281474976710656.
  change (2 ^ 32) with 4294967296.
  change (2 ^ 16) with 65536.
  change (2 ^ 12) with 4096.
  intros H. repeat split; Z.div_mod_to_equations; lia.
Qed.

Lemma uuid_from_kronos_time_congr (t t' : Z) (ty : UUIDType) (r : Z) :
  (t + 0x01b21dd213814000) mod 2 ^ 60 = (t' + 0x01b21dd213814000) mod 2 ^ 60 ->
  uuid_from_kronos_time t ty r = uuid_from_kronos_time t' ty r.
Proof.
  intros H. unfold uuid_from_kronos_time. cbv zeta.
  destruct (timestamp_masks (t + 0x01b21dd213814000)) as (-> & -> & ->).
  destruct (timestamp_masks (t' + 0x01b21dd213814000)) as (-> & -> & ->).
  destruct (ts_fields_congr _ _ H) as (-> & -> & ->). reflexivity.
Qed.

(** X3. [uuid_from_kronos_time] checks no range: the timestamp
    [t + 0x01b21dd213814000] is cut to the sixty bits of the time fields.
    For every [t], kind and entropy it returns an id; reading that id back
    with [uuid_to_kronos_time] gives the timestamp reduced modulo [2^60],
    minus the offset; and another time [t'] gives the same id (same kind,
    same entropy) exactly when [t - t'] is a multiple of [2^60]. *)
Theorem uuid_from_kronos_time_aliases (t : Z) (ty : UUIDType) (r : Z) :
  exists u,
    uuid_from_kronos_time t ty r = Ok u /\
    uuid_to_kronos_time (ObjUUID u)
    = Ok ((t + 0x01b21dd213814000) mod 2 ^ 60 - 0x01b21dd213814000) /\
    (forall t', uuid_from_kronos_time t' ty r = Ok u
                <-> (t - t') mod 2 ^ 60 = 0).
Proof.
  destruct (time_of_uuid_from_kronos_time t ty r) as (u & Eu & Hu).
  exists u. split; [exact Eu |]. split.
  - unfold uuid_to_kronos_time. rewrite Hu. reflexivity.
  - intros t'. split.
    + intros E'.
      destruct (time_of_uuid_from_kronos_time t' ty r) as (u' & Eu' & Hu').
      rewrite E' in Eu'. injection Eu' as <-. rewrite Hu in Hu'.
      revert Hu'. change (2 ^ 60) with 1152921504606846976.
      intros Hu'. Z.div_mod_to_equations. lia.
    + intros H. rewrite <- Eu. apply uuid_from_kronos_time_congr.
      revert H. change (2 ^ 60) with 1152921504606846976.
      intros H. Z.div_mod_to_equations. lia.
Qed.

Lemma land_pow2 (x n : Z) :
  0 <= n -> Z.land x (2 ^ n) = ((x / 2 ^ n) mod 2) * 2 ^ n.
Proof.
  intros Hn. rewrite <- Z.testbit_spec' by assumption.
  apply Z.bits_inj'. intros i Hi.
  rewrite Z.land_spec, Z.pow2_bits_eqb by assumption.
  destruct (Z.eqb_spec n i) as [<- | Hne].
  - rewrite andb_true_r. destruct (Z.testbit x n); cbn [Z.b2z].
    + rewrite Z.mul_1_l, Z.pow2_bits_eqb, Z.eqb_refl by assumption.
      reflexivity.
    + rewrite Z.mul_0_l, Z.bits_0. reflexivity.
  - rewrite andb_false_r. destruct (Z.testbit x n); cbn [Z.b2z].
    + rewrite Z.mul_1_l, Z.pow2_bits_eqb by assumption.
      symmetry. apply Z.eqb_neq. exact Hne.
    + rewrite Z.mul_0_l, Z.bits_0. reflexivity.
Qed.

Lemma version_of_packed (tl tm thv csh csl nd : Z) :
  0 <= tl < 2 ^ 32 -> 0 <= tm < 2 ^ 16 -> 0 <= thv < 2 ^ 12 ->
  0 <= csh < 2 ^ 8 -> 0 <= csl < 2 ^ 8 -> 0 <= nd < 2 ^ 48 ->
  version (mkUUID (packed tl tm thv csh csl nd))
  = if csh <? 0x80 then None
    else if csh <? 0xc0 then Some 0 else None.
Proof.
  intros Htl Htm Hthv Hcsh Hcsl Hnd.
  unfold version, variant. cbn [uuid_int].
  change (Z.shiftl 0x8000 48) with (2 ^ 63).
  change (Z.shiftl 0x4000 48) with (2 ^ 62).
  change (Z.shiftl 0x2000 48) with (2 ^ 61).
  rewrite !land_pow2 by lia.
  change 0xf with (2 ^ 4 - 1). rewrite land_mask by lia.
  rewrite Z.shiftr_div_pow2 by lia.
  set (i := packed tl tm thv csh csl nd).
  assert (H63 : (i / 2 ^ 63) mod 2 = csh / 128).
  { unfold i, packed.
    change (2 ^ 96) with 79228162514264337593543950336.
    change (2 ^ 80) with 1208925819614629174706176.
    change (2 ^ 64) with 18446744073709551616.
    change (2 ^ 63) with 9223372036854775808.
    change (2 ^ 56) with 72057594037927936.
    change (2 ^ 48) with 281474976710656 in *.
    change (2 ^ 32) with 4294967296 in *.
    change (2 ^ 16) with 65536 in *.
    change (2 ^ 12) with 4096 in *.
    change (2 ^ 8) with 256 in *.
    Z.div_mod_to_equations. lia. }
  assert (H62 : (i / 2 ^ 62) mod 2 = (csh / 64) mod 2).
  { unfold i, packed.
    change (2 ^ 96) with 79228162514264337593543950336.
    change (2 ^ 80) with 1208925819614629174706176.
    change (2 ^ 64) with 18446744073709551616.
    change (2 ^ 62) with 4611686018427387904.
    change (2 ^ 56) with 72057594037927936.
    change (2 ^ 48) with 281474976710656 in *.
    change (2 ^ 32) with 4294967296 in *.
    change (2 ^ 16) with 65536 in *.
    change (2 ^ 12) with 4096 in *.
    change (2 ^ 8) with 256 in *.
    Z.div_mod_to_equations. lia. }
  assert (H76 : (i / 2 ^ 76) mod 2 ^ 4 = 0).
  { unfold i, packed.
    change (2 ^ 96) with 79228162514264337593543950336.
    change (2 ^ 80) with 1208925819614629174706176.
    change (2 ^ 76) with 75557863725914323419136.
    change (2 ^ 64) with 18446744073709551616.
    change (2 ^ 56) with 72057594037927936.
    change (2 ^ 48) with 281474976710656 in *.
    change (2 ^ 32) with 4294967296 in *.
    change (2 ^ 16) with 65536 in *.
    change (2 ^ 12) with 4096 in *.
    change (2 ^ 8) with 256 in *.
    change (2 ^ 4) with 16.
    Z.div_mod_to_equations. lia. }
  rewrite H63, H62, H76.
  change (2 ^ 8) with 256 in Hcsh.
  destruct (Z.ltb_spec csh 0x80) as [Hlt | Hge].
  - replace (csh / 128) with 0 by (Z.div_mod_to_equations; lia).
    reflexivity.
  - replace (csh / 128) with 1 by (Z.div_mod_to_equations; lia).
    cbn [Z.mul Z.eqb Pos.mul]. change (1 * 2 ^ 63 =? 0) with false.
    cbv iota.
    destruct (Z.ltb_spec csh 0xc0) as [Hlt | Hge'].
    + replace ((csh / 64) mod 2) with 0 by (Z.div_mod_to_equations; lia).
      reflexivity.
    + replace ((csh / 64) mod 2) with 1 by (Z.div_mod_to_equations; lia).
      change (1 * 2 ^ 62 =? 0) with false. cbv iota.
      destruct ((i / 2 ^ 61) mod 2 * 2 ^ 61 =? 0); reflexivity.
Qed.

(** X4. No id built by [uuid_from_kronos_time] is a version-1 UUID, for
    any time, kind and entropy.  The LOWEST and HIGHEST ids have the NCS
    variant, so their [version] is [None]; the RANDOM id takes the RFC 4122
    variant bits from [uuid4()] but its version nibble is the top of the
    masked [time_hi_version], so its [version] is [0]. *)
Theorem uuid_from_kronos_time_version (t : Z) (ty : UUIDType) (r : Z) :
  exists u,
    uuid_from_kronos_time t ty r = Ok u /\
    version u = match ty with RANDOM => Some 0 | _ => None end.
Proof.
  destruct (ts_fields_range (t + 0x01b21dd213814000)) as (Hl & Hm & Hh).
  destruct ty.
  - destruct (uuid_from_kronos_time_random t r)
      as (csh & csl & nd & Hcsh & Hcsl & Hnd & E).
    eexists. split; [exact E |].
    rewrite version_of_packed by lia.
    destruct (Z.ltb_spec csh 0x80); [lia |].
    destruct (Z.ltb_spec csh 0xc0); [reflexivity | lia].
  - eexists. split; [apply uuid_from_kronos_time_lowest |].
    rewrite version_of_packed by lia. reflexivity.
  - eexists. split; [apply uuid_from_kronos_time_highest |].
    rewrite version_of_packed by lia. reflexivity.
Qed.

Lemma uuid_int_packed (u : UUID) :
  0 <= uuid_int u < 2 ^ 128 ->
  uuid_int u
  = packed (time_low u) (time_mid u) (time_hi_version u)
           (clock_seq_hi_variant u) (clock_seq_low u) (node u).
Proof.
  intros Hu.
  unfold time_low, time_mid, time_hi_version, clock_seq_hi_variant,
    clock_seq_low, node, packed.
  change 0xffff with (2 ^ 16 - 1). change 0xff with (2 ^ 8 - 1).
  change 0xffffffffffff with (2 ^ 48 - 1).
  rewrite !land_mask by lia. rewrite !Z.shiftr_div_pow2 by lia.
  revert Hu. generalize (uuid_int u). intros i Hi.
  change (2 ^ 128) with 340282366920938463463374607431768211456 in Hi.
  change (2 ^ 96) with 79228162514264337593543950336.
  change (2 ^ 80) with 1208925819614629174706176.
  change (2 ^ 64) with 18446744073709551616.
  change (2 ^ 56) with 72057594037927936.
  change (2 ^ 48) with 281474976710656.
  change (2 ^ 16) with 65536.
  change (2 ^ 8) with 256.
  Z.div_mod_to_equations. lia.
Qed.

(** X5. Among the well-formed ids that carry the three time fields of
    kronos-time [t], the LOWEST id at [t] is the least under the order of
    the 128-bit integers, and the HIGHEST id at [t] is above exactly those
    whose [clock_seq_hi_variant] is at most [0x3f].  An id with a variant
    bit set there, as every RANDOM id has, is above the HIGHEST bound of
    its own time. *)
Theorem bounds_bracket_their_time (t r : Z) (u : UUID) :
  0 <= uuid_int u < 2 ^ 128 ->
  time_low u = ts_low (t + 0x01b21dd213814000) ->
  time_mid u = ts_mid (t + 0x01b21dd213814000) ->
  time_hi_version u = ts_hi (t + 0x01b21dd213814000) ->
  exists lo hi,
    uuid_from_kronos_time t LOWEST r = Ok lo /\
    uuid_from_kronos_time t HIGHEST r = Ok hi /\
    uuid_le lo u /\
    (uuid_le u hi <-> clock_seq_hi_variant u <= 0x3f).
Proof.
  intros Hu Hl Hm Hh.
  exists (mkUUID (packed (ts_low (t + 0x01b21dd213814000))
                         (ts_mid (t + 0x01b21dd213814000))
                         (ts_hi (t + 0x01b21dd213814000)) 0 0 0)),
    (mkUUID (packed (ts_low (t + 0x01b21dd213814000))
                    (ts_mid (t + 0x01b21dd213814000))
                    (ts_hi (t + 0x01b21dd213814000))
                    0x3f 0xff 0xffffffffffff)).
  split; [apply uuid_from_kronos_time_lowest |].
  split; [apply uuid_from_kronos_time_highest |].
  unfold uuid_le. cbn [uuid_int]. rewrite (uuid_int_packed u Hu).
  rewrite Hl, Hm, Hh.
  assert (Hcsh : 0 <= clock_seq_hi_variant u < 2 ^ 8)
    by (unfold clock_seq_hi_variant; change 0xff with (2 ^ 8 - 1);
        rewrite land_mask by lia; apply Z.mod_pos_bound; lia).
  assert (Hcsl : 0 <= clock_seq_low u < 2 ^ 8)
    by (unfold clock_seq_low; change 0xff with (2 ^ 8 - 1);
        rewrite land_mask by lia; apply Z.mod_pos_bound; lia).
  assert (Hnd : 0 <= node u < 2 ^ 48)
    by (unfold node; change 0xffffffffffff with (2 ^ 48 - 1);
        rewrite land_mask by lia; apply Z.mod_pos_bound; lia).
  unfold packed.
  change (2 ^ 56) with 72057594037927936.
  change (2 ^ 48) with 281474976710656 in *.
  change (2 ^ 8) with 256 in *.
  split; [lia |]. split; intros H; lia.
Qed.

Lemma bounds_bracket_their_time_witness :
  exists lo hi,
    uuid_from_kronos_time 300 LOWEST 0 = Ok lo /\
    uuid_from_kronos_time 300 HIGHEST 0 = Ok hi /\
    uuid_le lo id_300 /\
    (uuid_le id_300 hi <-> clock_seq_hi_variant id_300 <= 0x3f).
Proof.
  apply (bounds_bracket_their_time 300 0 id_300).
  - vm_compute. split; [discriminate | reflexivity].
  - reflexivity.
  - reflexivity.
  - reflexivity.
Defined.

(** ** What a drained [_retrieve] hands over, for any stream handle *)

(** X6. For any stream handle, a consumer that drains the generator of
    [_retrieve] gets the [json] of the events of the stream's iterator, in
    the iterator's order, after at most one skipped event: the first one,
    skipped exactly when its id equals [start_id].  Nothing else is
    filtered, and [n + 1] resumptions are enough for [n] events. *)
Theorem retrieve_yields_iterator_suffix
        (db configuration : Type)
        (get_stream : string -> string -> configuration -> exc (Stream db))
        (urandom : Z) (namespace stream : string) (start_id : UUID)
        (end_time : Z) (order : ResultOrder) (limit : option Z)
        (config : configuration) (st : db) (s : Stream db)
        (end_id : UUID) (fuel : nat) :
  get_stream namespace stream config = Ok s ->
  uuid_from_kronos_time end_time HIGHEST urandom = Ok end_id ->
  let events := iterator s st start_id end_id (is_descending order) limit in
  (List.length events < fuel)%nat ->
  exists skipped out,
    drain fuel
          (_retrieve_next db configuration get_stream urandom namespace
                          stream start_id end_time order limit config st)
          Unstarted
    = Some (Ok out) /\
    map Event.json events = map Event.json skipped ++ out /\
    match events with
    | [] => skipped = []
    | event :: _ =>
        skipped = if uuid_int (Event.id event) =? uuid_int start_id
                  then [event] else []
    end.
Proof.
  intros Hs Hend events Hfuel.
  pose proof (drain_retrieve db configuration get_stream urandom namespace
                             stream start_id end_time order limit config st
                             s end_id fuel Hs Hend Hfuel) as Hdrain.
  fold events in Hdrain.
  destruct events as [| event rest] eqn:E.
  - exists [], []. split; [exact Hdrain |]. split; reflexivity.
  - cbn [emitted_events] in Hdrain. unfold uuid_eqb in Hdrain.
    destruct (uuid_int (Event.id event) =? uuid_int start_id);
      cbn [negb] in Hdrain.
    + exists [event], (map Event.json rest).
      split; [exact Hdrain |]. split; reflexivity.
    + exists [], (map Event.json (event :: rest)).
      split; [exact Hdrain |]. split; reflexivity.
Qed.

Lemma retrieve_yields_iterator_suffix_witness :
  exists skipped out,
    drain 4
          (_retrieve_next (list Event.t) unit sample_get_stream 0
                          "ns" "s" id_100 300 ASCENDING None tt sample_rows)
          Unstarted
    = Some (Ok out) /\
    map Event.json
        (iterator (spec_stream 600000000 4) sample_rows id_100
                  id_300_highest (is_descending ASCENDING) None)
    = map Event.json skipped ++ out /\
    match iterator (spec_stream 600000000 4) sample_rows id_100
                   id_300_highest (is_descending ASCENDING) None with
    | [] => skipped = []
    | event :: _ =>
        skipped = if uuid_int (Event.id event) =? uuid_int id_100
                  then [event] else []
    end.
Proof.
  apply (retrieve_yields_iterator_suffix
           (list Event.t) unit sample_get_stream 0 "ns" "s" id_100 300
           ASCENDING None tt sample_rows (spec_stream 600000000 4)
           id_300_highest 4).
  - reflexivity.
  - reflexivity.
  - vm_compute. lia.
Defined.

(** X7. When the iterator of the stream hands out events in strictly
    ascending order of id, none below [start_id], the drained [_retrieve]
    yields exactly the events of the iterator whose id is strictly above
    [start_id]: the skip of the first event is then the whole exclusion of
    the lower bound. *)
Theorem retrieve_excludes_start_id_when_ascending
        (db configuration : Type)
        (get_stream : string -> string -> configuration -> exc (Stream db))
        (urandom : Z) (namespace stream : string) (start_id : UUID)
        (end_time : Z) (order : ResultOrder) (limit : option Z)
        (config : configuration) (st : db) (s : Stream db)
        (end_id : UUID) (fuel : nat) :
  get_stream namespace stream config = Ok s ->
  uuid_from_kronos_time end_time HIGHEST urandom = Ok end_id ->
  let events := iterator s st start_id end_id (is_descending order) limit in
  StronglySorted id_lt events ->
  Forall (fun event => uuid_le start_id (Event.id event)) events ->
  (List.length events < fuel)%nat ->
  exists kept,
    drain fuel
          (_retrieve_next db configuration get_stream urandom namespace
                          stream start_id end_time order limit config st)
          Unstarted
    = Some (Ok (map Event.json kept)) /\
    (forall event, In event kept <->
                   In event events /\ uuid_lt start_id (Event.id event)).
Proof.
  intros Hs Hend events Hsorted Hge Hfuel.
  exists (emitted_events start_id events).
  split.
  - apply (drain_retrieve db configuration get_stream urandom namespace
                          stream start_id end_time order limit config st
                          s end_id fuel Hs Hend Hfuel).
  - destruct events as [| first rest]; cbn [emitted_events].
    + intros event. split; [intros [] | intros [[] _]].
    + apply StronglySorted_inv in Hsorted. destruct Hsorted as [_ Hfirst].
      rewrite Forall_forall in Hfirst.
      inversion Hge as [| ? ? Hge1 Hge2]; subst.
      unfold uuid_le in Hge1. unfold uuid_eqb.
      destruct (Z.eqb_spec (uuid_int (Event.id first)) (uuid_int start_id))
        as [Heq | Hne]; cbn [negb].
      * intros event. unfold uuid_lt. split.
        -- intros Hin. split; [right; exact Hin |].
           specialize (Hfirst event Hin). unfold id_lt, id_int in Hfirst.
           lia.
        -- intros [[<- | Hin] Hlt]; [lia | exact Hin].
      * intros event. unfold uuid_lt. split.
        -- intros Hin. split; [exact Hin |].
           destruct Hin as [<- | Hin]; [lia |].
           specialize (Hfirst event Hin). unfold id_lt, id_int in Hfirst.
           lia.
        -- intros [Hin _]. exact Hin.
Qed.

Lemma retrieve_excludes_start_id_when_ascending_witness :
  exists kept,
    drain 4
          (_retrieve_next (list Event.t) unit sample_get_stream 0
                          "ns" "s" id_100 300 ASCENDING None tt sample_rows)
          Unstarted
    = Some (Ok (map Event.json kept)) /\
    (forall event,
        In event kept <->
        In event (iterator (spec_stream 600000000 4) sample_rows id_100
                           id_300_highest (is_descending ASCENDING) None) /\
        uuid_lt id_100 (Event.id event)).
Proof.
  apply (retrieve_excludes_start_id_when_ascending
           (list Event.t) unit sample_get_stream 0 "ns" "s" id_100 300
           ASCENDING None tt sample_rows (spec_stream 600000000 4)
           id_300_highest 4).
  - reflexivity.
  - reflexivity.
  - vm_compute.
    repeat (constructor; try (unfold id_lt, id_int; vm_compute; reflexivity)).
  - vm_compute. repeat constructor; vm_compute; discriminate.
  - vm_compute. lia.
Defined.

(** ** When the stream handle fails *)

Section FailingGenerator.

Variable db : Type.
Variable configuration : Type.
Variable get_stream
  : string -> string -> configuration -> exc (Failing.Stream db).
Variable urandom : Z.
Variables (namespace stream : string) (start_id : UUID) (end_time : Z).
Variables (order : ResultOrder) (limit : option Z).
Variables (config : configuration) (st : db).

Let next : Failing.generator -> exc string * Failing.generator :=
  Failing._retrieve_next db configuration get_stream urandom namespace
                         stream start_id end_time order limit config st.



End FailingGenerator.



(** A handle that never fails gives the calls of the first part: over
    [never_failing] handles the two models of [_delete] and of the drained
    [_retrieve] agree. *)
Lemma never_failing_agrees
      (db configuration : Type)
      (get_stream : string -> string -> configuration -> exc (Stream db))
      (urandom : Z) (namespace stream : string) (start_id : UUID)
      (end_time : Z) (order : ResultOrder) (limit : option Z)
      (config : configuration) (st : db) (fuel : nat) :
  let failing_get_stream :=
    fun namespace stream config =>
      s <- get_stream namespace stream config ;; Ok (never_failing s) in
  Failing._delete db configuration failing_get_stream urandom namespace
                  stream start_id end_time config st
  = _delete db configuration get_stream urandom namespace stream start_id
            end_time config st /\
  drain fuel
        (Failing._retrieve_next db configuration failing_get_stream urandom
                                namespace stream start_id end_time order
                                limit config st)
        Failing.Unstarted
  = drain fuel
          (_retrieve_next db configuration get_stream urandom namespace
                          stream start_id end_time order limit config st)
          Unstarted.
Proof.
  intros failing_get_stream.
  destruct (uuid_from_kronos_time_total end_time HIGHEST urandom)
    as (end_id & Hend).
  assert (Hloop :
            forall fuel events,
              drain fuel
                    (Failing._retrieve_next db configuration
                       failing_get_stream urandom namespace stream start_id
                       end_time order limit config st)
                    (Failing.Suspended (events, StopIteration))
              = drain fuel
                      (_retrieve_next db configuration get_stream urandom
                         namespace stream start_id end_time order limit
                         config st)
                      (Suspended events)).
  { intros n. induction n as [| n IH]; intros events; [reflexivity |].
    cbn [drain Failing._retrieve_next _retrieve_next Failing.loop_next
         loop_next].
    destruct events as [| event rest];
      cbn [Failing.loop_next loop_next Failing.iter_next iter_next];
      [reflexivity |].
    rewrite IH. reflexivity. }
  split.
  - unfold Failing._delete, _delete, failing_get_stream.
    destruct (get_stream namespace stream config) as [s | e];
      cbn [bind]; [| reflexivity].
    rewrite Hend. reflexivity.
  - destruct fuel as [| fuel]; [reflexivity |].
    cbn [drain Failing._retrieve_next _retrieve_next].
    unfold failing_get_stream.
    destruct (get_stream namespace stream config) as [s | e];
      cbn [bind]; [| reflexivity].
    rewrite Hend. cbn [Failing.iterator never_failing].
    destruct (iterator s st start_id end_id (is_descending order) limit)
      as [| event rest]; cbn [Failing.iter_next iter_next];
      [reflexivity |].
    destruct (negb (uuid_eqb (Event.id event) start_id)).
    + rewrite Hloop. reflexivity.
    + destruct rest as [| event' rest'];
        cbn [Failing.loop_next loop_next Failing.iter_next iter_next];
        [reflexivity |].
      rewrite Hloop. reflexivity.
Qed.

(** ** The hex codec: [bytearray_to_hex] and [hex_to_bytearray] *)

Lemma length_hexlify (data : list Byte.byte) :
  String.length (hexlify data) = (2 * List.length data)%nat.
Proof.
  induction data as [| x rest IH]; [reflexivity |].
  cbn [hexlify String.length List.length]. rewrite IH. lia.
Qed.

Lemma a2b_hex_loop_hexlify (data : list Byte.byte) :
  a2b_hex_loop (hexlify data) = Ok (string_of_list_byte data).
Proof.
  induction data as [| x rest IH]; [reflexivity |].
  cbn [hexlify a2b_hex_loop string_of_list_byte map].
  rewrite IH. destruct x; reflexivity.
Qed.

(** X9. Decoding what [bytearray_to_hex] produced gives back the bytes:
    [hex_to_bytearray(bytearray_to_hex(b))] returns [b] for every byte
    sequence [b], the empty one included. *)
Theorem hex_roundtrip (data : list Byte.byte) :
  hex_to_bytearray (bytearray_to_hex data) = Ok data.
Proof.
  unfold hex_to_bytearray, bytearray_to_hex, a2b_hex.
  rewrite length_hexlify.
  replace (Nat.odd (2 * List.length data)) with false.
  - rewrite a2b_hex_loop_hexlify. cbn [bind].
    rewrite list_byte_of_string_of_list_byte. reflexivity.
  - symmetry. rewrite <- Nat.negb_even, Nat.even_mul. reflexivity.
Qed.

Lemma string_pair_ind (P : string -> Prop) :
  P EmptyString ->
  (forall a, P (String a EmptyString)) ->
  (forall a b rest, P rest -> P (String a (String b rest))) ->
  forall s, P s.
Proof.
  intros H0 H1 H2.
  assert (H : forall s, P s /\ forall a, P (String a s)).
  { induction s as [| b rest [IH IHa]].
    - split; [exact H0 | exact H1].
    - split; [apply IHa |]. intros a. apply H2. exact IH. }
  intros s. apply H.
Qed.

(** The decoder takes a character for a digit exactly when it is one of
    [0-9], [a-f], [A-F]. *)
Lemma to_int_accepts_hexdigits (c : ascii) :
  is_hexdigit c = match to_int c with
                  | Some _ => true
                  | None => false
                  end.
Proof. destruct c as [[] [] [] [] [] [] [] []]; vm_compute; reflexivity. Qed.

Lemma a2b_hex_loop_checks (s : string) :
  match a2b_hex_loop s with
  | Ok out =>
      Nat.even (String.length s) = true /\ all_hexdigits s = true /\
      (2 * String.length out = String.length s)%nat
  | Raise e =>
      e = TypeError /\
      (Nat.odd (String.length s) = true \/ all_hexdigits s = false)
  end.
Proof.
  induction s as [| a | a b rest IH] using string_pair_ind.
  - repeat split.
  - split; [reflexivity | left; reflexivity].
  - cbn [a2b_hex_loop all_hexdigits String.length].
    rewrite !to_int_accepts_hexdigits.
    destruct (to_int a) as [top |]; [| split; [reflexivity | right; reflexivity]].
    destruct (to_int b) as [bot |];
      [| split; [reflexivity | right; reflexivity]].
    cbn [andb]. destruct (a2b_hex_loop rest) as [out | e]; cbn [bind].
    + destruct IH as (He & Hh & Hl). cbn [String.length].
      repeat split; [exact He | exact Hh | lia].
    + destruct IH as (He & Hh). split; [exact He |].
      destruct Hh as [Hodd | Hbad]; [left; exact Hodd | right; exact Hbad].
Qed.

Lemma length_list_byte_of_string (s : string) :
  List.length (list_byte_of_string s) = String.length s.
Proof.
  induction s as [| c rest IH]; [reflexivity |].
  cbn [list_byte_of_string list_ascii_of_string map List.length String.length].
  f_equal. exact IH.
Qed.

(** X10. [hex_to_bytearray] succeeds exactly on the strings of even
    length made of hexadecimal digits of either case, and then returns
    half as many bytes as the string has characters; on every other
    string it raises [TypeError], the odd length being checked first. *)
Theorem hex_to_bytearray_checks (_hex : string) :
  match hex_to_bytearray _hex with
  | Ok data =>
      Nat.even (String.length _hex) = true /\
      all_hexdigits _hex = true /\
      (2 * List.length data = String.length _hex)%nat
  | Raise e =>
      e = TypeError /\
      (Nat.odd (String.length _hex) = true \/ all_hexdigits _hex = false)
  end.
Proof.
  unfold hex_to_bytearray, a2b_hex.
  destruct (Nat.odd (String.length _hex)) eqn:Hodd; cbn [bind].
  - split; [reflexivity | left; reflexivity].
  - pose proof (a2b_hex_loop_checks _hex) as H.
    destruct (a2b_hex_loop _hex) as [out | e]; cbn [bind].
    + rewrite length_list_byte_of_string. exact H.
    + destruct H as [He [Hbad | Hbad]].
      * rewrite Hodd in Hbad. discriminate Hbad.
      * split; [exact He | right; exact Hbad].
Qed.

Lemma to_int_digit (a : ascii) (top : N) :
  to_int a = Some top ->
  In top [0; 1; 2; 3; 4; 5; 6; 7; 8; 9; 10; 11; 12; 13; 14; 15]%N /\
  hexdigit top = lower_ascii a.
Proof.
  intros H.
  destruct a as [[] [] [] [] [] [] [] []]; vm_compute in H;
    try discriminate H; injection H as <-;
    (split; [cbn [In]; repeat (first [left; reflexivity | right])
            | reflexivity]).
Qed.

Lemma hexlify_pair (top bot : N) :
  In top [0; 1; 2; 3; 4; 5; 6; 7; 8; 9; 10; 11; 12; 13; 14; 15]%N ->
  In bot [0; 1; 2; 3; 4; 5; 6; 7; 8; 9; 10; 11; 12; 13; 14; 15]%N ->
  let x := Ascii.byte_of_ascii (ascii_of_N (N.shiftl top 4 + bot)) in
  N.land (N.shiftr (Byte.to_N x) 4) 0xf = top /\
  N.land (Byte.to_N x) 0xf = bot.
Proof.
  intros Ht Hb.
  repeat (destruct Ht as [<- | Ht]; [| try contradiction]);
    repeat (destruct Hb as [<- | Hb]; [| try contradiction]);
    split; reflexivity.
Qed.

Lemma hexlify_a2b_hex_loop (s out : string) :
  a2b_hex_loop s = Ok out ->
  hexlify (list_byte_of_string out) = lower s.
Proof.
  revert out. induction s as [| a | a b rest IH] using string_pair_ind;
    intros out.
  - intros [= <-]. reflexivity.
  - discriminate.
  - cbn [a2b_hex_loop].
    destruct (to_int a) as [top |] eqn:Ha; [| discriminate].
    destruct (to_int b) as [bot |] eqn:Hb; [| discriminate].
    destruct (a2b_hex_loop rest) as [out' |]; [| discriminate].
    cbn [bind]. intros [= <-].
    destruct (to_int_digit a top Ha) as [Htop Hla].
    destruct (to_int_digit b bot Hb) as [Hbot Hlb].
    destruct (hexlify_pair top bot Htop Hbot) as [E1 E2].
    cbn [list_byte_of_string list_ascii_of_string map hexlify lower].
    cbv zeta in E1, E2. rewrite E1, E2, Hla, Hlb.
    do 2 f_equal. apply (IH out' eq_refl).
Qed.

(** X11. Encoding is the canonical form of decoding: when
    [hex_to_bytearray(h)] returns [b], [bytearray_to_hex(b)] is [h] in
    lower case.  Two hex strings decode to the same bytes only if they
    differ by the case of their digits. *)
Theorem bytearray_to_hex_canonical (_hex : string) (data : list Byte.byte) :
  hex_to_bytearray _hex = Ok data ->
  bytearray_to_hex data = lower _hex.
Proof.
  unfold hex_to_bytearray, a2b_hex, bytearray_to_hex.
  destruct (Nat.odd (String.length _hex)); [discriminate |].
  destruct (a2b_hex_loop _hex) as [out |] eqn:Hloop; [| discriminate].
  cbn [bind]. intros [= <-]. apply hexlify_a2b_hex_loop. exact Hloop.
Qed.

Lemma bytearray_to_hex_canonical_witness :
  hex_to_bytearray "00fFAb7E" = Ok [Byte.x00; Byte.xff; Byte.xab; Byte.x7e] /\
  bytearray_to_hex [Byte.x00; Byte.xff; Byte.xab; Byte.x7e] = "00ffab7e"%string.
Proof.
  split; [reflexivity |].
  apply (bytearray_to_hex_canonical "00fFAb7E" [Byte.x00; Byte.xff; Byte.xab; Byte.x7e]).
  reflexivity.
Defined.

(** ** How far [time_to_kronos_time] is from the exact product *)

Lemma time_to_kronos_time_enclosure (s : float) :
  is_finite_float s = true ->
  (0 <= F2Q s)%Q -> (F2Q s < inject_Z (2 ^ 43))%Q ->
  exists k,
    time_to_kronos_time (TimeFloat s) = Ok k /\ 0 <= k /\
    let V := (F2Q s * (10000000 # 1))%Q in
    (V * (1 - ulp_half) - 1 < inject_Z k /\
     inject_Z k <= V * (1 + ulp_half))%Q.
Proof.
  intros Hfin H0 H43.
  change (inject_Z (2 ^ 43)) with (8796093022208 # 1)%Q in H43.
  assert (Httk : time_to_kronos_time (TimeFloat s)
                 = int_of_float (s * 1e7)%float) by reflexivity.
  unfold is_finite_float in Hfin. cbv zeta. unfold ulp_half.
  destruct (Prim2SF s) as [sx | sx | | sx mx ex] eqn:Hs; try discriminate.
  - assert (Hp : Prim2SF (s * 1e7)%float = S754_zero (xorb sx false))
      by (rewrite mul_spec, Hs, Prim2SF_1e7; reflexivity).
    exists 0. split.
    { rewrite Httk. unfold int_of_float. rewrite Hp. reflexivity. }
    split; [lia |].
    assert (HS0 : (F2Q s == 0)%Q) by (unfold F2Q; rewrite Hs; reflexivity).
    change (inject_Z 0) with 0%Q. split; lra.
  - pose proof (F2Q_finite s sx mx ex Hs) as HS.
    assert (Hpow : (0 < 2 ^ ex)%Q) by apply q2_pos.
    destruct sx.
    { exfalso. cbn [cond_Zopp] in HS.
      assert (Hneg : (inject_Z (- Zpos mx) * 2 ^ ex < 0 * 2 ^ ex)%Q).
      { apply Qmult_lt_compat_r; [exact Hpow |].
        unfold Qlt. cbn. lia. }
      lra. }
    cbn [cond_Zopp] in HS.
    assert (Hb : bounded prec emax mx ex = true).
    { pose proof (Prim2SF_valid s) as Hv. rewrite Hs in Hv. exact Hv. }
    assert (Hsize : Zpos (digits2_pos mx) + ex <= 44).
    { apply size_from_bound. rewrite <- HS.
      change (inject_Z (2 ^ 43)) with (8796093022208 # 1)%Q. exact H43. }
    assert (Hmul : Prim2SF (s * 1e7)%float
                   = SFmul prec emax (S754_finite false mx ex)
                           (S754_finite false ten7_mantissa (-29)))
      by (rewrite mul_spec, Hs, Prim2SF_1e7; reflexivity).
    set (V := (inject_Z (Zpos mx) * 2 ^ ex * inject_Z 10000000)%Q).
    assert (HV : (V == F2Q s * (10000000 # 1))%Q)
      by (unfold V; rewrite HS; reflexivity).
    pose proof (SFmul_1e7 mx ex Hb Hsize) as Hprod.
    cbv zeta in Hprod. fold V in Hprod. unfold ulp_half in Hprod.
    destruct Hprod as [[Hz HVs] | (m & e & Hr & Hbm & Hcases)].
    + rewrite Hz in Hmul. exists 0. split.
      { rewrite Httk. unfold int_of_float. rewrite Hmul. reflexivity. }
      split; [lia |]. change (inject_Z 0) with 0%Q. split; lra.
    + rewrite Hr in Hmul.
      set (R := (inject_Z (Zpos m) * 2 ^ e)%Q) in *.
      pose proof (F2Q_finite _ _ _ _ Hmul) as HR.
      cbn [cond_Zopp] in HR. fold R in HR.
      assert (HR0 : (0 <= R)%Q).
      { unfold R. apply Qmult_le_0_compat;
          [unfold Qle; cbn; lia | apply Qlt_le_weak, q2_pos]. }
      destruct (int_of_float_truncates (s * 1e7)%float)
        as (k & Hk & Hfloor & _).
      { unfold is_finite_float. rewrite Hmul. reflexivity. }
      assert (Hkfloor : k = Qfloor (F2Q (s * 1e7)%float))
        by (apply Hfloor; rewrite HR; exact HR0).
      assert (HK : (inject_Z k <= R /\ R < inject_Z k + 1)%Q).
      { rewrite Hkfloor, <- HR. split; [apply Qfloor_le |].
        pose proof (Qlt_floor (F2Q (s * 1e7)%float)) as Hlt.
        rewrite inject_Z_plus in Hlt. exact Hlt. }
      assert (Hk0 : 0 <= k).
      { rewrite Hkfloor. change 0 with (Qfloor 0).
        apply Qfloor_resp_le. rewrite HR. exact HR0. }
      exists k. split; [rewrite Httk; exact Hk |]. split; [exact Hk0 |].
      assert (Hkq : (0 <= inject_Z k)%Q) by (unfold Qle; cbn; lia).
      destruct Hcases as [Hrel | [HVs HRs]]; [split; lra |].
      assert (Hk1 : k = 0).
      { destruct k as [| Kp | Kn]; [reflexivity | | lia].
        exfalso.
        assert (HK1 : (1 <= inject_Z (Zpos Kp))%Q) by (unfold Qle; cbn; lia).
        lra. }
      rewrite Hk1. change (inject_Z 0) with 0%Q. split; lra.
Qed.

(** ** The sign of a rounded result *)

Lemma binary_round_aux_opp (s : bool) (m e : Z) (l : location) :
  binary_round_aux prec emax (negb s) m e l
  = SFopp (binary_round_aux prec emax s m e l).
Proof.
  unfold binary_round_aux.
  destruct (shr_fexp prec emax m e l) as [mrs' e'].
  destruct (shr_fexp prec emax _ e' loc_Exact) as [mrs'' e''].
  destruct (shr_m mrs''); try reflexivity.
  destruct (e'' <=? emax - prec); reflexivity.
Qed.

Lemma binary_round_opp (m : positive) (e : Z) :
  binary_round prec emax true m e
  = SFopp (binary_round prec emax false m e).
Proof.
  unfold binary_round.
  destruct (shl_align m e (fexp prec emax (Zpos (digits2_pos m) + e)))
    as [mz ez].
  apply (binary_round_aux_opp false).
Qed.

Lemma SFdiv_opp_l (m : positive) (e : Z) (y : spec_float) :
  SFdiv prec emax (S754_finite true m e) y
  = SFopp (SFdiv prec emax (S754_finite false m e) y).
Proof.
  destruct y as [sy | sy | | sy my ey]; try reflexivity.
  cbn [SFdiv].
  destruct (SFdiv_core_binary prec emax (Zpos m) e (Zpos my) ey)
    as [[mz ez] lz].
  apply (binary_round_aux_opp (xorb false sy)).
Qed.

Lemma SF2Q_opp (x : spec_float) : (SF2Q (SFopp x) == - SF2Q x)%Q.
Proof.
  destruct x as [s | s | | s m e]; try reflexivity.
  cbn [SFopp]. rewrite !SF2Q_finite.
  assert (Hs : cond_Zopp (negb s) (Zpos m) = - cond_Zopp s (Zpos m))
    by (destruct s; reflexivity).
  rewrite Hs, inject_Z_opp. ring.
Qed.

Lemma F2Q_opp (x : float) : (F2Q (- x) == - F2Q x)%Q.
Proof. unfold F2Q. rewrite opp_spec. apply SF2Q_opp. Qed.

Lemma is_finite_float_opp (x : float) :
  is_finite_float (- x) = is_finite_float x.
Proof.
  unfold is_finite_float. rewrite opp_spec.
  destruct (Prim2SF x); reflexivity.
Qed.

(** [float(-k) / 1e7] is the negation of [float(k) / 1e7]. *)
Lemma kronos_time_to_time_negative (Kp : positive) :
  Zpos Kp < 2 ^ 900 ->
  exists q,
    kronos_time_to_time (Zpos Kp) = Ok q /\
    kronos_time_to_time (Zneg Kp) = Ok (- q)%float.
Proof.
  intros HK.
  destruct (binary_round_int Kp HK)
    as (mF & eF & Hround & Hbounded & HmF & HeF & Hrel).
  unfold kronos_time_to_time, float_of_int. cbn [binary_normalize].
  rewrite binary_round_opp, Hround. cbn [SFopp negb bind].
  set (x := SF2Prim (S754_finite false mF eF)).
  assert (Hx : Prim2SF x = S754_finite false mF eF).
  { unfold x. apply Prim2SF_SF2Prim. exact Hbounded. }
  assert (Hx' : SF2Prim (S754_finite true mF eF) = (- x)%float).
  { apply Prim2SF_inj. rewrite opp_spec, Hx.
    apply Prim2SF_SF2Prim. exact Hbounded. }
  exists (x / 1e7)%float. split; [reflexivity |].
  rewrite Hx'. f_equal. apply Prim2SF_inj.
  rewrite opp_spec, !div_spec, opp_spec, Hx. cbn [SFopp negb].
  apply SFdiv_opp_l.
Qed.

(** [float(k) / 1e7] for every integer of magnitude below [2^900]. *)
Lemma kronos_time_to_time_relative (k : Z) :
  - 2 ^ 900 < k < 2 ^ 900 ->
  exists q,
    kronos_time_to_time k = Ok q /\
    is_finite_float q = true /\
    (Qabs (F2Q q - inject_Z k / (10000000 # 1))
     <= Qabs (inject_Z k) / (10000000 # 1)
        * ((1 # 4503599627370496)
           + (1 # 81129638414606681695789005144064)))%Q.
Proof.
  intros Hk. destruct k as [| Kp | Kp].
  - exists 0%float. split; [reflexivity |]. split; [reflexivity |].
    vm_compute. discriminate.
  - destruct (kronos_time_to_time_positive Kp ltac:(lia))
      as (q & F & G & Hq & Hfin & HF & HG & HQ).
    exists q. split; [exact Hq |]. split; [exact Hfin |].
    assert (HK0 : (0 < inject_Z (Zpos Kp))%Q) by (unfold Qlt; cbn; lia).
    rewrite (Qabs_pos (inject_Z (Zpos Kp))) by lra.
    unfold ulp_half in *.
    assert (HG' : (G * (10000000 # 1) == F)%Q) by (rewrite HG; field).
    set (K := inject_Z (Zpos Kp)) in *.
    assert (HKc : (K / (10000000 # 1) == K * (1 # 10000000))%Q) by field.
    rewrite HKc.
    apply Qabs_Qle_condition. split; lra.
  - destruct (kronos_time_to_time_negative Kp ltac:(lia)) as (q' & Hq' & Hn).
    destruct (kronos_time_to_time_positive Kp ltac:(lia))
      as (q & F & G & Hq & Hfin & HF & HG & HQ).
    rewrite Hq in Hq'. injection Hq' as <-.
    exists (- q)%float. split; [exact Hn |].
    split; [rewrite is_finite_float_opp; exact Hfin |].
    rewrite F2Q_opp.
    assert (HK0 : (0 < inject_Z (Zpos Kp))%Q) by (unfold Qlt; cbn; lia).
    assert (Hneg : (inject_Z (Zneg Kp) == - inject_Z (Zpos Kp))%Q)
      by (unfold Qeq; cbn; lia).
    rewrite Hneg, Qabs_opp, (Qabs_pos (inject_Z (Zpos Kp))) by lra.
    unfold ulp_half in *.
    assert (HG' : (G * (10000000 # 1) == F)%Q) by (rewrite HG; field).
    set (K := inject_Z (Zpos Kp)) in *.
    assert (HKc : (K / (10000000 # 1) == K * (1 # 10000000))%Q) by field.
    assert (HKn : (- K / (10000000 # 1) == - (K * (1 # 10000000)))%Q)
      by field.
    rewrite HKc, HKn.
    apply Qabs_Qle_condition. split; lra.
Qed.

(** ** Roundings that lose nothing *)

(** When the located rational is a multiple of the spacing of the target
    format, rounding returns it unchanged. *)
Lemma binary_round_aux_exact (sx : bool) (m : positive) (e : Z)
      (l : location) (N D c : Z) :
  located N D (shr_record_of_loc (Zpos m) l) ->
  let ef := fexp prec emax (Zpos (digits2_pos m) + e) in
  e <= ef -> ef + 1 <= 971 ->
  0 < c -> N = c * (D * 2 ^ (ef - e)) ->
  exists m'' e'',
    binary_round_aux prec emax sx (Zpos m) e l = S754_finite sx m'' e'' /\
    bounded prec emax m'' e'' = true /\
    (inject_Z (Zpos m'') * 2 ^ e'' == inject_Z c * 2 ^ ef)%Q.
Proof.
  intros Hloc ef He Hmax Hc HN.
  destruct (binary_round_aux_located sx m e l N D Hloc He Hmax)
    as (m1 & Hm1 & Hnear & _ & Hres).
  fold ef in Hnear, Hres.
  destruct Hloc as (HD & _).
  assert (HP : 0 < 2 ^ (ef - e)) by (apply Z.pow_pos_nonneg; lia).
  set (DP := D * 2 ^ (ef - e)) in *.
  assert (HDP : 0 < DP) by (unfold DP; nia).
  assert (Hm1c : m1 = c) by nia.
  destruct Hres as [[Hz _] | (m'' & e'' & Hbra & Hbounded & Hshape)];
    [lia |].
  exists m'', e''. split; [exact Hbra |]. split; [exact Hbounded |].
  rewrite <- Hm1c.
  destruct Hshape as [[-> ->] | (-> & -> & ->)]; [reflexivity |].
  rewrite q2_add. change (2 ^ 1)%Q with 2%Q.
  change (inject_Z (2 ^ 52)) with (4503599627370496 # 1)%Q.
  change (inject_Z (2 ^ 53)) with (9007199254740992 # 1)%Q.
  ring.
Qed.

Lemma digits2_pos_shift (p q : positive) (j : Z) :
  0 <= j -> Zpos q = Zpos p * 2 ^ j ->
  Zpos (digits2_pos q) = Zpos (digits2_pos p) + j.
Proof.
  intros Hj Hq. apply digits2_pos_unique. rewrite Hq.
  destruct (digits2_pos_bounds p) as [Hlo Hhi].
  assert (HP : 0 < 2 ^ j) by (apply Z.pow_pos_nonneg; lia).
  replace (Zpos (digits2_pos p) + j - 1)
    with (Zpos (digits2_pos p) - 1 + j) by lia.
  rewrite !Z.pow_add_r by lia. nia.
Qed.

(** [float(K)] is exact when [K] fits 53 bits, or has enough trailing
    zero bits. *)
Lemma binary_round_int_exact (Kp : positive) :
  Zpos Kp < 2 ^ 900 ->
  (53 < Zpos (digits2_pos Kp) ->
   exists c, Zpos Kp = c * 2 ^ (Zpos (digits2_pos Kp) - 53)) ->
  exists m e,
    binary_round prec emax false Kp 0 = S754_finite false m e /\
    bounded prec emax m e = true /\
    2 ^ 52 <= Zpos m < 2 ^ 53 /\ - 52 <= e <= 900 /\
    (inject_Z (Zpos m) * 2 ^ e == inject_Z (Zpos Kp))%Q.
Proof.
  intros HK Hdiv.
  destruct (binary_round_int Kp HK)
    as (m & e & Hround & Hbounded & Hm & He & _).
  exists m, e. split; [exact Hround |]. split; [exact Hbounded |].
  split; [exact Hm |]. split; [exact He |].
  set (dK := Zpos (digits2_pos Kp)) in *.
  destruct (digits2_pos_bounds Kp) as [Hlo Hhi]. fold dK in Hlo, Hhi.
  assert (HdK : 1 <= dK <= 900).
  { split; [unfold dK; lia |]. apply digits2_pos_le. exact HK. }
  revert Hround. unfold binary_round. fold dK. rewrite fexp_unfold.
  replace (Z.max (dK + 0 - 53) (- 1074)) with (dK - 53) by lia.
  assert (Hgoal :
            forall (mz : positive) (ez : Z) (c' : Z),
              Zpos (digits2_pos mz) + ez = dK ->
              ez <= dK - 53 -> 0 < c' ->
              Zpos mz = c' * 2 ^ (dK - 53 - ez) ->
              (inject_Z c' * 2 ^ (dK - 53) == inject_Z (Zpos Kp))%Q ->
              binary_round_aux prec emax false (Zpos mz) ez loc_Exact
              = S754_finite false m e ->
              (inject_Z (Zpos m) * 2 ^ e == inject_Z (Zpos Kp))%Q).
  { intros mz ez c' Hdz Hle Hc' Hmz Hval Hbra.
    assert (Hloc : located (Zpos mz) 1
                           (shr_record_of_loc (Zpos mz) loc_Exact)).
    { unfold located. cbn [shr_record_of_loc shr_m shr_r shr_s].
      repeat split; intros; try discriminate; try lia. }
    destruct (binary_round_aux_exact false mz ez loc_Exact (Zpos mz) 1 c'
                                     Hloc)
      as (m'' & e'' & Hbra' & _ & Hex);
      try (rewrite fexp_unfold; lia); try exact Hc';
      [rewrite fexp_unfold;
       replace (Z.max (Zpos (digits2_pos mz) + ez - 53) (- 1074) - ez)
         with (dK - 53 - ez) by lia;
       lia |].
    rewrite Hbra in Hbra'. injection Hbra' as <- <-.
    rewrite Hex, fexp_unfold.
    replace (Z.max (Zpos (digits2_pos mz) + ez - 53) (- 1074))
      with (dK - 53) by lia.
    exact Hval. }
  unfold shl_align.
  destruct (dK - 53 - 0) as [| dd | dd] eqn:Hdd.
  - apply (Hgoal Kp 0 (Zpos Kp)); try lia.
    + replace (dK - 53 - 0) with 0 by lia. lia.
    + replace (dK - 53) with 0 by lia. apply Qmult_1_r.
  - destruct (Hdiv ltac:(lia)) as [c Hc].
    assert (Hc0 : 0 < c).
    { assert (0 < 2 ^ (dK - 53)) by (apply Z.pow_pos_nonneg; lia). nia. }
    apply (Hgoal Kp 0 c); try lia.
    + replace (dK - 53 - 0) with (dK - 53) by lia. exact Hc.
    + rewrite <- q2_inject, <- inject_Z_mult, <- Hc by lia. reflexivity.
  - assert (Hdd' : Zpos dd = 53 - dK) by lia.
    assert (Hmz : Zpos (Pos.iter xO Kp dd) = Zpos Kp * 2 ^ (53 - dK))
      by (rewrite iter_xO_value, Hdd'; reflexivity).
    apply (Hgoal (Pos.iter xO Kp dd) (dK - 53) (Zpos (Pos.iter xO Kp dd)));
      try lia.
    + rewrite (digits2_pos_shift Kp _ (53 - dK)) by (lia || exact Hmz).
      fold dK. lia.
    + replace (dK - 53 - (dK - 53)) with 0 by lia. lia.
    + rewrite Hmz, inject_Z_mult, q2_inject by lia.
      rewrite <- Qmult_assoc, <- q2_add.
      replace (53 - dK + (dK - 53)) with 0 by lia.
      change (2 ^ 0)%Q with 1%Q. apply Qmult_1_r.
Qed.

(** A finite double that is an integer below [2^53]: its exponent is not
    positive. *)
Lemma finite_integer_value (mx : positive) (ex n : Z) :
  bounded prec emax mx ex = true ->
  (inject_Z (Zpos mx) * 2 ^ ex == inject_Z n)%Q ->
  n < 2 ^ 53 ->
  ex <= 0 /\ Zpos mx = n * 2 ^ (- ex).
Proof.
  intros Hb Hval Hn.
  destruct (Z.le_gt_cases ex 0) as [Hex | Hex].
  - split; [exact Hex |].
    apply inject_Z_injective.
    rewrite inject_Z_mult, q2_inject by lia.
    rewrite <- Hval, <- Qmult_assoc, <- q2_add.
    replace (ex + - ex) with 0 by lia.
    change (2 ^ 0)%Q with 1%Q. rewrite Qmult_1_r. reflexivity.
  - exfalso. apply bounded_inv in Hb. destruct Hb as [Hcanon _].
    assert (Hd : Zpos (digits2_pos mx) = 53) by lia.
    destruct (digits2_pos_bounds mx) as [Hlo _]. rewrite Hd in Hlo.
    change (53 - 1) with 52 in Hlo.
    rewrite <- q2_inject, <- inject_Z_mult in Hval by lia.
    apply (proj1 (inject_Z_injective _ _)) in Hval.
    assert (H2 : 2 ^ 1 <= 2 ^ ex) by (apply Z.pow_le_mono_r; lia).
    change (2 ^ 1) with 2 in H2.
    change (2 ^ 53) with (2 ^ 52 * 2) in Hn.
    assert (Hprod : 2 ^ 52 * 2 <= Zpos mx * 2 ^ ex)
      by (apply Z.mul_le_mono_nonneg; lia).
    lia.
Qed.

(** The product of a whole number of seconds by [1e7] is exact as long as
    it has at most 53 significant bits beside its seven trailing zeros. *)
Lemma SFmul_1e7_exact (mx : positive) (ex n : Z) :
  bounded prec emax mx ex = true ->
  (inject_Z (Zpos mx) * 2 ^ ex == inject_Z n)%Q ->
  0 < n -> n * 78125 < 2 ^ 53 ->
  exists m e,
    SFmul prec emax (S754_finite false mx ex)
          (S754_finite false ten7_mantissa (-29))
    = S754_finite false m e /\
    bounded prec emax m e = true /\
    (inject_Z (Zpos m) * 2 ^ e == inject_Z (n * 10000000))%Q.
Proof.
  intros Hb Hval Hn0 Hn.
  destruct (finite_integer_value mx ex n Hb Hval ltac:(lia)) as [Hex Hmx].
  set (a := - ex) in *. assert (Ha : 0 <= a) by (unfold a; lia).
  unfold ten7_mantissa. cbn [SFmul xorb].
  set (M := (mx * 5368709120000000)%positive).
  destruct (n * 10000000) as [| Kp | Kp] eqn:HK; [lia | | lia].
  set (dK := Zpos (digits2_pos Kp)).
  assert (HdK : 24 <= dK <= 60).
  { split.
    - apply (digits2_pos_ge Kp 23). rewrite <- HK.
      change (2 ^ 23) with 8388608. lia.
    - apply digits2_pos_le. rewrite <- HK.
      change (2 ^ 60) with (2 ^ 53 * 128). lia. }
  assert (HP : 0 < 2 ^ a) by (apply Z.pow_pos_nonneg; lia).
  assert (HM : Zpos M = Zpos Kp * 2 ^ (a + 29)).
  { unfold M. rewrite Pos2Z.inj_mul, Hmx, <- HK, Z.pow_add_r by lia.
    change (2 ^ 29) with 536870912. ring. }
  assert (Hd : Zpos (digits2_pos M) = dK + (a + 29))
    by (apply digits2_pos_shift; [lia | exact HM]).
  assert (Hloc : located (Zpos M) 1
                         (shr_record_of_loc (Zpos M) loc_Exact)).
  { unfold located. cbn [shr_record_of_loc shr_m shr_r shr_s].
    repeat split; intros; try discriminate; try lia. }
  assert (Hef : fexp prec emax (Zpos (digits2_pos M) + (ex + -29))
                = dK - 53).
  { rewrite fexp_unfold, Hd. unfold a. lia. }
  set (c := n * 78125 * 2 ^ (60 - dK)).
  assert (HP' : 0 < 2 ^ (60 - dK)) by (apply Z.pow_pos_nonneg; lia).
  destruct (binary_round_aux_exact false M (ex + -29) loc_Exact (Zpos M) 1
                                   c Hloc)
    as (m & e & Hbra & Hbounded & Hexact).
  - rewrite Hef. unfold a in *. lia.
  - rewrite Hef. lia.
  - unfold c. nia.
  - rewrite Hef, HM, <- HK. unfold c.
    replace (dK - 53 - (ex + -29)) with (dK - 53 + (a + 29))
      by (unfold a; lia).
    replace (a + 29) with (7 + (dK - 53 + (a + 29)) - (60 - 53 + (dK - 53)))
      at 1 by lia.
    assert (Hsplit : 2 ^ (60 - dK) * 2 ^ (dK - 53 + (a + 29))
                     = 128 * 2 ^ (a + 29)).
    { rewrite <- Z.pow_add_r by lia.
      replace (60 - dK + (dK - 53 + (a + 29))) with (7 + (a + 29)) by lia.
      rewrite Z.pow_add_r by lia. reflexivity. }
    replace (7 + (dK - 53 + (a + 29)) - (60 - 53 + (dK - 53)))
      with (a + 29) by lia.
    rewrite Z.mul_1_l.
    replace (n * 78125 * 2 ^ (60 - dK) * 2 ^ (dK - 53 + (a + 29)))
      with (n * 78125 * (2 ^ (60 - dK) * 2 ^ (dK - 53 + (a + 29))))
      by ring.
    rewrite Hsplit. ring.
  - exists m, e. split; [exact Hbra |]. split; [exact Hbounded |].
    rewrite Hexact, Hef. unfold c.
    rewrite !inject_Z_mult, q2_inject by lia.
    rewrite <- Qmult_assoc, <- q2_add.
    replace (60 - dK + (dK - 53)) with 7 by lia.
    rewrite <- HK, inject_Z_mult.
    change (2 ^ 7)%Q with (128 # 1)%Q.
    change (inject_Z 78125) with (78125 # 1)%Q.
    change (inject_Z 10000000) with (10000000 # 1)%Q. ring.
Qed.

Lemma int_of_float_integer (p : float) (s : bool) (m : positive) (e K : Z) :
  Prim2SF p = S754_finite s m e ->
  (F2Q p == inject_Z K)%Q ->
  int_of_float p = Ok K.
Proof.
  intros Hp Hval.
  destruct (int_of_float_truncates p) as (k & Hk & Hfloor & Hceil).
  { unfold is_finite_float. rewrite Hp. reflexivity. }
  rewrite Hk. f_equal.
  destruct (Qlt_le_dec (F2Q p) 0) as [Hneg | Hpos].
  - rewrite (Hceil (Qlt_le_weak _ _ Hneg)), Hval. apply Qceiling_Z.
  - rewrite (Hfloor Hpos), Hval. apply Qfloor_Z.
Qed.

Lemma time_to_kronos_time_float_whole (x : float) (n : Z) :
  is_finite_float x = true ->
  (F2Q x == inject_Z n)%Q ->
  0 <= n -> n * 78125 < 2 ^ 53 ->
  time_to_kronos_time (TimeFloat x) = Ok (n * 10000000).
Proof.
  intros Hfin Hval Hn0 Hn.
  change (time_to_kronos_time (TimeFloat x))
    with (int_of_float (x * 1e7)%float).
  unfold is_finite_float in Hfin.
  destruct (Prim2SF x) as [sx | sx | | sx mx ex] eqn:Hx; try discriminate.
  - assert (Hn' : n = 0).
    { apply inject_Z_injective. rewrite <- Hval. unfold F2Q.
      rewrite Hx. reflexivity. }
    subst n.
    assert (Hp : Prim2SF (x * 1e7)%float = S754_zero (xorb sx false))
      by (rewrite mul_spec, Hx, Prim2SF_1e7; reflexivity).
    unfold int_of_float. rewrite Hp. reflexivity.
  - pose proof (F2Q_finite x sx mx ex Hx) as HS.
    assert (Hpow : (0 < 2 ^ ex)%Q) by apply q2_pos.
    assert (Hnq : (0 <= inject_Z n)%Q) by (unfold Qle; cbn; lia).
    destruct sx.
    { exfalso. cbn [cond_Zopp] in HS.
      assert (Hneg : (inject_Z (- Zpos mx) * 2 ^ ex < 0 * 2 ^ ex)%Q).
      { apply Qmult_lt_compat_r; [exact Hpow |].
        unfold Qlt. cbn. lia. }
      lra. }
    cbn [cond_Zopp] in HS.
    assert (Hn1 : 0 < n).
    { destruct (Z.eq_dec n 0) as [-> | Hne]; [| lia]. exfalso.
      assert (Hm : (0 * 2 ^ ex < inject_Z (Zpos mx) * 2 ^ ex)%Q).
      { apply Qmult_lt_compat_r; [exact Hpow |].
        unfold Qlt. cbn. lia. }
      change (inject_Z 0) with 0%Q in Hval. lra. }
    assert (Hb : bounded prec emax mx ex = true).
    { pose proof (Prim2SF_valid x) as Hv. rewrite Hx in Hv. exact Hv. }
    destruct (SFmul_1e7_exact mx ex n Hb ltac:(rewrite <- HS; exact Hval)
                              Hn1 Hn)
      as (m & e & Hmul & _ & Hexact).
    assert (Hp : Prim2SF (x * 1e7)%float = S754_finite false m e)
      by (rewrite mul_spec, Hx, Prim2SF_1e7; exact Hmul).
    apply (int_of_float_integer _ false m e _ Hp).
    rewrite (F2Q_finite _ _ _ _ Hp). exact Hexact.
Qed.

(** [float(n)] of an integer of at most 53 bits is that integer. *)
Lemma float_of_int_exact (n : Z) :
  0 <= n < 2 ^ 53 ->
  exists x, float_of_int n = Ok x /\ is_finite_float x = true /\
            (F2Q x == inject_Z n)%Q.
Proof.
  intros Hn. destruct n as [| Kp | Kp]; [| | lia].
  - exists 0%float. repeat split.
  - destruct (binary_round_int_exact Kp) as (m & e & Hr & Hb & _ & _ & Hv).
    + apply Z.lt_trans with (2 ^ 53); [lia | reflexivity].
    + intros Hd. exfalso.
      pose proof (digits2_pos_le Kp 53 ltac:(lia)). lia.
    + unfold float_of_int. cbn [binary_normalize]. rewrite Hr.
      exists (SF2Prim (S754_finite false m e)).
      assert (Hx : Prim2SF (SF2Prim (S754_finite false m e))
                   = S754_finite false m e)
        by (apply Prim2SF_SF2Prim; exact Hb).
      split; [reflexivity |].
      split; [unfold is_finite_float; rewrite Hx; reflexivity |].
      rewrite (F2Q_finite _ _ _ _ Hx). exact Hv.
Qed.

(** ** The quotient of whole seconds *)

(** The quotient of a whole number of seconds, in ticks, by [1e7] is
    exact. *)
Lemma SFdiv_1e7_exact (mF : positive) (eF : Z) (np : positive) :
  2 ^ 52 <= Zpos mF < 2 ^ 53 -> - 52 <= eF <= 24 ->
  Zpos np < 2 ^ 53 ->
  Zpos mF * 2 ^ 53 = Zpos np * 2 ^ (24 - eF) * 5368709120000000 ->
  exists mq eq,
    SFdiv prec emax (S754_finite false mF eF)
          (S754_finite false ten7_mantissa (-29))
    = S754_finite false mq eq /\
    bounded prec emax mq eq = true /\
    (inject_Z (Zpos mq) * 2 ^ eq == inject_Z (Zpos np))%Q.
Proof.
  intros HmF HeF Hn HN. unfold ten7_mantissa.
  assert (Hd : Zpos (digits2_pos mF) = 53).
  { pose proof (digits2_pos_le mF 53 (proj2 HmF)).
    pose proof (digits2_pos_ge mF 52 (proj1 HmF)). lia. }
  cbn [SFdiv xorb]. unfold SFdiv_core_binary. cbn [Zdigits2].
  rewrite Hd.
  assert (He' : Z.min (fexp prec emax
                         (53 + eF
                          - (Zpos (digits2_pos 5368709120000000) + -29)))
                      (eF - -29) = eF - 24).
  { change (Zpos (digits2_pos 5368709120000000)) with 53.
    rewrite fexp_unfold. lia. }
  rewrite He'. replace (eF - -29 - (eF - 24)) with 53 by lia.
  cbv iota beta.
  rewrite Z.shiftl_mul_pow2 by lia.
  pose proof (Z_div_mod (Zpos mF * 2 ^ 53) 5368709120000000
                        ltac:(reflexivity)) as Hdm.
  destruct (Z.div_eucl (Zpos mF * 2 ^ 53) 5368709120000000) as [q r].
  destruct Hdm as [Hdm Hr].
  set (qv := Zpos np * 2 ^ (24 - eF)) in *.
  assert (Hq : q = qv) by lia.
  assert (HP : 0 < 2 ^ (24 - eF)) by (apply Z.pow_pos_nonneg; lia).
  destruct q as [| qp | qp]; [nia | | nia].
  assert (Hloc : located (Zpos mF * 2 ^ 53) 5368709120000000
                         (shr_record_of_loc
                            (Zpos qp)
                            (new_location 5368709120000000 r))).
  { rewrite Hdm.
    replace (5368709120000000 * Zpos qp + r)
      with (Zpos qp * 5368709120000000 + r) by ring.
    apply new_location_located; lia. }
  set (dn := Zpos (digits2_pos np)).
  assert (Hdn : 1 <= dn <= 53).
  { split; [unfold dn; lia | apply digits2_pos_le; exact Hn]. }
  assert (Hdq : Zpos (digits2_pos qp) = dn + (24 - eF))
    by (apply digits2_pos_shift; [lia | exact Hq]).
  assert (Hq52 : 2 ^ 52 <= Zpos qp).
  { change (2 ^ 53) with 9007199254740992 in *.
    change (2 ^ 52) with 4503599627370496 in *. nia. }
  pose proof (digits2_pos_ge qp 52 Hq52) as Hdq53.
  assert (Hef : fexp prec emax (Zpos (digits2_pos qp) + (eF - 24))
                = dn - 53)
    by (rewrite fexp_unfold, Hdq; lia).
  set (c := Zpos np * 2 ^ (53 - dn)).
  assert (HP' : 0 < 2 ^ (53 - dn)) by (apply Z.pow_pos_nonneg; lia).
  destruct (binary_round_aux_exact
              false qp (eF - 24) (new_location 5368709120000000 r)
              (Zpos mF * 2 ^ 53) 5368709120000000 c Hloc)
    as (mq & eq & Hbra & Hbounded & Hexact).
  - rewrite Hef. lia.
  - rewrite Hef. lia.
  - unfold c. nia.
  - rewrite Hef, HN. unfold c, qv.
    replace (24 - eF) with (53 - dn + (dn - 53 - (eF - 24))) at 1 by lia.
    rewrite Z.pow_add_r by lia. ring.
  - exists mq, eq. split; [exact Hbra |]. split; [exact Hbounded |].
    rewrite Hexact, Hef. unfold c.
    rewrite inject_Z_mult, q2_inject by lia.
    rewrite <- Qmult_assoc, <- q2_add.
    replace (53 - dn + (dn - 53)) with 0 by lia.
    change (2 ^ 0)%Q with 1%Q. apply Qmult_1_r.
Qed.

Lemma kronos_time_to_time_whole (n : Z) :
  0 <= n -> n * 78125 < 2 ^ 53 ->
  exists q,
    kronos_time_to_time (n * 10000000) = Ok q /\
    is_finite_float q = true /\
    (F2Q q == inject_Z n)%Q.
Proof.
  intros Hn0 Hn.
  destruct n as [| np | np]; [| | lia].
  - exists 0%float. repeat split.
  - destruct (Zpos np * 10000000) as [| Kp | Kp] eqn:HK; [lia | | lia].
    set (dK := Zpos (digits2_pos Kp)).
    assert (HK60 : Zpos Kp < 2 ^ 60)
      by (rewrite <- HK; change (2 ^ 60) with (2 ^ 53 * 128); lia).
    assert (HdK : 24 <= dK <= 60).
    { split.
      - apply (digits2_pos_ge Kp 23). rewrite <- HK.
        change (2 ^ 23) with 8388608. lia.
      - apply digits2_pos_le. exact HK60. }
    destruct (binary_round_int_exact Kp)
      as (mF & eF & Hround & Hbounded & HmF & HeF & Hval).
    + apply Z.lt_trans with (2 ^ 60); [exact HK60 | reflexivity].
    + fold dK. intros Hd.
      exists (Zpos np * 78125 * 2 ^ (60 - dK)).
      rewrite <- HK.
      replace (Zpos np * 78125 * 2 ^ (60 - dK) * 2 ^ (dK - 53))
        with (Zpos np * 78125 * (2 ^ (60 - dK) * 2 ^ (dK - 53))) by ring.
      rewrite <- Z.pow_add_r by lia.
      replace (60 - dK + (dK - 53)) with 7 by lia.
      change (2 ^ 7) with 128. ring.
    + (* the exponent of [float(K)] *)
      assert (HeF24 : eF <= 24).
      { destruct (Z.le_gt_cases eF 24) as [H | H]; [exact H | exfalso].
        rewrite <- q2_inject, <- inject_Z_mult in Hval by lia.
        apply (proj1 (inject_Z_injective _ _)) in Hval.
        assert (H25 : 2 ^ 25 <= 2 ^ eF) by (apply Z.pow_le_mono_r; lia).
        assert (Hprod : 2 ^ 52 * 2 ^ 25 <= Zpos mF * 2 ^ eF)
          by (apply Z.mul_le_mono_nonneg; lia).
        change (2 ^ 52 * 2 ^ 25) with (2 ^ 60 * 2 ^ 17) in Hprod.
        change (2 ^ 17) with 131072 in Hprod. lia. }
      assert (HN : Zpos mF * 2 ^ 53
                   = Zpos np * 2 ^ (24 - eF) * 5368709120000000).
      { destruct (Z.le_gt_cases 0 eF) as [Hpos | Hneg].
        - rewrite <- q2_inject, <- inject_Z_mult in Hval by lia.
          apply (proj1 (inject_Z_injective _ _)) in Hval.
          assert (HP : 0 < 2 ^ eF) by (apply Z.pow_pos_nonneg; lia).
          apply (Z.mul_cancel_r _ _ (2 ^ eF)); [lia |].
          replace (Zpos mF * 2 ^ 53 * 2 ^ eF)
            with (Zpos mF * 2 ^ eF * 2 ^ 53) by ring.
          rewrite Hval, <- HK.
          replace (Zpos np * 2 ^ (24 - eF) * 5368709120000000 * 2 ^ eF)
            with (Zpos np * (2 ^ (24 - eF) * 2 ^ eF) * 5368709120000000)
            by ring.
          rewrite <- Z.pow_add_r by lia.
          replace (24 - eF + eF) with 24 by lia.
          change (2 ^ 24) with 16777216.
          change (2 ^ 53) with 9007199254740992. ring.
        - assert (HmFv : Zpos mF = Zpos Kp * 2 ^ (- eF)).
          { apply inject_Z_injective.
            rewrite inject_Z_mult, q2_inject by lia.
            rewrite <- Hval, <- Qmult_assoc, <- q2_add.
            replace (eF + - eF) with 0 by lia.
            change (2 ^ 0)%Q with 1%Q. rewrite Qmult_1_r. reflexivity. }
          rewrite HmFv, <- HK.
          replace (24 - eF) with (24 + - eF) by lia.
          rewrite Z.pow_add_r by lia.
          change (2 ^ 24) with 16777216.
          change (2 ^ 53) with 9007199254740992. ring. }
      destruct (SFdiv_1e7_exact mF eF np HmF ltac:(lia) ltac:(lia) HN)
        as (mq & eq & Hdiv & Hbq & Hq).
      unfold kronos_time_to_time, float_of_int.
      cbn [binary_normalize]. rewrite Hround. cbn [bind].
      set (x := SF2Prim (S754_finite false mF eF)).
      assert (Hx : Prim2SF x = S754_finite false mF eF)
        by (unfold x; apply Prim2SF_SF2Prim; exact Hbounded).
      assert (Hquot : Prim2SF (x / 1e7)%float = S754_finite false mq eq)
        by (rewrite div_spec, Hx, Prim2SF_1e7; exact Hdiv).
      exists (x / 1e7)%float. split; [reflexivity |].
      split; [unfold is_finite_float; rewrite Hquot; reflexivity |].
      rewrite (F2Q_finite _ _ _ _ Hquot). exact Hq.
Qed.

(** ** The conversions of time, beyond the round trip *)

(** X12. For every double [s] with [0 <= s < 2^43],
    [time_to_kronos_time(s)] returns a non-negative integer [k] that
    never exceeds the exact product [s * 10^7] by more than its relative
    rounding error [2^-53], and is within one tick plus that error of
    it. *)
Theorem time_to_kronos_time_error (s : float) :
  is_finite_float s = true ->
  (0 <= F2Q s)%Q -> (F2Q s < inject_Z (2 ^ 43))%Q ->
  exists k,
    time_to_kronos_time (TimeFloat s) = Ok k /\ 0 <= k /\
    (inject_Z k <= F2Q s * (10000000 # 1) * (1 + ulp_half))%Q /\
    (Qabs (inject_Z k - F2Q s * (10000000 # 1))
     <= 1 + F2Q s * (10000000 # 1) * ulp_half)%Q.
Proof.
  intros Hfin H0 H43.
  destruct (time_to_kronos_time_enclosure s Hfin H0 H43)
    as (k & Hk & Hk0 & Hlo & Hhi).
  exists k. split; [exact Hk |]. split; [exact Hk0 |].
  split; [exact Hhi |].
  unfold ulp_half in *. apply Qabs_Qle_condition. split; lra.
Qed.

Lemma time_to_kronos_time_error_witness :
  exists k,
    time_to_kronos_time (TimeFloat 0x1.c000000000001p+30) = Ok k /\
    0 <= k /\
    (inject_Z k
     <= F2Q 0x1.c000000000001p+30 * (10000000 # 1) * (1 + ulp_half))%Q /\
    (Qabs (inject_Z k - F2Q 0x1.c000000000001p+30 * (10000000 # 1))
     <= 1 + F2Q 0x1.c000000000001p+30 * (10000000 # 1) * ulp_half)%Q.
Proof.
  apply (time_to_kronos_time_error 0x1.c000000000001p+30).
  - vm_compute. reflexivity.
  - vm_compute. discriminate.
  - vm_compute. reflexivity.
Defined.

Lemma float_opp_involutive (x : float) : (- - x)%float = x.
Proof.
  apply Prim2SF_inj. rewrite !opp_spec.
  destruct (Prim2SF x) as [[] | [] | | [] m e]; reflexivity.
Qed.

(** X13. For every integer [k] of magnitude below [2^900],
    [kronos_time_to_time(k)] raises nothing and returns a finite double
    within the relative error [2^-52 + 2^-106] of [k / 10^7], the two
    roundings of [float(k)] and of the division; and the conversion is
    odd: for [k <> 0] the result for [-k] is the negated double. *)
Theorem kronos_time_to_time_accuracy (k : Z) :
  - 2 ^ 900 < k < 2 ^ 900 ->
  exists q,
    kronos_time_to_time k = Ok q /\
    is_finite_float q = true /\
    (Qabs (F2Q q - inject_Z k / (10000000 # 1))
     <= Qabs (inject_Z k) / (10000000 # 1)
        * ((1 # 4503599627370496)
           + (1 # 81129638414606681695789005144064)))%Q /\
    (k <> 0 -> kronos_time_to_time (- k) = Ok (- q)%float).
Proof.
  intros Hk.
  destruct (kronos_time_to_time_relative k Hk) as (q & Hq & Hfin & Hacc).
  exists q. split; [exact Hq |]. split; [exact Hfin |].
  split; [exact Hacc |]. intros Hne.
  destruct k as [| Kp | Kp]; [contradiction | |].
  - destruct (kronos_time_to_time_negative Kp ltac:(lia)) as (q' & Hq' & Hn).
    rewrite Hq in Hq'. injection Hq' as <-. exact Hn.
  - destruct (kronos_time_to_time_negative Kp ltac:(lia)) as (q' & Hq' & Hn).
    rewrite Hq in Hn. injection Hn as ->.
    rewrite float_opp_involutive. exact Hq'.
Qed.

Lemma kronos_time_to_time_accuracy_witness :
  exists q,
    kronos_time_to_time (- 14000000000000001) = Ok q /\
    is_finite_float q = true /\
    (Qabs (F2Q q - inject_Z (- 14000000000000001) / (10000000 # 1))
     <= Qabs (inject_Z (- 14000000000000001)) / (10000000 # 1)
        * ((1 # 4503599627370496)
           + (1 # 81129638414606681695789005144064)))%Q /\
    (- 14000000000000001 <> 0 ->
     kronos_time_to_time (- - 14000000000000001) = Ok (- q)%float).
Proof.
  apply (kronos_time_to_time_accuracy (- 14000000000000001)).
  vm_compute. split; reflexivity.
Defined.

(** X14. [uuid_to_time] never fails on a UUID: for every well-formed
    one, of any version, it returns a finite double within the relative
    error [2^-52 + 2^-106] of the seconds [(time - 0x01b21dd213814000) /
    10^7], which are negative for a timestamp before 1970.  For a value
    that is not a UUID it raises the generic [Exception] of
    [uuid_to_kronos_time]. *)
Theorem uuid_to_time_total :
  (forall u : UUID,
      0 <= uuid_int u < 2 ^ 128 ->
      exists q,
        uuid_to_time (ObjUUID u) = Ok q /\
        is_finite_float q = true /\
        let k := time u - 0x01b21dd213814000 in
        (Qabs (F2Q q - inject_Z k / (10000000 # 1))
         <= Qabs (inject_Z k) / (10000000 # 1)
            * ((1 # 4503599627370496)
               + (1 # 81129638414606681695789005144064)))%Q) /\
  (forall obj : pyobj,
      (forall u, obj <> ObjUUID u) ->
      uuid_to_time obj = Raise (Exception "Expected type UUID")).
Proof.
  split.
  - intros u Hu. pose proof (time_range u Hu) as Ht.
    unfold uuid_to_time. cbn [uuid_to_kronos_time bind]. cbv zeta.
    apply kronos_time_to_time_relative.
    assert (H60 : 2 ^ 60 < 2 ^ 900) by (apply Z.pow_lt_mono_r; lia).
    change (2 ^ 60) with 1152921504606846976 in *. lia.
  - intros obj Hobj. destruct obj as [u | n | s |]; try reflexivity.
    exfalso. apply (Hobj u). reflexivity.
Qed.

Lemma uuid_to_time_total_witness :
  (exists q,
      uuid_to_time (ObjUUID id_300) = Ok q /\
      is_finite_float q = true /\
      let k := time id_300 - 0x01b21dd213814000 in
      (Qabs (F2Q q - inject_Z k / (10000000 # 1))
       <= Qabs (inject_Z k) / (10000000 # 1)
          * ((1 # 4503599627370496)
             + (1 # 81129638414606681695789005144064)))%Q) /\
  uuid_to_time ObjNone = Raise (Exception "Expected type UUID").
Proof.
  destruct uuid_to_time_total as [Huuid Hother]. split.
  - apply Huuid. vm_compute. split; [discriminate | reflexivity].
  - apply Hother. intros u. discriminate.
Defined.

(** X15. [uuid_from_time] fails exactly as [time_to_kronos_time] does,
    with the same exception, since building the id never fails.  When the
    conversion returns [k] the id carries the timestamp
    [k + 0x01b21dd213814000] reduced modulo [2^60]; a [datetime] argument
    always ends in [TypeError]. *)
Theorem uuid_from_time_failures (t : pytime) (ty : UUIDType) (r : Z) :
  (forall e, uuid_from_time t ty r = Raise e
             <-> time_to_kronos_time t = Raise e) /\
  (forall k, time_to_kronos_time t = Ok k ->
             exists u, uuid_from_time t ty r = Ok u /\
                       time u = (k + 0x01b21dd213814000) mod 2 ^ 60) /\
  (forall d, t = TimeDatetime d -> uuid_from_time t ty r = Raise TypeError).
Proof.
  unfold uuid_from_time. split; [| split].
  - intros e. destruct (time_to_kronos_time t) as [k | e']; cbn [bind].
    + destruct (uuid_from_kronos_time_total k ty r) as (u & ->).
      split; discriminate.
    + split; intros [= <-]; reflexivity.
  - intros k ->. cbn [bind]. apply time_of_uuid_from_kronos_time.
  - intros d ->. reflexivity.
Qed.

Lemma uuid_from_time_failures_witness :
  (exists u, uuid_from_time (TimeInt 5) RANDOM 0xdeadbeef = Ok u /\
             time u = (50000000 + 0x01b21dd213814000) mod 2 ^ 60) /\
  uuid_from_time (TimeDatetime (utcfromtimestamp 5)) RANDOM 0xdeadbeef
  = Raise TypeError.
Proof.
  destruct (uuid_from_time_failures (TimeInt 5) RANDOM 0xdeadbeef)
    as (_ & Hok & _).
  destruct (uuid_from_time_failures (TimeDatetime (utcfromtimestamp 5))
                                    RANDOM 0xdeadbeef)
    as (_ & _ & Hdt).
  split.
  - apply Hok. vm_compute. reflexivity.
  - apply (Hdt (utcfromtimestamp 5)). reflexivity.
Defined.

Lemma uuid_roundtrip_arith (S V K F G Qv : Q) :
  (0 <= S)%Q ->
  (V == S * (10000000 # 1))%Q ->
  (V * (1 - ulp_half) - 1 < K /\ K <= V * (1 + ulp_half))%Q ->
  (K * (1 - ulp_half) <= F /\ F <= K * (1 + ulp_half))%Q ->
  (G == F / (10000000 # 1))%Q ->
  (G * (1 - ulp_half) <= Qv /\ Qv <= G * (1 + ulp_half))%Q ->
  (Qabs (Qv - S) <= (1 # 10000000) + S * (1 # 2251799813685248))%Q.
Proof.
  unfold ulp_half. intros HS HV HK HF HG HQ.
  assert (HG' : (G * (10000000 # 1) == F)%Q) by (rewrite HG; field).
  apply Qabs_Qle_condition. split; lra.
Qed.

(** X16. From seconds to an id and back: for every double [s] with
    [0 <= s <= 10^11] (up to the year 5138, where the timestamp still fits
    sixty bits), every kind and every entropy, [uuid_from_time(s)] returns
    an id and [uuid_to_time] of it is a finite double within
    [1e-7 + s * 2^-51] of [s]. *)
Theorem uuid_time_roundtrip (s : float) (ty : UUIDType) (r : Z) :
  is_finite_float s = true ->
  (0 <= F2Q s)%Q -> (F2Q s <= inject_Z (10 ^ 11))%Q ->
  exists u q,
    uuid_from_time (TimeFloat s) ty r = Ok u /\
    uuid_to_time (ObjUUID u) = Ok q /\
    is_finite_float q = true /\
    (Qabs (F2Q q - F2Q s)
     <= (1 # 10000000) + F2Q s * (1 # 2251799813685248))%Q.
Proof.
  intros Hfin H0 H11.
  change (inject_Z (10 ^ 11)) with (100000000000 # 1)%Q in H11.
  destruct (time_to_kronos_time_enclosure s Hfin H0) as (k & Hk & Hk0 & Henc).
  { change (inject_Z (2 ^ 43)) with (8796093022208 # 1)%Q. lra. }
  cbv zeta in Henc.
  assert (Hkhi : k <= 10 ^ 18 + 112).
  { rewrite Zle_Qle.
    change (inject_Z (10 ^ 18 + 112)) with (1000000000000000112 # 1)%Q.
    unfold ulp_half in Henc. lra. }
  destruct (time_of_uuid_from_kronos_time k ty r) as (u & Hu & Htime).
  rewrite Z.mod_small in Htime
    by (change (2 ^ 60) with 1152921504606846976;
        change (10 ^ 18) with 1000000000000000000 in Hkhi; lia).
  assert (Hto : uuid_to_time (ObjUUID u) = kronos_time_to_time k).
  { unfold uuid_to_time. cbn [uuid_to_kronos_time bind]. rewrite Htime.
    f_equal. lia. }
  exists u.
  assert (Hfrom : uuid_from_time (TimeFloat s) ty r = Ok u)
    by (unfold uuid_from_time; rewrite Hk; exact Hu).
  destruct k as [| Kp | Kp]; [| | lia].
  - exists 0%float. split; [exact Hfrom |]. split; [exact Hto |].
    split; [reflexivity |].
    pose proof F2Q_zero as HQ0. change (inject_Z 0) with 0%Q in Henc.
    unfold ulp_half in Henc. apply Qabs_Qle_condition. split; lra.
  - assert (HKlt : Zpos Kp < 2 ^ 900).
    { apply Z.le_lt_trans with (1 := Hkhi).
      apply Z.lt_trans with (2 ^ 60); [reflexivity |].
      apply Z.pow_lt_mono_r; lia. }
    destruct (kronos_time_to_time_positive Kp HKlt)
      as (q & F & G & Hq & Hqfin & HF & HG & HQ).
    exists q. split; [exact Hfrom |].
    split; [rewrite Hto; exact Hq |]. split; [exact Hqfin |].
    apply (uuid_roundtrip_arith (F2Q s) (F2Q s * (10000000 # 1))
                                (inject_Z (Zpos Kp)) F G (F2Q q));
      try assumption. reflexivity.
Qed.

Lemma uuid_time_roundtrip_witness :
  exists u q,
    uuid_from_time (TimeFloat 0x1.c000000000001p+30) HIGHEST 7 = Ok u /\
    uuid_to_time (ObjUUID u) = Ok q /\
    is_finite_float q = true /\
    (Qabs (F2Q q - F2Q 0x1.c000000000001p+30)
     <= (1 # 10000000)
        + F2Q 0x1.c000000000001p+30 * (1 # 2251799813685248))%Q.
Proof.
  apply (uuid_time_roundtrip 0x1.c000000000001p+30 HIGHEST 7).
  - vm_compute. reflexivity.
  - vm_compute. discriminate.
  - vm_compute. discriminate.
Defined.

(** X17. Whole seconds convert exactly.  For every integer [n] with
    [0 <= n] and [n * 5^7 < 2^53] (about 1.15e11 seconds),
    [time_to_kronos_time(n)] is [n * 10^7], and so is the conversion of any
    finite double whose value is [n]: neither [float(n)] nor the product
    by [1e7] is rounded. *)
Theorem time_to_kronos_time_whole_seconds (n : Z) :
  0 <= n -> n * 78125 < 2 ^ 53 ->
  time_to_kronos_time (TimeInt n) = Ok (n * 10000000) /\
  (forall x, is_finite_float x = true -> (F2Q x == inject_Z n)%Q ->
             time_to_kronos_time (TimeFloat x) = Ok (n * 10000000)).
Proof.
  intros Hn0 Hn. split.
  - destruct (float_of_int_exact n) as (x & Hx & Hfin & Hval).
    { split; [exact Hn0 |]. lia. }
    rewrite (time_to_kronos_time_numeric (TimeInt n) x Hx).
    apply (time_to_kronos_time_float_whole x n Hfin Hval Hn0 Hn).
  - intros x Hfin Hval.
    apply (time_to_kronos_time_float_whole x n Hfin Hval Hn0 Hn).
Qed.

Lemma time_to_kronos_time_whole_seconds_witness :
  time_to_kronos_time (TimeInt 1700000000) = Ok (1700000000 * 10000000) /\
  (forall x, is_finite_float x = true ->
             (F2Q x == inject_Z 1700000000)%Q ->
             time_to_kronos_time (TimeFloat x)
             = Ok (1700000000 * 10000000)).
Proof.
  apply (time_to_kronos_time_whole_seconds 1700000000).
  - lia.
  - vm_compute. reflexivity.
Defined.

(** X18. On whole seconds the round trip is the identity.  For [n] as in
    X17, [kronos_time_to_time] of [time_to_kronos_time(n)] is a finite
    double whose value is exactly [n], and converting that double again
    gives the same ticks. *)
Theorem kronos_time_to_time_whole_seconds (n : Z) :
  0 <= n -> n * 78125 < 2 ^ 53 ->
  exists k q,
    time_to_kronos_time (TimeInt n) = Ok k /\
    kronos_time_to_time k = Ok q /\
    is_finite_float q = true /\
    (F2Q q == inject_Z n)%Q /\
    time_to_kronos_time (TimeFloat q) = Ok k.
Proof.
  intros Hn0 Hn.
  destruct (kronos_time_to_time_whole n Hn0 Hn) as (q & Hq & Hfin & Hval).
  exists (n * 10000000), q.
  destruct (float_of_int_exact n) as (x & Hx & Hxfin & Hxval).
  { split; [exact Hn0 |]. lia. }
  split.
  { rewrite (time_to_kronos_time_numeric (TimeInt n) x Hx).
    apply (time_to_kronos_time_float_whole x n Hxfin Hxval Hn0 Hn). }
  split; [exact Hq |]. split; [exact Hfin |]. split; [exact Hval |].
  apply (time_to_kronos_time_float_whole q n Hfin Hval Hn0 Hn).
Qed.

Lemma kronos_time_to_time_whole_seconds_witness :
  exists k q,
    time_to_kronos_time (TimeInt 1700000000) = Ok k /\
    kronos_time_to_time k = Ok q /\
    is_finite_float q = true /\
    (F2Q q == inject_Z 1700000000)%Q /\
    time_to_kronos_time (TimeFloat q) = Ok k.
Proof.
  apply (kronos_time_to_time_whole_seconds 1700000000).
  - lia.
  - vm_compute. reflexivity.
Defined.

Lemma int_of_float_whole (q : float) (n : Z) :
  is_finite_float q = true -> (F2Q q == inject_Z n)%Q ->
  int_of_float q = Ok n.
Proof.
  intros Hfin Hval. unfold is_finite_float in Hfin.
  destruct (Prim2SF q) as [s | s | | s m e] eqn:Hq; try discriminate.
  - unfold int_of_float. rewrite Hq. f_equal.
    apply inject_Z_injective. rewrite <- Hval. unfold F2Q. rewrite Hq.
    reflexivity.
  - apply (int_of_float_integer q s m e n Hq Hval).
Qed.

(** X19. [kronos_time_to_datetime] on a time that is a whole number [n]
    of seconds (with [n] as in X17): without [round_up] it returns the
    datetime of second [n]; with [round_up] it returns the datetime of
    second [n + 1], so [round_up] adds a second even when there is nothing
    to round. *)
Theorem kronos_time_to_datetime_whole_seconds (n : Z) :
  0 <= n -> n * 78125 < 2 ^ 53 ->
  kronos_time_to_datetime (n * 10000000) false = Ok (utcfromtimestamp n) /\
  kronos_time_to_datetime (n * 10000000) true
  = Ok (utcfromtimestamp (n + 1)).
Proof.
  intros Hn0 Hn.
  destruct (kronos_time_to_time_whole n Hn0 Hn) as (q & Hq & Hfin & Hval).
  unfold kronos_time_to_time in Hq. unfold kronos_time_to_datetime.
  destruct (float_of_int (n * 10000000)) as [x | e]; [| discriminate Hq].
  cbn [bind] in Hq |- *. injection Hq as ->.
  rewrite (int_of_float_whole _ n Hfin Hval). cbn [bind].
  change (2 ^ 53) with 9007199254740992 in Hn.
  unfold utcfromtimestamp_checked.
  split.
  - replace ((-62135596800 <=? n) && (n <=? 253402300799)) with true;
      [reflexivity |].
    symmetry. apply andb_true_iff. split; apply Z.leb_le; lia.
  - replace ((-62135596800 <=? n + 1) && (n + 1 <=? 253402300799))
      with true; [reflexivity |].
    symmetry. apply andb_true_iff. split; apply Z.leb_le; lia.
Qed.

Lemma kronos_time_to_datetime_whole_seconds_witness :
  kronos_time_to_datetime (1700000000 * 10000000) false
  = Ok (utcfromtimestamp 1700000000) /\
  kronos_time_to_datetime (1700000000 * 10000000) true
  = Ok (utcfromtimestamp (1700000000 + 1)).
Proof.
  apply (kronos_time_to_datetime_whole_seconds 1700000000).
  - lia.
  - vm_compute. reflexivity.
Defined.

(** ** Times before the epoch *)

Lemma SFmul_opp_l (x : spec_float) (m : positive) (e : Z) :
  SFmul prec emax (SFopp x) (S754_finite false m e)
  = SFopp (SFmul prec emax x (S754_finite false m e)).
Proof.
  destruct x as [s | s | | s mx ex]; cbn [SFopp SFmul]; try reflexivity.
  - destruct s; reflexivity.
  - destruct s; reflexivity.
  - rewrite !xorb_false_r. apply binary_round_aux_opp.
Qed.

Lemma int_of_float_opp (x : float) :
  int_of_float (- x) = (k <- int_of_float x ;; Ok (- k)).
Proof.
  unfold int_of_float. rewrite opp_spec.
  destruct (Prim2SF x) as [s | s | | s m e]; cbn [SFopp bind];
    try reflexivity.
  destruct s; cbn [negb cond_Zopp]; f_equal; lia.
Qed.

(** X20. [time_to_kronos_time] is odd on doubles: for every double [s],
    zeros, infinities and NaN included, converting [-s] fails exactly as
    converting [s] does, and otherwise returns the opposite integer.
    Truncation is toward zero on both sides of the epoch. *)
Theorem time_to_kronos_time_odd (s : float) :
  time_to_kronos_time (TimeFloat (- s))
  = (k <- time_to_kronos_time (TimeFloat s) ;; Ok (- k)).
Proof.
  change (time_to_kronos_time (TimeFloat (- s)))
    with (int_of_float (- s * 1e7)%float).
  change (time_to_kronos_time (TimeFloat s))
    with (int_of_float (s * 1e7)%float).
  rewrite <- int_of_float_opp. f_equal. apply Prim2SF_inj.
  rewrite opp_spec, !mul_spec, opp_spec, Prim2SF_1e7.
  apply SFmul_opp_l.
Qed.

(** ** [kronos_time_to_datetime] beyond the years of a datetime *)

(** X21. A kronos time past the year 9999 cannot become a datetime: for
    every [k] from [253402300801 * 10^7] up (below [2^900]), which
    includes the upper part of the signed 64-bit range,
    [kronos_time_to_datetime(k)] raises [ValueError], with or without
    [round_up]. *)
Theorem kronos_time_to_datetime_after_year_9999 (k : Z) (round_up : bool) :
  2534023008010000000 <= k < 2 ^ 900 ->
  kronos_time_to_datetime k round_up = Raise ValueError.
Proof.
  intros Hk. destruct k as [| Kp | Kp]; [lia | | lia].
  destruct (kronos_time_to_time_positive Kp ltac:(lia))
    as (q & F & G & Hq & Hfin & HF & HG & HQ).
  unfold kronos_time_to_time in Hq. unfold kronos_time_to_datetime.
  destruct (float_of_int (Zpos Kp)) as [x | e]; [| discriminate Hq].
  cbn [bind] in Hq |- *. injection Hq as ->.
  assert (HK : (2534023008010000000 # 1 <= inject_Z (Zpos Kp))%Q)
    by (change (2534023008010000000 # 1)%Q
          with (inject_Z 2534023008010000000);
        rewrite <- Zle_Qle; lia).
  assert (HG' : (G * (10000000 # 1) == F)%Q) by (rewrite HG; field).
  unfold ulp_half in *.
  assert (Hlow : (inject_Z 253402300800 <= F2Q q)%Q).
  { change (inject_Z 253402300800) with (253402300800 # 1)%Q. lra. }
  destruct (int_of_float_truncates q Hfin)
    as (t & Ht & Hfloor & _).
  rewrite Ht. cbn [bind].
  assert (Ht' : 253402300800 <= t).
  { rewrite Hfloor.
    - rewrite <- (Qfloor_Z 253402300800). apply Qfloor_resp_le. exact Hlow.
    - change (inject_Z 253402300800) with (253402300800 # 1)%Q in Hlow.
      lra. }
  unfold utcfromtimestamp_checked.
  replace ((if round_up then t + 1 else t) <=? 253402300799) with false
    by (symmetry; apply Z.leb_gt; destruct round_up; lia).
  rewrite andb_false_r. reflexivity.
Qed.

Lemma kronos_time_to_datetime_after_year_9999_witness :
  kronos_time_to_datetime (2 ^ 63 - 1) false = Raise ValueError.
Proof.
  apply (kronos_time_to_datetime_after_year_9999 (2 ^ 63 - 1) false).
  vm_compute. split; [discriminate | reflexivity].
Defined.

(** ** The entropy of a RANDOM id *)

Lemma set_version_low_bits (x : Z) :
  (set_version 4 x) mod 2 ^ 64 = 2 ^ 63 + x mod 2 ^ 62.
Proof.
  assert (Hr : 0 <= x mod 2 ^ 62 < 2 ^ 62) by (apply Z.mod_pos_bound; lia).
  replace (2 ^ 63 + x mod 2 ^ 62) with (Z.lor (2 ^ 63) (x mod 2 ^ 62))
    by (change (2 ^ 63) with (2 * 2 ^ 62);
        apply lor_mul_pow2_small; lia).
  apply Z.bits_inj'. intros i Hi.
  unfold set_version.
  change (Z.shiftl 0xc000 48) with (Z.lor (2 ^ 63) (2 ^ 62)).
  change (Z.shiftl 0x8000 48) with (2 ^ 63).
  change (Z.shiftl 0xf000 64)
    with (Z.lor (2 ^ 79) (Z.lor (2 ^ 78) (Z.lor (2 ^ 77) (2 ^ 76)))).
  change (Z.shiftl 4 76) with (2 ^ 78).
  assert (Hmod : Z.testbit (x mod 2 ^ 62) i
                 = if i <? 62 then Z.testbit x i else false).
  { destruct (Z.ltb_spec i 62).
    - apply Z.mod_pow2_bits_low. lia.
    - apply Z.mod_pow2_bits_high. lia. }
  destruct (Z.ltb_spec i 64) as [Hlt | Hge].
  - rewrite Z.mod_pow2_bits_low by lia.
    repeat rewrite ?Z.lor_spec, ?Z.land_spec, ?Z.lnot_spec,
      ?Z.pow2_bits_eqb by lia.
    rewrite Hmod.
    repeat match goal with
           | |- context [?a =? ?b] => destruct (Z.eqb_spec a b); try lia
           end;
      destruct (Z.ltb_spec i 62); try lia;
      destruct (Z.testbit x i); reflexivity.
  - rewrite Z.mod_pow2_bits_high by lia.
    rewrite Z.lor_spec, Z.pow2_bits_eqb, Hmod by lia.
    destruct (Z.eqb_spec 63 i); [lia |].
    destruct (Z.ltb_spec i 62); [lia | reflexivity].
Qed.

Lemma uuid4_low_fields (r : Z) :
  clock_seq_hi_variant (uuid4 r) = 0x80 + (r / 2 ^ 56) mod 2 ^ 6 /\
  clock_seq_low (uuid4 r) = (r / 2 ^ 48) mod 2 ^ 8 /\
  node (uuid4 r) = r mod 2 ^ 48.
Proof.
  unfold clock_seq_hi_variant, clock_seq_low, node, uuid4. cbn [uuid_int].
  pose proof (set_version_low_bits (r mod 2 ^ 128)) as H.
  revert H. generalize (set_version 4 (r mod 2 ^ 128)). intros y H.
  change 0xff with (2 ^ 8 - 1). change 0xffffffffffff with (2 ^ 48 - 1).
  rewrite !land_mask by lia. rewrite !Z.shiftr_div_pow2 by lia.
  revert H.
  change (2 ^ 128) with 340282366920938463463374607431768211456.
  change (2 ^ 64) with 18446744073709551616.
  change (2 ^ 63) with 9223372036854775808.
  change (2 ^ 62) with 4611686018427387904.
  change (2 ^ 56) with 72057594037927936.
  change (2 ^ 48) with 281474976710656.
  change (2 ^ 8) with 256. change (2 ^ 6) with 64.
  intros H. repeat split; Z.div_mod_to_equations; lia.
Qed.

(** X22. A RANDOM id keeps 62 bits of the entropy [uuid4()] draws: two
    calls for the same time return the same id exactly when the sixteen
    random bytes agree on their low 62 bits, the other bits being
    overwritten by the variant or left out of the fields that are
    copied. *)
Theorem random_id_keeps_62_bits (t r r' : Z) :
  uuid_from_kronos_time t RANDOM r = uuid_from_kronos_time t RANDOM r'
  <-> r mod 2 ^ 62 = r' mod 2 ^ 62.
Proof.
  destruct (uuid4_fields r) as (Hcsl & Hcsh & Hnd).
  destruct (uuid4_fields r') as (Hcsl' & Hcsh' & Hnd').
  rewrite (uuid_from_kronos_time_fields
             t RANDOM r (clock_seq_hi_variant (uuid4 r))
             (clock_seq_low (uuid4 r)) (node (uuid4 r)))
    by (lia || reflexivity).
  rewrite (uuid_from_kronos_time_fields
             t RANDOM r' (clock_seq_hi_variant (uuid4 r'))
             (clock_seq_low (uuid4 r')) (node (uuid4 r')))
    by (lia || reflexivity).
  destruct (uuid4_low_fields r) as (Ecsh & Ecsl & End).
  destruct (uuid4_low_fields r') as (Ecsh' & Ecsl' & End').
  set (csh := clock_seq_hi_variant (uuid4 r)) in *.
  set (csl := clock_seq_low (uuid4 r)) in *.
  set (nd := node (uuid4 r)) in *.
  set (csh' := clock_seq_hi_variant (uuid4 r')) in *.
  set (csl' := clock_seq_low (uuid4 r')) in *.
  set (nd' := node (uuid4 r')) in *.
  clearbody csh csl nd csh' csl' nd'.
  cbv zeta. unfold packed.
  generalize (ts_low (t + 0x01b21dd213814000))
             (ts_mid (t + 0x01b21dd213814000))
             (ts_hi (t + 0x01b21dd213814000)).
  intros tl tm th.
  change (2 ^ 96) with 79228162514264337593543950336.
  change (2 ^ 80) with 1208925819614629174706176.
  change (2 ^ 64) with 18446744073709551616.
  change (2 ^ 62) with 4611686018427387904.
  change (2 ^ 56) with 72057594037927936 in *.
  change (2 ^ 48) with 281474976710656 in *.
  change (2 ^ 8) with 256 in *. change (2 ^ 6) with 64 in *.
  assert (HS : forall z,
             (128 + (z / 72057594037927936) mod 64) * 72057594037927936
             + (z / 281474976710656) mod 256 * 281474976710656
             + z mod 281474976710656
             = 9223372036854775808 + z mod 4611686018427387904)
    by (intros z; Z.div_mod_to_equations; lia).
  pose proof (HS r) as Hsum. pose proof (HS r') as Hsum'.
  change (2 ^ 56) with 72057594037927936 in Ecsh, Ecsh'.
  split.
  - intros [= E]. lia.
  - intros E. do 2 f_equal. lia.
Qed.
